(** * The IMX219 sensor driver (drivers/media/i2c/imx219.c)

    A shallow embedding of the sensor-control logic of the driver: the mode
    catalog and best-fit selection, the control handler (gain, exposure,
    test pattern, blanking), the streaming sequence, the format and HDR
    entry points, the identity probe, the enumerations, the 32-bit
    compatibility entry point and the registration of the controls,
    followed by the properties the specification states about them and by
    further properties of the entry points and of their compositions.

    Machine integers are values of [Z] with the conversions of the C code
    written out ([u8], [u16], [u32], [s32]).  Everything the driver does to
    the outside (I2C transfers, clock gating, calls into the control
    framework) is appended to one ordered trace, and the outcome of every
    bus transfer is taken from an arbitrary oracle, so a statement proved
    for every world holds for every behaviour of the bus.  The mutex of
    [struct imx219] is not modelled: each entry point runs to completion. *)

From Stdlib Require Import ZArith List Bool Lia.
From Stdlib Require String.
Import ListNotations.
Local Open Scope Z_scope.

(** ** Machine integers *)

Definition u8 (x : Z) : Z := x mod 2 ^ 8.
Definition u16 (x : Z) : Z := x mod 2 ^ 16.
Definition u32 (x : Z) : Z := x mod 2 ^ 32.

(** Conversion to [int] (two's complement, 32 bits). *)
Definition s32 (x : Z) : Z := (x + 2 ^ 31) mod 2 ^ 32 - 2 ^ 31.

(** A C condition: any non-zero value is true. *)
Definition nonzero (x : Z) : bool := negb (x =? 0).

(** Modelled from the spec: [abs] is a macro of include/linux/kernel.h, which
    is not among the sources.  The spec reads it as the absolute value
    [|a - b|]; the macro takes the absolute value of its argument converted
    to the signed type of the same width, so an [u32] difference goes
    through [int] first (the kernel is built with wrapping signed
    arithmetic, hence the negation of [INT_MIN] is [INT_MIN]). *)
Definition abs (x : Z) : Z :=
  let __x := s32 x in
  if __x <? 0 then s32 (- __x) else __x.

(** Modelled from the spec: [DIV_ROUND_CLOSEST] is a macro of
    include/linux/kernel.h, which is not among the sources.  The spec asks
    for round-to-nearest with halves away from zero on positive operands;
    on the [u32] operands it is used with here that is [(x + d / 2) / d] in
    [u32] arithmetic. *)
Definition DIV_ROUND_CLOSEST (x divisor : Z) : Z :=
  Z.quot (u32 (x + Z.quot divisor 2)) divisor.

Definition put_unaligned_be16 (v : Z) : list Z :=
  [Z.land (Z.shiftr v 8) 255; Z.land v 255].

Definition put_unaligned_be32 (v : Z) : list Z :=
  [Z.land (Z.shiftr v 24) 255; Z.land (Z.shiftr v 16) 255;
   Z.land (Z.shiftr v 8) 255; Z.land v 255].

(** ** Constants *)

(** Error numbers of include/uapi/asm-generic/errno-base.h, errno.h and
    include/linux/errno.h. *)
Definition EIO : Z := 5.
Definition ENODEV : Z := 19.
Definition EINVAL : Z := 22.
Definition EREMOTEIO : Z := 121.
Definition ENOIOCTLCMD : Z := 515.

Definition REG_VALUE_08BIT : Z := 1.
Definition REG_VALUE_16BIT : Z := 2.

Definition IMX219_TABLE_END : Z := 0xffff.

Definition IMX219_REG_MODEL_ID : Z := 0x0000.
Definition IMX219_REG_LOT_ID_H : Z := 0x0004.
Definition IMX219_REG_LOT_ID_M : Z := 0x0005.
Definition IMX219_REG_LOT_ID_L : Z := 0x0006.
Definition IMX219_REG_CHIP_ID : Z := 0x000D.
Definition IMX219_REG_MODE_SELECT : Z := 0x0100.
Definition IMX219_REG_EXPOSURE : Z := 0x015A.
Definition IMX219_REG_ANA_GAIN_GLOBAL_A : Z := 0x0157.
Definition IMX219_REG_DIG_GAIN_GLOBAL_A : Z := 0x0158.
Definition IMX219_REG_FRM_LENGTH_A : Z := 0x0160.
Definition IMX219_REG_IMG_ORIENTATION : Z := 0x0172.
Definition IMX219_REG_TP : Z := 0x0600.
Definition IMX219_REG_TD_R : Z := 0x0602.
Definition IMX219_REG_TD_GR : Z := 0x0604.
Definition IMX219_REG_TD_B : Z := 0x0606.
Definition IMX219_REG_TD_GB : Z := 0x0608.
Definition IMX219_REG_TP_WINDOW_WIDTH : Z := 0x0624.
Definition IMX219_REG_TP_WINDOW_HEIGHT : Z := 0x0626.

Definition IMX219_EXP_LINES_MARGIN : Z := 4.
Definition IMX219_VTS_MAX : Z := 0xffff.
Definition IMX219_MODEL_ID : Z := 0x0219.

(** Values of the uapi headers (media-bus-format.h, videodev2.h,
    v4l2-subdev.h) and of rk-camera-module.h. *)
Definition MEDIA_BUS_FMT_SRGGB10_1X10 : Z := 0x300f.
Definition V4L2_FIELD_NONE : Z := 1.
Definition V4L2_COLORSPACE_RAW : Z := 11.
Definition V4L2_SUBDEV_FORMAT_TRY : Z := 0.
Definition V4L2_SUBDEV_FORMAT_ACTIVE : Z := 1.
Definition NO_HDR : Z := 0.

Definition TEST_PATTERN_DISABLED : Z := 0.
Definition TEST_PATTERN_SOLID_COLOR : Z := 1.
Definition TEST_PATTERN_COLOR_BAR : Z := 2.
Definition TEST_PATTERN_FADE_TO_GREY_COLOR_BAR : Z := 3.
Definition TEST_PATTERN_PN9 : Z := 4.

Definition test_pattern_val : list Z :=
  [TEST_PATTERN_DISABLED; TEST_PATTERN_SOLID_COLOR; TEST_PATTERN_COLOR_BAR;
   TEST_PATTERN_FADE_TO_GREY_COLOR_BAR; TEST_PATTERN_PN9].

(** ** The mode catalog *)

Record imx219_reg := mkreg { addr : Z; val : Z }.

Record v4l2_fract := { numerator : Z; denominator : Z }.

Record imx219_mode := {
  bus_fmt : Z;
  width : Z;
  height : Z;
  max_fps : v4l2_fract;
  hts_def : Z;
  vts_def : Z;
  reg_list : list imx219_reg;
  hdr_mode : Z;
  freq_idx : Z
}.

Definition imx219_init_tab_3280_2464_21fps : list imx219_reg :=
  [ mkreg 0x30EB 0x05; mkreg 0x30EB 0x0C; mkreg 0x300A 0xFF;
    mkreg 0x300B 0xFF; mkreg 0x30EB 0x05; mkreg 0x30EB 0x09;
    mkreg 0x0114 0x01; mkreg 0x0128 0x00; mkreg 0x012A 0x18;
    mkreg 0x012B 0x00; mkreg 0x0164 0x00; mkreg 0x0165 0x00;
    mkreg 0x0166 0x0c; mkreg 0x0167 0xcf; mkreg 0x0168 0x00;
    mkreg 0x0169 0x00; mkreg 0x016A 0x09; mkreg 0x016B 0x9f;
    mkreg 0x016C 0x0c; mkreg 0x016D 0xd0; mkreg 0x016E 0x09;
    mkreg 0x016f 0xa0; mkreg 0x015A 0x01; mkreg 0x015B 0xF4;
    mkreg 0x0160 0x09; mkreg 0x0161 0xC4; mkreg 0x0162 0x0D;
    mkreg 0x0163 0x78; mkreg 0x0260 0x09; mkreg 0x0261 0xC4;
    mkreg 0x0262 0x0D; mkreg 0x0263 0x78; mkreg 0x0170 0x01;
    mkreg 0x0171 0x01; mkreg 0x0270 0x01; mkreg 0x0271 0x01;
    mkreg 0x0174 0x00; mkreg 0x0175 0x00; mkreg 0x0274 0x00;
    mkreg 0x0275 0x00; mkreg 0x018C 0x0A; mkreg 0x018D 0x0A;
    mkreg 0x028C 0x0A; mkreg 0x028D 0x0A; mkreg 0x0301 0x05;
    mkreg 0x0303 0x01; mkreg 0x0304 0x03; mkreg 0x0305 0x03;
    mkreg 0x0306 0x00; mkreg 0x0307 0x39; mkreg 0x0309 0x0A;
    mkreg 0x030B 0x01; mkreg 0x030C 0x00; mkreg 0x030D 0x72;
    mkreg 0x455E 0x00; mkreg 0x471E 0x4B; mkreg 0x4767 0x0F;
    mkreg 0x4750 0x14; mkreg 0x47B4 0x14; mkreg 0x4713 0x30;
    mkreg 0x478b 0x10; mkreg 0x478f 0x10; mkreg 0x4793 0x10;
    mkreg 0x4797 0x0e; mkreg 0x479b 0x0e;
    mkreg IMX219_TABLE_END 0x00 ].

Definition imx219_init_tab_1920_1080_30fps : list imx219_reg :=
  [ mkreg 0x30EB 0x05; mkreg 0x30EB 0x0C; mkreg 0x300A 0xFF;
    mkreg 0x300B 0xFF; mkreg 0x30EB 0x05; mkreg 0x30EB 0x09;
    mkreg 0x0114 0x01; mkreg 0x0128 0x00; mkreg 0x012A 0x18;
    mkreg 0x012B 0x00; mkreg 0x0160 0x06; mkreg 0x0161 0xE6;
    mkreg 0x0162 0x0D; mkreg 0x0163 0x78; mkreg 0x0164 0x02;
    mkreg 0x0165 0xA8; mkreg 0x0166 0x0A; mkreg 0x0167 0x27;
    mkreg 0x0168 0x02; mkreg 0x0169 0xB4; mkreg 0x016A 0x06;
    mkreg 0x016B 0xEB; mkreg 0x016C 0x07; mkreg 0x016D 0x80;
    mkreg 0x016E 0x04; mkreg 0x016F 0x38; mkreg 0x0170 0x01;
    mkreg 0x0171 0x01; mkreg 0x0174 0x00; mkreg 0x0175 0x00;
    mkreg 0x018C 0x0A; mkreg 0x018D 0x0A; mkreg 0x0301 0x05;
    mkreg 0x0303 0x01; mkreg 0x0304 0x03; mkreg 0x0305 0x03;
    mkreg 0x0306 0x00; mkreg 0x0307 0x39; mkreg 0x0309 0x0A;
    mkreg 0x030B 0x01; mkreg 0x030C 0x00; mkreg 0x030D 0x72;
    mkreg 0x455E 0x00; mkreg 0x471E 0x4B; mkreg 0x4767 0x0F;
    mkreg 0x4750 0x14; mkreg 0x4540 0x00; mkreg 0x47B4 0x14;
    mkreg IMX219_TABLE_END 0x00 ].

Definition start : list imx219_reg :=
  [ mkreg 0x0100 0x01; mkreg IMX219_TABLE_END 0x00 ].

Definition stop : list imx219_reg :=
  [ mkreg 0x0100 0x00; mkreg IMX219_TABLE_END 0x00 ].

Definition mode_1920_1080 : imx219_mode := {|
  bus_fmt := MEDIA_BUS_FMT_SRGGB10_1X10;
  width := 1920;
  height := 1080;
  max_fps := {| numerator := 10000; denominator := 300000 |};
  hts_def := 0x0d78 - IMX219_EXP_LINES_MARGIN;
  vts_def := 0x06E3;
  reg_list := imx219_init_tab_1920_1080_30fps;
  hdr_mode := NO_HDR;
  freq_idx := 0
|}.

Definition mode_3280_2464 : imx219_mode := {|
  bus_fmt := MEDIA_BUS_FMT_SRGGB10_1X10;
  width := 3280;
  height := 2464;
  max_fps := {| numerator := 10000; denominator := 210000 |};
  hts_def := 0x0d78 - IMX219_EXP_LINES_MARGIN;
  vts_def := 0x09c4;
  reg_list := imx219_init_tab_3280_2464_21fps;
  hdr_mode := NO_HDR;
  freq_idx := 0
|}.

Definition supported_modes : list imx219_mode :=
  [mode_1920_1080; mode_3280_2464].

(** ** Mode selection *)

(** [struct v4l2_mbus_framefmt]; of the colorimetry fields only
    [colorspace] is kept, the three that [imx219_reset_colorspace] derives
    from it through the V4L2_MAP_* macros are not part of the model. *)
Record v4l2_mbus_framefmt := {
  f_width : Z;
  f_height : Z;
  f_code : Z;
  f_field : Z;
  f_colorspace : Z
}.

Record v4l2_subdev_format := {
  which : Z;
  format : v4l2_mbus_framefmt
}.

(** The operands are [u32], the result is [int]. *)
Definition imx219_get_reso_dist (mode : imx219_mode)
    (framefmt : v4l2_mbus_framefmt) : Z :=
  s32 (abs (u32 (width mode - f_width framefmt)) +
       abs (u32 (height mode - f_height framefmt))).

(** The body of the [for] loop of [imx219_find_best_fit], from index [i] on;
    the state is [(cur_best_fit, cur_best_fit_dist)]. *)
Fixpoint best_fit_loop (modes : list imx219_mode)
    (framefmt : v4l2_mbus_framefmt) (i : nat) (cur_best_fit : nat)
    (cur_best_fit_dist : Z) : nat :=
  match modes with
  | [] => cur_best_fit
  | mode :: rest =>
      let dist := imx219_get_reso_dist mode framefmt in
      if (cur_best_fit_dist =? -1) || (dist <? cur_best_fit_dist)
      then best_fit_loop rest framefmt (S i) i dist
      else best_fit_loop rest framefmt (S i) cur_best_fit cur_best_fit_dist
  end.

Definition imx219_find_best_fit (fmt : v4l2_subdev_format) : imx219_mode :=
  let framefmt := format fmt in
  let cur_best_fit := best_fit_loop supported_modes framefmt 0 0 (-1) in
  nth cur_best_fit supported_modes mode_1920_1080.

(** ** The device state and the outside world *)

(** The fields of [struct imx219] the control logic reads or writes (the
    module description strings and the framework handles are left out; the
    three controls the driver keeps a pointer to are named by [ctrl_ref]). *)
Record imx219 := {
  hflip : Z;
  vflip : Z;
  analogue_gain : Z;
  digital_gain : Z;
  exposure_time : Z;
  test_pattern : Z;
  cur_mode : imx219_mode;
  cfg_num : Z;
  cur_vts : Z
}.

Definition set_hflip (v : Z) (p : imx219) : imx219 :=
  {| hflip := v; vflip := vflip p; analogue_gain := analogue_gain p;
     digital_gain := digital_gain p; exposure_time := exposure_time p;
     test_pattern := test_pattern p; cur_mode := cur_mode p;
     cfg_num := cfg_num p; cur_vts := cur_vts p |}.

Definition set_vflip (v : Z) (p : imx219) : imx219 :=
  {| hflip := hflip p; vflip := v; analogue_gain := analogue_gain p;
     digital_gain := digital_gain p; exposure_time := exposure_time p;
     test_pattern := test_pattern p; cur_mode := cur_mode p;
     cfg_num := cfg_num p; cur_vts := cur_vts p |}.

Definition set_analogue_gain (v : Z) (p : imx219) : imx219 :=
  {| hflip := hflip p; vflip := vflip p; analogue_gain := v;
     digital_gain := digital_gain p; exposure_time := exposure_time p;
     test_pattern := test_pattern p; cur_mode := cur_mode p;
     cfg_num := cfg_num p; cur_vts := cur_vts p |}.

Definition set_digital_gain (v : Z) (p : imx219) : imx219 :=
  {| hflip := hflip p; vflip := vflip p; analogue_gain := analogue_gain p;
     digital_gain := v; exposure_time := exposure_time p;
     test_pattern := test_pattern p; cur_mode := cur_mode p;
     cfg_num := cfg_num p; cur_vts := cur_vts p |}.

Definition set_exposure_time (v : Z) (p : imx219) : imx219 :=
  {| hflip := hflip p; vflip := vflip p; analogue_gain := analogue_gain p;
     digital_gain := digital_gain p; exposure_time := v;
     test_pattern := test_pattern p; cur_mode := cur_mode p;
     cfg_num := cfg_num p; cur_vts := cur_vts p |}.

Definition set_test_pattern (v : Z) (p : imx219) : imx219 :=
  {| hflip := hflip p; vflip := vflip p; analogue_gain := analogue_gain p;
     digital_gain := digital_gain p; exposure_time := exposure_time p;
     test_pattern := v; cur_mode := cur_mode p;
     cfg_num := cfg_num p; cur_vts := cur_vts p |}.

Definition set_cur_mode (m : imx219_mode) (p : imx219) : imx219 :=
  {| hflip := hflip p; vflip := vflip p; analogue_gain := analogue_gain p;
     digital_gain := digital_gain p; exposure_time := exposure_time p;
     test_pattern := test_pattern p; cur_mode := m;
     cfg_num := cfg_num p; cur_vts := cur_vts p |}.

Definition set_cur_vts (v : Z) (p : imx219) : imx219 :=
  {| hflip := hflip p; vflip := vflip p; analogue_gain := analogue_gain p;
     digital_gain := digital_gain p; exposure_time := exposure_time p;
     test_pattern := test_pattern p; cur_mode := cur_mode p;
     cfg_num := cfg_num p; cur_vts := v |}.

(** [priv->hblank], [priv->vblank], [priv->pixel_rate]. *)
Inductive ctrl_ref := HBLANK | VBLANK | PIXEL_RATE.

(** What the driver does to its collaborators, in program order. *)
Inductive event :=
| I2cSend (buf : list Z)
| I2cTransfer (addr_buf : list Z) (len : Z)
| ClkPrepareEnable
| ClkDisableUnprepare
| CtrlModifyRange (c : ctrl_ref) (min max step def : Z)
| CtrlSetInt64 (c : ctrl_ref) (v : Z).

(** [bus n] is the outcome of the bus transfer that is the [n]-th event of
    the trace: [None] when the transfer fails, [Some v] when it succeeds
    ([v] being the data a read returns). *)
Record world := {
  priv : imx219;
  trace : list event;
  bus : nat -> option Z
}.

Definition M (A : Type) : Type := world -> A * world.

Definition pure {A} (a : A) : M A := fun w => (a, w).

Definition bind {A B} (m : M A) (k : A -> M B) : M B :=
  fun w => let (a, w') := m w in k a w'.

Notation "x <- m ;; k" := (bind m (fun x => k))
  (at level 61, m at next level, right associativity).
Notation "' pat <- m ;; k" := (bind m (fun x => let pat := x in k))
  (at level 61, pat pattern, m at next level, right associativity).
Notation "m ;;; k" := (bind m (fun _ => k))
  (at level 61, right associativity).

Definition get_priv : M imx219 := fun w => (priv w, w).

Definition modify_priv (f : imx219 -> imx219) : M unit :=
  fun w => (tt, {| priv := f (priv w); trace := trace w; bus := bus w |}).

Definition emit (e : event) : M unit :=
  fun w => (tt, {| priv := priv w; trace := trace w ++ [e]; bus := bus w |}).

(** The outcome of the transfer about to be made. *)
Definition next_reply : M (option Z) :=
  fun w => (bus w (length (trace w)), w).

(** ** Register transport *)

(** Modelled from the spec: [i2c_master_send] belongs to the I2C core, which
    is not among the sources.  The spec's transport takes a write and
    answers success or an I/O error: the first [count] bytes of [buf] go
    out, and the call returns [count] on success and a negative error
    number otherwise. *)
Definition i2c_master_send (buf : list Z) (count : Z) : M Z :=
  r <- next_reply ;;
  emit (I2cSend (firstn (Z.to_nat count) buf)) ;;;
  match r with
  | Some _ => pure count
  | None => pure (- EREMOTEIO)
  end.

(** Modelled from the spec: [i2c_transfer] belongs to the I2C core, which is
    not among the sources.  The spec's transport takes a read and answers a
    value or an I/O error: the two messages (register address out, [len]
    bytes in) are transferred, and the call returns the number of messages
    on success and a negative error number otherwise.  The second component
    is [get_unaligned_be32] of the zero-initialised [data_buf] afterwards,
    whose last [len] bytes the device has filled. *)
Definition i2c_transfer (addr_buf : list Z) (len : Z) : M (Z * Z) :=
  r <- next_reply ;;
  emit (I2cTransfer addr_buf len) ;;;
  match r with
  | Some v => pure (2, v mod 2 ^ (8 * len))
  | None => pure (- EREMOTEIO, 0)
  end.

Definition reg_write (addr len data : Z) : M Z :=
  if 4 <? len then pure (- EINVAL) else
  let buf := put_unaligned_be16 addr ++
             put_unaligned_be32 (u32 (Z.shiftl data (8 * (4 - len)))) in
  n <- i2c_master_send buf (len + 2) ;;
  if negb (n =? len + 2) then pure (- EIO) else pure 0.

(** [val] is the content of [*val] before the call; it is left as it is
    when the read fails. *)
Definition reg_read (addr len : Z) (val : Z) : M (Z * Z) :=
  let addr_buf := [u8 (Z.shiftr addr 8); u8 (Z.land addr 255)] in
  if 4 <? len then pure (- EINVAL, val) else
  '(ret, data) <- i2c_transfer addr_buf len ;;
  if negb (ret =? 2) then pure (- EIO, val) else
  if ret <? 0 then pure (- EIO, val) else
  pure (0, data).

(** The tables of the driver all end with the [IMX219_TABLE_END] entry, so
    the end of the list is not reached. *)
Fixpoint reg_write_table (table : list imx219_reg) : M Z :=
  match table with
  | [] => pure 0
  | reg :: rest =>
      if addr reg =? IMX219_TABLE_END then pure 0 else
      ret <- reg_write (addr reg) REG_VALUE_08BIT (val reg) ;;
      if ret <? 0 then pure ret else reg_write_table rest
  end.

(** ** Streaming *)

Definition imx219_s_stream (enable : Z) : M Z :=
  priv <- get_priv ;;
  let reg := 0 in
  if negb (nonzero enable) then reg_write_table stop else
  ret <- reg_write_table (reg_list (cur_mode priv)) ;;
  if nonzero ret then pure ret else
  (* Handle flip/mirror *)
  let reg := if nonzero (hflip priv) then Z.lor reg 1 else reg in
  let reg := if nonzero (vflip priv) then Z.lor reg 2 else reg in
  ret <- reg_write IMX219_REG_IMG_ORIENTATION REG_VALUE_08BIT reg ;;
  if nonzero ret then pure ret else
  (* Handle test pattern *)
  ret <- (if nonzero (test_pattern priv) then
            ret <- reg_write IMX219_REG_TP REG_VALUE_16BIT
                     (test_pattern priv) ;;
            r <- reg_write IMX219_REG_TP_WINDOW_WIDTH REG_VALUE_16BIT
                   (width (cur_mode priv)) ;;
            let ret := Z.lor ret r in
            r <- reg_write IMX219_REG_TP_WINDOW_HEIGHT REG_VALUE_16BIT
                   (height (cur_mode priv)) ;;
            pure (Z.lor ret r)
          else
            reg_write IMX219_REG_TP REG_VALUE_16BIT 0) ;;
  modify_priv (set_cur_vts
    (u16 (u32 (vts_def (cur_mode priv) - IMX219_EXP_LINES_MARGIN)))) ;;;
  if nonzero ret then pure ret else
  reg_write_table start.

Definition imx219_s_power (on : Z) : M Z :=
  (if nonzero on then emit ClkPrepareEnable
   else if negb (nonzero on) then emit ClkDisableUnprepare
   else pure tt) ;;;
  pure 0.

(** ** Controls *)

Inductive v4l2_cid :=
| V4L2_CID_HFLIP
| V4L2_CID_VFLIP
| V4L2_CID_ANALOGUE_GAIN
| V4L2_CID_GAIN
| V4L2_CID_EXPOSURE
| V4L2_CID_TEST_PATTERN
| V4L2_CID_TEST_PATTERN_RED
| V4L2_CID_TEST_PATTERN_GREENR
| V4L2_CID_TEST_PATTERN_BLUE
| V4L2_CID_TEST_PATTERN_GREENB
| V4L2_CID_VBLANK
| V4L2_CID_OTHER (id : Z).

(** [ctrl->id] and [ctrl->val] (an [s32]). *)
Record v4l2_ctrl := { ctrl_id : v4l2_cid; ctrl_val : Z }.

Definition when (b : bool) (m : M unit) : M unit :=
  if b then m else pure tt.

(** The statements of [imx219_s_ctrl] after the [switch], reached by the
    cases that [break].  The local [reg] is not initialised in the source
    and starts as 0 here; it is read only after a successful read has
    assigned it. *)
Definition s_ctrl_after_switch (ctrl : v4l2_ctrl) : M (Z * v4l2_ctrl) :=
  (* If enabled, apply settings immediately *)
  '(ret, reg) <- reg_read IMX219_REG_MODE_SELECT REG_VALUE_08BIT 0 ;;
  if nonzero ret then pure (ret, ctrl) else
  if Z.land reg 0x1f =? 0x01 then
    imx219_s_stream 1 ;;; pure (0, ctrl)
  else pure (0, ctrl).

(** The handler returns its status together with the control, whose value
    the vertical-blank case overwrites.  The framework hands the
    test-pattern case an index of the menu, 0 to 4; outside of it the
    array access is not defined and the model reads 0. *)
Definition imx219_s_ctrl (ctrl : v4l2_ctrl) : M (Z * v4l2_ctrl) :=
  match ctrl_id ctrl with
  | V4L2_CID_HFLIP =>
      modify_priv (set_hflip (ctrl_val ctrl)) ;;;
      s_ctrl_after_switch ctrl
  | V4L2_CID_VFLIP =>
      modify_priv (set_vflip (ctrl_val ctrl)) ;;;
      s_ctrl_after_switch ctrl
  | V4L2_CID_ANALOGUE_GAIN
  | V4L2_CID_GAIN =>
      let gain := u16 (ctrl_val ctrl) in
      let gain := if gain <? 256 then 256 else gain in
      let gain := if 43663 <? gain then 43663 else gain in
      let '(a_gain, d_gain) :=
        if (256 <=? gain) && (gain <=? 2728) then
          (gain, u16 (1 * 256))
        else
          let a_gain := 2728 in
          (a_gain, u16 (Z.quot (gain * 256) a_gain)) in
      modify_priv (set_analogue_gain
                     (u8 (256 - Z.quot (256 * 256) a_gain))) ;;;
      when (a_gain <? 256) (modify_priv (set_analogue_gain 0)) ;;;
      priv <- get_priv ;;
      when (232 <? analogue_gain priv)
           (modify_priv (set_analogue_gain 232)) ;;;
      modify_priv (set_digital_gain d_gain) ;;;
      priv <- get_priv ;;
      when (digital_gain priv <? 256)
           (modify_priv (set_digital_gain 256)) ;;;
      priv <- get_priv ;;
      when (4095 <? digital_gain priv)
           (modify_priv (set_digital_gain 4095)) ;;;
      priv <- get_priv ;;
      ret <- reg_write IMX219_REG_ANA_GAIN_GLOBAL_A REG_VALUE_08BIT
               (analogue_gain priv) ;;
      r <- reg_write IMX219_REG_DIG_GAIN_GLOBAL_A REG_VALUE_16BIT
             (digital_gain priv) ;;
      pure (Z.lor ret r, ctrl)
  | V4L2_CID_EXPOSURE =>
      modify_priv (set_exposure_time (u16 (ctrl_val ctrl))) ;;;
      priv <- get_priv ;;
      ret <- reg_write IMX219_REG_EXPOSURE REG_VALUE_16BIT
               (exposure_time priv) ;;
      pure (ret, ctrl)
  | V4L2_CID_TEST_PATTERN =>
      modify_priv (set_test_pattern
        (u16 (nth (Z.to_nat (ctrl_val ctrl)) test_pattern_val 0))) ;;;
      priv <- get_priv ;;
      ret <- reg_write IMX219_REG_TP REG_VALUE_16BIT (test_pattern priv) ;;
      pure (ret, ctrl)
  | V4L2_CID_TEST_PATTERN_RED =>
      let value := u16 (Z.land (ctrl_val ctrl) 0xffff) in
      ret <- reg_write IMX219_REG_TD_R REG_VALUE_16BIT value ;;
      pure (ret, ctrl)
  | V4L2_CID_TEST_PATTERN_GREENR =>
      let value := u16 (Z.land (ctrl_val ctrl) 0xffff) in
      ret <- reg_write IMX219_REG_TD_GR REG_VALUE_16BIT value ;;
      pure (ret, ctrl)
  | V4L2_CID_TEST_PATTERN_BLUE =>
      let value := u16 (Z.land (ctrl_val ctrl) 0xffff) in
      ret <- reg_write IMX219_REG_TD_B REG_VALUE_16BIT value ;;
      pure (ret, ctrl)
  | V4L2_CID_TEST_PATTERN_GREENB =>
      let value := u16 (Z.land (ctrl_val ctrl) 0xffff) in
      ret <- reg_write IMX219_REG_TD_GB REG_VALUE_16BIT value ;;
      pure (ret, ctrl)
  | V4L2_CID_VBLANK =>
      priv <- get_priv ;;
      (* the comparison is made in unsigned arithmetic *)
      let ctrl :=
        if u32 (ctrl_val ctrl) <? vts_def (cur_mode priv) then
          {| ctrl_id := ctrl_id ctrl;
             ctrl_val := s32 (vts_def (cur_mode priv)) |}
        else ctrl in
      when (negb (s32 (ctrl_val ctrl - IMX219_EXP_LINES_MARGIN)
                  =? cur_vts priv))
           (modify_priv (set_cur_vts
              (u16 (s32 (ctrl_val ctrl - IMX219_EXP_LINES_MARGIN))))) ;;;
      priv <- get_priv ;;
      ret <- reg_write IMX219_REG_FRM_LENGTH_A REG_VALUE_16BIT
               (cur_vts priv) ;;
      pure (ret, ctrl)
  | V4L2_CID_OTHER _ => pure (- EINVAL, ctrl)
  end.

(** ** Formats *)

(** Modelled from the spec: [__v4l2_ctrl_modify_range] belongs to the
    control framework, which is not among the sources.  The spec has the
    driver republish a control range to its consumer; the call is recorded
    with the range it publishes. *)
Definition __v4l2_ctrl_modify_range (c : ctrl_ref) (min max step def : Z)
    : M unit :=
  emit (CtrlModifyRange c min max step def).

(** Modelled from the spec: [__v4l2_ctrl_s_ctrl_int64] belongs to the
    control framework, which is not among the sources.  The spec keeps the
    framework outside as the consumer of the controls; the call, which
    takes a control and one value for it, is recorded with both. *)
Definition __v4l2_ctrl_s_ctrl_int64 (c : ctrl_ref) (v : Z) : M unit :=
  emit (CtrlSetInt64 c v).

Definition imx219_reset_colorspace (fmt : v4l2_mbus_framefmt)
    : v4l2_mbus_framefmt :=
  {| f_width := f_width fmt; f_height := f_height fmt; f_code := f_code fmt;
     f_field := f_field fmt; f_colorspace := V4L2_COLORSPACE_RAW |}.

Definition imx219_set_fmt (fmt : v4l2_subdev_format)
    : M (Z * v4l2_subdev_format) :=
  if which fmt =? V4L2_SUBDEV_FORMAT_TRY then pure (0, fmt) else
  let mode := imx219_find_best_fit fmt in
  let fmt :=
    {| which := which fmt;
       format := imx219_reset_colorspace
         {| f_width := width mode; f_height := height mode;
            f_code := bus_fmt mode; f_field := V4L2_FIELD_NONE;
            f_colorspace := f_colorspace (format fmt) |} |} in
  modify_priv (set_cur_mode mode) ;;;
  let h_blank := u32 (hts_def mode - width mode) in
  __v4l2_ctrl_modify_range HBLANK h_blank h_blank 1 h_blank ;;;
  let v_blank := u32 (vts_def mode - height mode) in
  __v4l2_ctrl_modify_range VBLANK v_blank
    (u32 (IMX219_VTS_MAX - height mode)) 1 v_blank ;;;
  let fps := DIV_ROUND_CLOSEST (denominator (max_fps mode))
                               (numerator (max_fps mode)) in
  let pixel_rate := u32 (vts_def mode * hts_def mode * fps) in
  __v4l2_ctrl_modify_range PIXEL_RATE pixel_rate pixel_rate 1 pixel_rate ;;;
  pure (0, fmt).

(** The second test of [fmt->which], under the lock, cannot succeed after
    the first one has returned. *)
Definition imx219_get_fmt (fmt : v4l2_subdev_format)
    : M (Z * v4l2_subdev_format) :=
  priv <- get_priv ;;
  let mode := cur_mode priv in
  if which fmt =? V4L2_SUBDEV_FORMAT_TRY then pure (0, fmt) else
  if which fmt =? V4L2_SUBDEV_FORMAT_TRY then pure (0, fmt) else
  pure (0, {| which := which fmt;
              format := {| f_width := width mode; f_height := height mode;
                           f_code := bus_fmt mode;
                           f_field := V4L2_FIELD_NONE;
                           f_colorspace := f_colorspace (format fmt) |} |}).

(** ** Vendor commands *)

Inductive hdr_esp_mode := HDR_NORMAL_VC | HDR_LINE_CNT | HDR_ID_CODE.

(** [hdr->hdr_mode] and [hdr->esp.mode]. *)
Record rkmodule_hdr_cfg := { cfg_hdr_mode : Z; esp_mode : hdr_esp_mode }.

(** A command with the argument it points to.  The module information that
    [RKMODULE_GET_MODULE_INFO] copies out is not modelled. *)
Inductive ioctl_cmd :=
| RKMODULE_GET_MODULE_INFO
| RKMODULE_GET_HDR_CFG (hdr : rkmodule_hdr_cfg)
| RKMODULE_SET_HDR_CFG (hdr : rkmodule_hdr_cfg)
| RKMODULE_SET_QUICK_STREAM (stream : Z)
| RKMODULE_OTHER (cmd : Z).

(** The search loop of [RKMODULE_SET_HDR_CFG]: the first entry with the
    wanted tag, [None] when the index runs to the end of the catalog. *)
Fixpoint hdr_cfg_loop (modes : list imx219_mode) (want : Z)
    : option imx219_mode :=
  match modes with
  | [] => None
  | mode :: rest =>
      if hdr_mode mode =? want then Some mode else hdr_cfg_loop rest want
  end.

Definition imx219_ioctl (cmd : ioctl_cmd) : M (Z * ioctl_cmd) :=
  match cmd with
  | RKMODULE_GET_MODULE_INFO => pure (0, cmd)
  | RKMODULE_GET_HDR_CFG hdr =>
      imx219 <- get_priv ;;
      let esp := if hdr_mode (cur_mode imx219) =? NO_HDR
                 then HDR_NORMAL_VC else HDR_ID_CODE in
      pure (0, RKMODULE_GET_HDR_CFG
                 {| cfg_hdr_mode := hdr_mode (cur_mode imx219);
                    esp_mode := esp |})
  | RKMODULE_SET_HDR_CFG hdr =>
      match hdr_cfg_loop supported_modes (cfg_hdr_mode hdr) with
      | None => pure (- EINVAL, cmd)
      | Some mode =>
          modify_priv (set_cur_mode mode) ;;;
          let w := u32 (hts_def mode - width mode) in
          let h := u32 (vts_def mode - height mode) in
          __v4l2_ctrl_modify_range HBLANK w w 1 w ;;;
          __v4l2_ctrl_modify_range VBLANK h
            (u32 (IMX219_VTS_MAX - height mode)) 1 h ;;;
          let fps := DIV_ROUND_CLOSEST (denominator (max_fps mode))
                                       (numerator (max_fps mode)) in
          let dst_pixel_rate := u32 (vts_def mode * hts_def mode * fps) in
          __v4l2_ctrl_s_ctrl_int64 PIXEL_RATE dst_pixel_rate ;;;
          modify_priv (set_cur_vts (u16 (vts_def mode))) ;;;
          pure (0, cmd)
      end
  | RKMODULE_SET_QUICK_STREAM stream =>
      ret <- (if nonzero stream then reg_write_table start
              else reg_write_table stop) ;;
      pure (ret, cmd)
  | RKMODULE_OTHER _ => pure (- ENOIOCTLCMD, cmd)
  end.

(** ** Identity probe *)

(** The label [done] of [imx219_video_probe]. *)
Definition video_probe_done (ret : Z) : M Z :=
  imx219_s_power 0 ;;; pure ret.

(** The locals that receive the identities are not initialised in the
    source and start as 0 here. *)
Definition imx219_video_probe : M Z :=
  ret <- imx219_s_power 1 ;;
  if ret <? 0 then pure ret else
  (* Check and show model, lot, and chip ID. *)
  '(ret, model_id) <- reg_read IMX219_REG_MODEL_ID REG_VALUE_16BIT 0 ;;
  if nonzero ret then video_probe_done ret else
  '(ret, val) <- reg_read IMX219_REG_LOT_ID_H REG_VALUE_08BIT 0 ;;
  if nonzero ret then video_probe_done ret else
  let lot_id := u32 (Z.shiftl val 16) in
  '(ret, val) <- reg_read IMX219_REG_LOT_ID_M REG_VALUE_08BIT val ;;
  if nonzero ret then video_probe_done ret else
  let lot_id := Z.lor lot_id (u32 (Z.shiftl val 8)) in
  '(ret, val) <- reg_read IMX219_REG_LOT_ID_L REG_VALUE_08BIT val ;;
  if nonzero ret then video_probe_done ret else
  let lot_id := Z.lor lot_id val in
  '(ret, chip_id) <- reg_read IMX219_REG_CHIP_ID REG_VALUE_16BIT 0 ;;
  if nonzero ret then video_probe_done ret else
  if negb (model_id =? IMX219_MODEL_ID) then video_probe_done (- ENODEV)
  else video_probe_done ret.

(** ** Enumeration and queries *)

Definition ENOMEM : Z := 12.

(** [code->index] and [code->code]. *)
Record v4l2_subdev_mbus_code_enum := { mce_index : Z; mce_code : Z }.

Definition imx219_enum_mbus_code (code : v4l2_subdev_mbus_code_enum)
    : M (Z * v4l2_subdev_mbus_code_enum) :=
  priv <- get_priv ;;
  if negb (mce_index code =? 0) then pure (- EINVAL, code) else
  pure (0, {| mce_index := mce_index code;
              mce_code := bus_fmt (cur_mode priv) |}).

Record v4l2_subdev_frame_size_enum := {
  fse_index : Z;
  fse_code : Z;
  min_width : Z;
  max_width : Z;
  min_height : Z;
  max_height : Z
}.

(** [ARRAY_SIZE(supported_modes)]. *)
Definition supported_modes_size : Z := Z.of_nat (length supported_modes).

(** The entry [supported_modes[index]]; [index] is unsigned. *)
Definition supported_mode_at (index : Z) : imx219_mode :=
  nth (Z.to_nat index) supported_modes mode_1920_1080.

(** The function uses neither the device nor its state. *)
Definition imx219_enum_frame_sizes (fse : v4l2_subdev_frame_size_enum)
    : Z * v4l2_subdev_frame_size_enum :=
  if supported_modes_size <=? fse_index fse then (- EINVAL, fse) else
  if negb (fse_code fse =? bus_fmt (supported_mode_at (fse_index fse)))
  then (- EINVAL, fse) else
  (0, {| fse_index := fse_index fse;
         fse_code := fse_code fse;
         min_width := width (supported_mode_at (fse_index fse));
         max_width := width (supported_mode_at (fse_index fse));
         min_height := height (supported_mode_at (fse_index fse));
         max_height := height (supported_mode_at (fse_index fse)) |}).

(** [fie->reserved[0]] is the one element of [reserved] the driver
    writes. *)
Record v4l2_subdev_frame_interval_enum := {
  fie_index : Z;
  fie_code : Z;
  fie_width : Z;
  fie_height : Z;
  fie_interval : v4l2_fract;
  fie_reserved0 : Z
}.

(** The bound is [priv->cfg_num], which the probe sets to the size of the
    catalog; an index between the two would read past the table, where the
    model reads the first entry. *)
Definition imx219_enum_frame_interval (fie : v4l2_subdev_frame_interval_enum)
    : M (Z * v4l2_subdev_frame_interval_enum) :=
  priv <- get_priv ;;
  if cfg_num priv <=? fie_index fie then pure (- EINVAL, fie) else
  if negb (fie_code fie =? MEDIA_BUS_FMT_SRGGB10_1X10)
  then pure (- EINVAL, fie) else
  pure (0, {| fie_index := fie_index fie;
              fie_code := fie_code fie;
              fie_width := width (supported_mode_at (fie_index fie));
              fie_height := height (supported_mode_at (fie_index fie));
              fie_interval := max_fps (supported_mode_at (fie_index fie));
              fie_reserved0 :=
                hdr_mode (supported_mode_at (fie_index fie)) |}).

Record v4l2_subdev_frame_interval := { fi_pad : Z; fi_interval : v4l2_fract }.

Definition imx219_g_frame_interval (fi : v4l2_subdev_frame_interval)
    : M (Z * v4l2_subdev_frame_interval) :=
  priv <- get_priv ;;
  let mode := cur_mode priv in
  pure (0, {| fi_pad := fi_pad fi; fi_interval := max_fps mode |}).

(** ** The 32-bit compatibility entry point *)

(** What the calls into the rest of the kernel answer: whether [kzalloc]
    returns memory, and how many bytes [copy_from_user] and [copy_to_user]
    leave uncopied (0 when they succeed). *)
Record compat_env := {
  kzalloc_ok : bool;
  copy_from_user_left : Z;
  copy_to_user_left : Z
}.

(** A command with the user memory its argument points to: a structure for
    [RKMODULE_SET_HDR_CFG], the bytes at the pointer for
    [RKMODULE_SET_QUICK_STREAM]. *)
Inductive compat_cmd :=
| COMPAT_GET_MODULE_INFO
| COMPAT_GET_HDR_CFG
| COMPAT_SET_HDR_CFG (up : rkmodule_hdr_cfg)
| COMPAT_SET_QUICK_STREAM (up : list Z)
| COMPAT_OTHER (cmd : Z).

(** What the call hands to [copy_to_user], if it gets that far. *)
Inductive compat_out :=
| OutNothing
| OutModuleInfo
| OutHdrCfg (hdr : rkmodule_hdr_cfg).

(** The size of what [up], a pointer to [void], points to is 1 in GNU C, so
    one byte
    of the user's value reaches the zero-initialised [stream]; on a
    little-endian machine [stream] is then that byte.  The memory [kzalloc]
    returns is zeroed. *)
Definition imx219_compat_ioctl32 (env : compat_env) (cmd : compat_cmd)
    : M (Z * compat_out) :=
  match cmd with
  | COMPAT_GET_MODULE_INFO =>
      if negb (kzalloc_ok env) then pure (- ENOMEM, OutNothing) else
      '(ret, _) <- imx219_ioctl RKMODULE_GET_MODULE_INFO ;;
      if negb (nonzero ret) then pure (copy_to_user_left env, OutModuleInfo)
      else pure (ret, OutNothing)
  | COMPAT_GET_HDR_CFG =>
      if negb (kzalloc_ok env) then pure (- ENOMEM, OutNothing) else
      let hdr := {| cfg_hdr_mode := 0; esp_mode := HDR_NORMAL_VC |} in
      '(ret, arg) <- imx219_ioctl (RKMODULE_GET_HDR_CFG hdr) ;;
      let hdr := match arg with
                 | RKMODULE_GET_HDR_CFG hdr => hdr
                 | _ => hdr
                 end in
      if negb (nonzero ret) then pure (copy_to_user_left env, OutHdrCfg hdr)
      else pure (ret, OutNothing)
  | COMPAT_SET_HDR_CFG up =>
      if negb (kzalloc_ok env) then pure (- ENOMEM, OutNothing) else
      let ret := copy_from_user_left env in
      if negb (nonzero ret) then
        '(ret, _) <- imx219_ioctl (RKMODULE_SET_HDR_CFG up) ;;
        pure (ret, OutNothing)
      else pure (ret, OutNothing)
  | COMPAT_SET_QUICK_STREAM up =>
      let stream := 0 in
      let ret := copy_from_user_left env in
      if negb (nonzero ret) then
        let stream := nth 0 up stream in
        '(ret, _) <- imx219_ioctl (RKMODULE_SET_QUICK_STREAM stream) ;;
        pure (ret, OutNothing)
      else pure (ret, OutNothing)
  | COMPAT_OTHER _ => pure (- ENOIOCTLCMD, OutNothing)
  end.

(** ** Control registration *)

Section TestPatternMenu.
Import String.

Definition test_pattern_menu : list string :=
  ["Disabled"%string; "Solid Color"%string; "Color Bar"%string;
   "Fade to Grey Color Bar"%string; "PN9"%string].

End TestPatternMenu.

(** Identifiers of v4l2-controls.h the handler of the driver has no case
    for. *)
Definition V4L2_CID_HBLANK : v4l2_cid := V4L2_CID_OTHER 0x009e0902.
Definition V4L2_CID_LINK_FREQ : v4l2_cid := V4L2_CID_OTHER 0x009f0901.
Definition V4L2_CID_PIXEL_RATE : v4l2_cid := V4L2_CID_OTHER 0x009f0902.

(** [V4L2_CID_TEST_PATTERN_RED + i]: the four colour identifiers are
    consecutive in v4l2-controls.h. *)
Definition test_pattern_colour_cid (i : nat) : v4l2_cid :=
  nth i [V4L2_CID_TEST_PATTERN_RED; V4L2_CID_TEST_PATTERN_GREENR;
         V4L2_CID_TEST_PATTERN_BLUE; V4L2_CID_TEST_PATTERN_GREENB]
    (V4L2_CID_OTHER (0x009e0904 + Z.of_nat i)).

Definition IMX219_ANALOGUE_GAIN_MULTIPLIER : Z := 256.
Definition IMX219_ANALOGUE_GAIN_MIN : Z := 1 * IMX219_ANALOGUE_GAIN_MULTIPLIER.
Definition IMX219_ANALOGUE_GAIN_MAX : Z := 11 * IMX219_ANALOGUE_GAIN_MULTIPLIER.
Definition IMX219_ANALOGUE_GAIN_DEFAULT : Z :=
  2 * IMX219_ANALOGUE_GAIN_MULTIPLIER.
Definition IMX219_DIGITAL_GAIN_MIN : Z := 256.
Definition IMX219_DIGITAL_GAIN_MAX : Z := 43663.
Definition IMX219_DIGITAL_GAIN_DEFAULT : Z := 256.
Definition IMX219_DIGITAL_EXPOSURE_MIN : Z := 0.
Definition IMX219_DIGITAL_EXPOSURE_MAX : Z := 4095.
Definition IMX219_DIGITAL_EXPOSURE_DEFAULT : Z := 1575.
Definition IMX219_TESTP_COLOUR_MIN : Z := 0.
Definition IMX219_TESTP_COLOUR_MAX : Z := 0x03ff.
Definition IMX219_TESTP_COLOUR_STEP : Z := 1.

(** One call of [v4l2_ctrl_new_std], [v4l2_ctrl_new_std_menu_items] or
    [v4l2_ctrl_new_int_menu]: whether the driver's operations are passed
    ([NULL] otherwise), the identifier, and the range; a menu starts at 0
    and has its mask in the place of the step. *)
Record ctrl_decl := {
  decl_ops : bool;
  decl_id : v4l2_cid;
  decl_min : Z;
  decl_max : Z;
  decl_step : Z;
  decl_def : Z
}.

(** The [for] loop over the four colour controls. *)
Fixpoint colour_decls (i n : nat) : list ctrl_decl :=
  match n with
  | O => []
  | S n' =>
      {| decl_ops := true; decl_id := test_pattern_colour_cid i;
         decl_min := IMX219_TESTP_COLOUR_MIN;
         decl_max := IMX219_TESTP_COLOUR_MAX;
         decl_step := IMX219_TESTP_COLOUR_STEP;
         decl_def := IMX219_TESTP_COLOUR_MAX |} :: colour_decls (S i) n'
  end.

(** The controls [imx219_ctrls_init] creates, in order, for the current
    mode. *)
Definition ctrl_decls (mode : imx219_mode) : list ctrl_decl :=
  let h_blank := u32 (hts_def mode - width mode) in
  let v_blank := u32 (vts_def mode - height mode) in
  let fps := DIV_ROUND_CLOSEST (denominator (max_fps mode))
                               (numerator (max_fps mode)) in
  let pixel_rate := u32 (vts_def mode * hts_def mode * fps) in
  [ {| decl_ops := true; decl_id := V4L2_CID_HFLIP;
       decl_min := 0; decl_max := 1; decl_step := 1; decl_def := 0 |};
    {| decl_ops := true; decl_id := V4L2_CID_VFLIP;
       decl_min := 0; decl_max := 1; decl_step := 1; decl_def := 0 |};
    {| decl_ops := true; decl_id := V4L2_CID_ANALOGUE_GAIN;
       decl_min := IMX219_ANALOGUE_GAIN_MIN;
       decl_max := IMX219_ANALOGUE_GAIN_MAX;
       decl_step := 1; decl_def := IMX219_ANALOGUE_GAIN_DEFAULT |};
    {| decl_ops := true; decl_id := V4L2_CID_GAIN;
       decl_min := IMX219_DIGITAL_GAIN_MIN;
       decl_max := IMX219_DIGITAL_GAIN_MAX;
       decl_step := 1; decl_def := IMX219_DIGITAL_GAIN_DEFAULT |};
    {| decl_ops := true; decl_id := V4L2_CID_EXPOSURE;
       decl_min := IMX219_DIGITAL_EXPOSURE_MIN;
       decl_max := IMX219_DIGITAL_EXPOSURE_MAX;
       decl_step := 1; decl_def := IMX219_DIGITAL_EXPOSURE_DEFAULT |};
    {| decl_ops := false; decl_id := V4L2_CID_HBLANK;
       decl_min := h_blank; decl_max := h_blank; decl_step := 1;
       decl_def := h_blank |};
    {| decl_ops := false; decl_id := V4L2_CID_VBLANK;
       decl_min := v_blank; decl_max := v_blank; decl_step := 1;
       decl_def := v_blank |};
    {| decl_ops := false; decl_id := V4L2_CID_LINK_FREQ;
       decl_min := 0; decl_max := 0; decl_step := 0; decl_def := 0 |};
    {| decl_ops := false; decl_id := V4L2_CID_PIXEL_RATE;
       decl_min := 0; decl_max := pixel_rate; decl_step := 1;
       decl_def := pixel_rate |};
    {| decl_ops := true; decl_id := V4L2_CID_TEST_PATTERN;
       decl_min := 0;
       decl_max := Z.of_nat (length test_pattern_menu) - 1;
       decl_step := 0; decl_def := 0 |} ] ++
  colour_decls 0 4.

(** [imx219_ctrls_init], by the controls it creates, its result and whether
    it frees the handler.  The control framework is not among the sources:
    [handler_error] is what [priv->ctrl_handler.error] holds after the
    creations and [setup_ret] what [v4l2_ctrl_handler_setup] returns; what
    that call does to the device is not part of the model. *)
Definition imx219_ctrls_init (handler_error setup_ret : Z)
    : M (Z * list ctrl_decl * bool) :=
  priv <- get_priv ;;
  let mode := cur_mode priv in
  let decls := ctrl_decls mode in
  if nonzero handler_error then pure (handler_error, decls, true) else
  let ret := setup_ret in
  if ret <? 0 then pure (ret, decls, true) else
  pure (0, decls, false).

(** ** Reference notions of the specification *)

(** *** Mode selection *)

(** The L1 distance between a catalog entry and a request, over the
    integers. *)
Definition l1_distance (mode : imx219_mode) (framefmt : v4l2_mbus_framefmt)
    : Z :=
  Z.abs (width mode - f_width framefmt) +
  Z.abs (height mode - f_height framefmt).

(** [mode], found at index [i] of [modes], minimises the L1 distance to the
    request, and no entry at a lower index is as close. *)
Definition first_l1_minimum (modes : list imx219_mode)
    (framefmt : v4l2_mbus_framefmt) (i : nat) (mode : imx219_mode) : Prop :=
  nth_error modes i = Some mode /\
  forall j other, nth_error modes j = Some other ->
    l1_distance mode framefmt <= l1_distance other framefmt /\
    (l1_distance other framefmt = l1_distance mode framefmt -> (i <= j)%nat).

Definition request (wh w h : Z) : v4l2_subdev_format :=
  {| which := wh;
     format := {| f_width := w; f_height := h; f_code := 0; f_field := 0;
                  f_colorspace := 0 |} |}.

(** *** Traces and worlds *)

(** The message a register write of [len] bytes puts on the bus: the
    register address and the [len] low bytes of the value, big-endian. *)
Definition reg_msg (addr len data : Z) : event :=
  I2cSend (firstn (Z.to_nat (len + 2))
             (put_unaligned_be16 addr ++
              put_unaligned_be32 (u32 (Z.shiftl data (8 * (4 - len)))))).

(** The bus transaction a register read of [len] bytes makes. *)
Definition reg_read_msg (addr len : Z) : event :=
  I2cTransfer [u8 (Z.shiftr addr 8); u8 (Z.land addr 255)] len.

(** Whether the [n]-th event of the trace, a bus transfer, succeeds. *)
Definition transfer_ok (b : nat -> option Z) (n : nat) : bool :=
  match b n with Some _ => true | None => false end.

Definition ok (w : world) (n : nat) : bool := transfer_ok (bus w) n.

(** What a register access returns for a transfer that succeeds or fails. *)
Definition status (b : bool) : Z := if b then 0 else - EIO.

Definition log (es : list event) (w : world) : world :=
  {| priv := priv w; trace := trace w ++ es; bus := bus w |}.

Definition with_priv (p : imx219) (w : world) : world :=
  {| priv := p; trace := trace w; bus := bus w |}.

(** *** Gain and blanking *)

Definition clamp (lo hi x : Z) : Z := Z.max lo (Z.min hi x).

(** Division rounded to the nearest integer, halves upwards, on positive
    operands. *)
Definition round_div (n d : Z) : Z := (2 * n + d) / (2 * d).

(** The gain policy of the specification, over the integers, with the
    division that yields the digital portion left open: the result is the
    analog register code and the digital register code. *)
Definition apply_gain_with (div : Z -> Z -> Z) (unified_gain : Z) : Z * Z :=
  let gain := clamp 256 43663 unified_gain in
  let analog_portion := if gain <=? 2728 then gain else 2728 in
  let digital_portion :=
    if gain <=? 2728 then 256 else div (gain * 256) 2728 in
  let code :=
    if analog_portion <? 256 then 0
    else clamp 0 232 (256 - (256 * 256) / analog_portion) in
  (code, clamp 256 4095 digital_portion).

(** As the specification words it: the digital portion is rounded. *)
Definition apply_gain_spec : Z -> Z * Z := apply_gain_with round_div.

(** With the digital portion truncated. *)
Definition apply_gain_floor : Z -> Z * Z := apply_gain_with Z.div.

Definition gain_cid (id : v4l2_cid) : Prop :=
  id = V4L2_CID_ANALOGUE_GAIN \/ id = V4L2_CID_GAIN.

Definition flip_cid (id : v4l2_cid) : Prop :=
  id = V4L2_CID_HFLIP \/ id = V4L2_CID_VFLIP.

(** The two register codes the gain case of [imx219_s_ctrl] leaves in
    [priv->analogue_gain] and [priv->digital_gain], as a function of
    [ctrl->val], through the types of the locals ([u16 gain], [a_gain],
    [d_gain]) and of the two fields ([u8], [u16]). *)
Definition gain_case_codes (val : Z) : Z * Z :=
  let gain := u16 val in
  let gain := if gain <? 256 then 256 else gain in
  let gain := if 43663 <? gain then 43663 else gain in
  let in_analog_range := (256 <=? gain) && (gain <=? 2728) in
  let a_gain := if in_analog_range then gain else 2728 in
  let d_gain := if in_analog_range then u16 (1 * 256)
                else u16 (Z.quot (gain * 256) 2728) in
  let analogue_gain := u8 (256 - Z.quot (256 * 256) a_gain) in
  let analogue_gain := if a_gain <? 256 then 0 else analogue_gain in
  let analogue_gain := if 232 <? analogue_gain then 232 else analogue_gain in
  let digital_gain := if d_gain <? 256 then 256 else d_gain in
  let digital_gain := if 4095 <? digital_gain then 4095 else digital_gain in
  (analogue_gain, digital_gain).

(** The value the vertical-blank case of [imx219_s_ctrl] leaves in
    [ctrl->val], and the one it leaves in [priv->cur_vts]. *)
Definition vblank_case_val (p : imx219) (val : Z) : Z :=
  if u32 val <? vts_def (cur_mode p) then s32 (vts_def (cur_mode p))
  else val.

Definition vblank_case_vts (p : imx219) (val : Z) : Z :=
  let vts := s32 (vblank_case_val p val - IMX219_EXP_LINES_MARGIN) in
  if negb (vts =? cur_vts p) then u16 vts else cur_vts p.

(** *** Concrete worlds *)

(** The state the probe starts from: the zeroed structure with the first
    catalog entry as current mode. *)
Definition priv_initial : imx219 :=
  {| hflip := 0; vflip := 0; analogue_gain := 0; digital_gain := 0;
     exposure_time := 0; test_pattern := 0; cur_mode := mode_1920_1080;
     cfg_num := 2; cur_vts := 0 |}.

(** Some behaviours of the bus: every transfer succeeds and reads as [v];
    every transfer fails; only the transfer at position [k] fails. *)
Definition bus_reads (v : Z) : nat -> option Z := fun _ => Some v.
Definition bus_down : nat -> option Z := fun _ => None.
Definition bus_fails_at (k : nat) : nat -> option Z :=
  fun n => if Nat.eqb n k then None else Some 0.

Definition world_initial (b : nat -> option Z) : world :=
  {| priv := priv_initial; trace := []; bus := b |}.

Definition gain_ctrl (val : Z) : v4l2_ctrl :=
  {| ctrl_id := V4L2_CID_GAIN; ctrl_val := val |}.

(** The codes a gain control leaves in the state of the initial world. *)
Definition stored_gain_codes (val : Z) : Z * Z :=
  let w' := snd (imx219_s_ctrl (gain_ctrl val) (world_initial (bus_reads 0))) in
  (analogue_gain (priv w'), digital_gain (priv w')).

(** The world after a successful stream start from the initial state, on a
    bus that reads as [v]. *)
Definition world_streaming (v : Z) : world :=
  snd (imx219_s_stream 1 (world_initial (bus_reads v))).

Definition vblank_ctrl (val : Z) : v4l2_ctrl :=
  {| ctrl_id := V4L2_CID_VBLANK; ctrl_val := val |}.

(** What a flip control stores before it looks at the mode-select
    register. *)
Definition store_flip (ctrl : v4l2_ctrl) (p : imx219) : imx219 :=
  match ctrl_id ctrl with
  | V4L2_CID_HFLIP => set_hflip (ctrl_val ctrl) p
  | V4L2_CID_VFLIP => set_vflip (ctrl_val ctrl) p
  | _ => p
  end.

Definition mode_select_read : event :=
  reg_read_msg IMX219_REG_MODE_SELECT REG_VALUE_08BIT.

(** *** The start sequence *)

(** The messages a replay of a register table consists of: one 8-bit write
    per entry, up to the end marker. *)
Fixpoint table_msgs (table : list imx219_reg) : list event :=
  match table with
  | [] => []
  | reg :: rest =>
      if addr reg =? IMX219_TABLE_END then []
      else reg_msg (addr reg) REG_VALUE_08BIT (val reg) :: table_msgs rest
  end.

(** The orientation write: bit 0 for the horizontal flip, bit 1 for the
    vertical flip. *)
Definition orientation_msg (p : imx219) : event :=
  reg_msg IMX219_REG_IMG_ORIENTATION REG_VALUE_08BIT
    (Z.b2z (nonzero (hflip p)) + 2 * Z.b2z (nonzero (vflip p))).

(** The test-pattern writes: pattern and window size of the active mode
    when a pattern is selected, the disabling write otherwise. *)
Definition test_pattern_msgs (p : imx219) : list event :=
  if test_pattern p =? TEST_PATTERN_DISABLED then
    [reg_msg IMX219_REG_TP REG_VALUE_16BIT 0]
  else
    [reg_msg IMX219_REG_TP REG_VALUE_16BIT (test_pattern p);
     reg_msg IMX219_REG_TP_WINDOW_WIDTH REG_VALUE_16BIT
       (width (cur_mode p));
     reg_msg IMX219_REG_TP_WINDOW_HEIGHT REG_VALUE_16BIT
       (height (cur_mode p))].

Definition stream_enable_msg : event :=
  reg_msg IMX219_REG_MODE_SELECT REG_VALUE_08BIT 1.

(** The four steps of a stream start, in order. *)
Definition start_sequence (p : imx219) : list event :=
  table_msgs (reg_list (cur_mode p)) ++
  [orientation_msg p] ++
  test_pattern_msgs p ++
  [stream_enable_msg].

(** Where the start stops when its [j]-th write fails: a replay stops at
    the failing entry, the orientation write and the stream-enable write
    are single writes, and the test-pattern writes are made as a group. *)
Definition step_end (p : imx219) (j : nat) : nat :=
  let replay := length (table_msgs (reg_list (cur_mode p))) in
  let pattern := length (test_pattern_msgs p) in
  if (j <? replay)%nat then S j
  else if (j =? replay)%nat then (replay + 1)%nat
  else if (j <? replay + 1 + pattern)%nat then (replay + 1 + pattern)%nat
  else (replay + 1 + pattern + 1)%nat.

(** *** Derived control ranges *)

(** The three derived control ranges of a mode, over the integers:
    horizontal blank, vertical blank, pixel rate. *)
Definition h_blank_of (mode : imx219_mode) : Z := hts_def mode - width mode.

Definition v_blank_of (mode : imx219_mode) : Z := vts_def mode - height mode.

Definition pixel_rate_of (mode : imx219_mode) : Z :=
  vts_def mode * hts_def mode *
  round_div (denominator (max_fps mode)) (numerator (max_fps mode)).

Definition hblank_range (mode : imx219_mode) : event :=
  CtrlModifyRange HBLANK (h_blank_of mode) (h_blank_of mode) 1
    (h_blank_of mode).

Definition vblank_range (mode : imx219_mode) : event :=
  CtrlModifyRange VBLANK (v_blank_of mode) (IMX219_VTS_MAX - height mode) 1
    (v_blank_of mode).

Definition pixel_rate_range (mode : imx219_mode) : event :=
  CtrlModifyRange PIXEL_RATE (pixel_rate_of mode) (pixel_rate_of mode) 1
    (pixel_rate_of mode).

Definition hdr_cfg (mode : Z) : rkmodule_hdr_cfg :=
  {| cfg_hdr_mode := mode; esp_mode := HDR_NORMAL_VC |}.

(** The initial world once the format 3280x2464 has been set. *)
Definition world_3280_2464 : world :=
  snd (imx219_set_fmt (request V4L2_SUBDEV_FORMAT_ACTIVE 3280 2464)
         (world_initial (bus_reads 0))).

(** *** The identity check *)

(** The register reads of the identity check, in order: the 16-bit model
    identity, the three lot-identity bytes, the 16-bit chip identity. *)
Definition identity_reads : list event :=
  [reg_read_msg IMX219_REG_MODEL_ID REG_VALUE_16BIT;
   reg_read_msg IMX219_REG_LOT_ID_H REG_VALUE_08BIT;
   reg_read_msg IMX219_REG_LOT_ID_M REG_VALUE_08BIT;
   reg_read_msg IMX219_REG_LOT_ID_L REG_VALUE_08BIT;
   reg_read_msg IMX219_REG_CHIP_ID REG_VALUE_16BIT].

(** A bus on which a sensor answers the identity check with the given
    model identity (the clock event comes first, the model read second). *)
Definition bus_model (model : Z) : nat -> option Z :=
  fun n => if Nat.eqb n 1 then Some model else Some 0x55.

(** A computation that leaves [priv->cur_mode] as it finds it. *)
Definition keeps_mode {A} (m : M A) : Prop :=
  forall w, cur_mode (priv (snd (m w))) = cur_mode (priv w).

(** *** Enumeration and stream control *)

(** A frame-size query for the entry at [index] under the code [code]; the
    four sizes are what the call fills in. *)
Definition frame_size_query (index code : Z) : v4l2_subdev_frame_size_enum :=
  {| fse_index := index; fse_code := code; min_width := 0; max_width := 0;
     min_height := 0; max_height := 0 |}.

(** The request for the active format with the size a frame-size
    enumeration has answered. *)
Definition enumerated_request (fse : v4l2_subdev_frame_size_enum)
    : v4l2_subdev_format :=
  {| which := V4L2_SUBDEV_FORMAT_ACTIVE;
     format := {| f_width := max_width fse; f_height := max_height fse;
                  f_code := fse_code fse; f_field := 0;
                  f_colorspace := 0 |} |}.

Definition stream_disable_msg : event :=
  reg_msg IMX219_REG_MODE_SELECT REG_VALUE_08BIT 0.

(** The state after the frame length has been set back to that of the
    current mode, as a stream start does. *)
Definition resync_vts (p : imx219) : imx219 :=
  set_cur_vts
    (u16 (u32 (vts_def (cur_mode p) - IMX219_EXP_LINES_MARGIN))) p.

Definition frame_interval_query (index code : Z)
    : v4l2_subdev_frame_interval_enum :=
  {| fie_index := index; fie_code := code; fie_width := 0; fie_height := 0;
     fie_interval := {| numerator := 0; denominator := 0 |};
     fie_reserved0 := 0 |}.

Definition mbus_code_query (index : Z) : v4l2_subdev_mbus_code_enum :=
  {| mce_index := index; mce_code := 0 |}.

Definition frame_interval_0 : v4l2_subdev_frame_interval :=
  {| fi_pad := 0; fi_interval := {| numerator := 0; denominator := 0 |} |}.

(** *** The bytes on the wire *)

(** The number a sequence of bytes stands for, most significant byte
    first. *)
Definition be_value (bytes : list Z) : Z :=
  fold_left (fun acc b => 256 * acc + b) bytes 0.

Definition is_byte (b : Z) : Prop := 0 <= b < 256.

(** Every bus transfer made between the worlds [w] and [w'] succeeded. *)
Definition transfers_ok (w w' : world) : Prop :=
  forall j, (length (trace w) <= j < length (trace w'))%nat ->
    ok w j = true.

(** The register of a test-pattern colour control. *)
Definition colour_reg (id : v4l2_cid) : option Z :=
  match id with
  | V4L2_CID_TEST_PATTERN_RED => Some IMX219_REG_TD_R
  | V4L2_CID_TEST_PATTERN_GREENR => Some IMX219_REG_TD_GR
  | V4L2_CID_TEST_PATTERN_BLUE => Some IMX219_REG_TD_B
  | V4L2_CID_TEST_PATTERN_GREENB => Some IMX219_REG_TD_GB
  | _ => None
  end.

(** *** Vendor commands *)

(** The request for the active format, with nothing filled in. *)
Definition active_format_query : v4l2_subdev_format :=
  request V4L2_SUBDEV_FORMAT_ACTIVE 0 0.

(** Whether a command of the compatibility entry point allocates a kernel
    copy of its argument, and whether it copies its argument in from user
    memory. *)
Definition allocates (cmd : compat_cmd) : bool :=
  match cmd with
  | COMPAT_GET_MODULE_INFO | COMPAT_GET_HDR_CFG | COMPAT_SET_HDR_CFG _ => true
  | _ => false
  end.

Definition copies_in (cmd : compat_cmd) : bool :=
  match cmd with
  | COMPAT_SET_HDR_CFG _ | COMPAT_SET_QUICK_STREAM _ => true
  | _ => false
  end.

(** The 32-bit value whose bytes in memory are [bytes], on a little-endian
    machine. *)
Definition le_value (bytes : list Z) : Z :=
  fold_right (fun b acc => b + 256 * acc) 0 bytes.

(** *** Control registration *)

Definition ctrl_decl_of (ops : bool) (id : v4l2_cid) (min max step def : Z)
    : ctrl_decl :=
  {| decl_ops := ops; decl_id := id; decl_min := min; decl_max := max;
     decl_step := step; decl_def := def |}.

(** An identifier the [switch] of [imx219_s_ctrl] has a case for. *)
Definition handled_cid (id : v4l2_cid) : Prop :=
  forall n, id <> V4L2_CID_OTHER n.

(** Whether the C code defines what [imx219_s_ctrl] does with a control.
    The test-pattern case reads [test_pattern_val[ctrl->val]] without a
    check, so the value has to be an index of that array, as the values of
    the registered menu are; outside of it the access is undefined in C
    and nothing is stated about the call.  The other cases make no such
    access. *)
Definition s_ctrl_defined (ctrl : v4l2_ctrl) : bool :=
  match ctrl_id ctrl with
  | V4L2_CID_TEST_PATTERN =>
      (0 <=? ctrl_val ctrl) &&
      (ctrl_val ctrl <? Z.of_nat (length test_pattern_val))
  | _ => true
  end.

(** *** The entry points and the state they maintain *)

(** A call of one of the entry points of the driver, with its
    arguments. *)
Inductive entry_point :=
| S_STREAM (enable : Z)
| S_POWER (on : Z)
| S_CTRL (ctrl : v4l2_ctrl)
| SET_FMT (fmt : v4l2_subdev_format)
| GET_FMT (fmt : v4l2_subdev_format)
| IOCTL (cmd : ioctl_cmd)
| COMPAT_IOCTL32 (env : compat_env) (cmd : compat_cmd)
| ENUM_MBUS_CODE (code : v4l2_subdev_mbus_code_enum)
| ENUM_FRAME_INTERVAL (fie : v4l2_subdev_frame_interval_enum)
| G_FRAME_INTERVAL (fi : v4l2_subdev_frame_interval)
| VIDEO_PROBE
| CTRLS_INIT (handler_error setup_ret : Z).

(** The world a call leaves behind. *)
Definition call (op : entry_point) (w : world) : world :=
  match op with
  | S_STREAM enable => snd (imx219_s_stream enable w)
  | S_POWER on => snd (imx219_s_power on w)
  | S_CTRL ctrl => snd (imx219_s_ctrl ctrl w)
  | SET_FMT fmt => snd (imx219_set_fmt fmt w)
  | GET_FMT fmt => snd (imx219_get_fmt fmt w)
  | IOCTL cmd => snd (imx219_ioctl cmd w)
  | COMPAT_IOCTL32 env cmd => snd (imx219_compat_ioctl32 env cmd w)
  | ENUM_MBUS_CODE code => snd (imx219_enum_mbus_code code w)
  | ENUM_FRAME_INTERVAL fie => snd (imx219_enum_frame_interval fie w)
  | G_FRAME_INTERVAL fi => snd (imx219_g_frame_interval fi w)
  | VIDEO_PROBE => snd (imx219_video_probe w)
  | CTRLS_INIT handler_error setup_ret =>
      snd (imx219_ctrls_init handler_error setup_ret w)
  end.

(** Calls made one after the other. *)
Definition calls (ops : list entry_point) (w : world) : world :=
  fold_left (fun w op => call op w) ops w.

(** Whether the C code defines what a call does with its arguments: a
    control has to be one [imx219_s_ctrl] is defined on, and a quick-stream
    command through the 32-bit entry point whose copy succeeds has to
    point to user memory that holds the byte copied. *)
Definition call_defined (op : entry_point) : bool :=
  match op with
  | S_CTRL ctrl => s_ctrl_defined ctrl
  | COMPAT_IOCTL32 env (COMPAT_SET_QUICK_STREAM up) =>
      nonzero (copy_from_user_left env) ||
      match up with [] => false | _ :: _ => true end
  | _ => true
  end.

(** What holds of the state between calls: the current mode is an entry of
    the catalog, [cfg_num] is the size of the catalog, the gain codes are
    those of the registers (the digital code is 0 until a gain has been
    set), the test pattern is one of the five of the pattern table, and
    the 16-bit fields hold 16-bit values. *)
Definition state_ok (p : imx219) : Prop :=
  In (cur_mode p) supported_modes /\
  cfg_num p = supported_modes_size /\
  0 <= analogue_gain p <= 232 /\
  (digital_gain p = 0 \/ 256 <= digital_gain p <= 4095) /\
  0 <= exposure_time p < 2 ^ 16 /\
  0 <= test_pattern p <= 4 /\
  0 <= cur_vts p < 2 ^ 16.

(** A computation that leaves the state of the driver as it finds it. *)
Definition keeps_priv {A} (m : M A) : Prop :=
  forall w, priv (snd (m w)) = priv w.

(** ** Integer conversions *)

Lemma u8_small x : 0 <= x < 2 ^ 8 -> u8 x = x.
Proof. intros H. unfold u8. apply Z.mod_small. exact H. Qed.

Lemma u16_small x : 0 <= x < 2 ^ 16 -> u16 x = x.
Proof. intros H. unfold u16. apply Z.mod_small. exact H. Qed.

Lemma u32_small x : 0 <= x < 2 ^ 32 -> u32 x = x.
Proof. intros H. unfold u32. apply Z.mod_small. exact H. Qed.

Lemma s32_small x : - 2 ^ 31 <= x < 2 ^ 31 -> s32 x = x.
Proof.
  intros H. unfold s32. rewrite Z.mod_small; lia.
Qed.

Lemma s32_u32 x : s32 (u32 x) = s32 x.
Proof.
  unfold s32, u32. rewrite Zplus_mod_idemp_l. reflexivity.
Qed.

(** On differences that fit an [int] the macro is the absolute value. *)
Lemma abs_u32_difference a b :
  - 2 ^ 31 < a - b < 2 ^ 31 -> abs (u32 (a - b)) = Z.abs (a - b).
Proof.
  intros H. unfold abs. rewrite s32_u32, s32_small by lia.
  destruct (Z.ltb_spec (a - b) 0).
  - rewrite s32_small by lia. lia.
  - lia.
Qed.

Lemma imx219_get_reso_dist_in_range mode framefmt :
  0 <= width mode < 2 ^ 30 -> 0 <= height mode < 2 ^ 30 ->
  0 <= f_width framefmt < 2 ^ 30 -> 0 <= f_height framefmt < 2 ^ 30 ->
  imx219_get_reso_dist mode framefmt = l1_distance mode framefmt.
Proof.
  intros Hw Hh Hfw Hfh. unfold imx219_get_reso_dist, l1_distance.
  rewrite !abs_u32_difference by lia.
  apply s32_small. lia.
Qed.

(** ** Mode selection: results *)

Section BestFitLoop.

Variable framefmt : v4l2_mbus_framefmt.

Let dist (mode : imx219_mode) : Z := imx219_get_reso_dist mode framefmt.

(** The loop over any catalog whose distances are not negative, so that
    none of them is taken for the initial -1: started on [modes] with the
    entries [seen] behind it, and with either nothing recorded or the
    first minimum of [seen] recorded, it returns the index of the first
    minimum of [seen ++ modes]. *)
Lemma best_fit_loop_first_minimum modes :
  forall seen cur_best_fit cur_best_fit_dist,
    (forall mode, In mode modes -> 0 <= dist mode) ->
    seen ++ modes <> [] ->
    (cur_best_fit_dist = -1 /\ seen = []) \/
    (0 <= cur_best_fit_dist /\
     exists best, nth_error seen cur_best_fit = Some best /\
       dist best = cur_best_fit_dist /\
       forall j other, nth_error seen j = Some other ->
         dist best <= dist other /\
         (dist other = dist best -> (cur_best_fit <= j)%nat)) ->
    let r := best_fit_loop modes framefmt (length seen) cur_best_fit
               cur_best_fit_dist in
    exists best, nth_error (seen ++ modes) r = Some best /\
      forall j other, nth_error (seen ++ modes) j = Some other ->
        dist best <= dist other /\
        (dist other = dist best -> (r <= j)%nat).
Proof.
  induction modes as [| mode rest IH];
    intros seen cur bd Hpos Hne Hinv; cbv zeta.
  - cbn [best_fit_loop]. rewrite app_nil_r in *.
    destruct Hinv as [[_ ->] | (_ & best & Hb & _ & Hmin)];
      [contradiction |].
    exists best. split; assumption.
  - cbn [best_fit_loop]. fold (dist mode).
    assert (Hd : 0 <= dist mode) by (apply Hpos; left; reflexivity).
    assert (Hrest : forall m, In m rest -> 0 <= dist m)
      by (intros m Hm; apply Hpos; right; exact Hm).
    assert (Happ : seen ++ mode :: rest = (seen ++ [mode]) ++ rest)
      by (rewrite <- app_assoc; reflexivity).
    assert (Hlen : S (length seen) = length (seen ++ [mode]))
      by (rewrite length_app; cbn [length]; lia).
    assert (Hne' : (seen ++ [mode]) ++ rest <> [])
      by (destruct seen; discriminate).
    assert (Hnew : nth_error (seen ++ [mode]) (length seen) = Some mode).
    { rewrite nth_error_app2 by lia. rewrite Nat.sub_diag. reflexivity. }
    assert (Hsplit : forall j other,
               nth_error (seen ++ [mode]) j = Some other ->
               nth_error seen j = Some other \/
               (j = length seen /\ other = mode)).
    { intros j other Hj.
      destruct (Nat.lt_ge_cases j (length seen)) as [Hlt | Hge].
      - left. rewrite nth_error_app1 in Hj by exact Hlt. exact Hj.
      - right. rewrite nth_error_app2 in Hj by exact Hge.
        destruct (j - length seen)%nat as [| k] eqn:Ek.
        + cbn in Hj. injection Hj as <-. split; [lia | reflexivity].
        + cbn in Hj. destruct k; discriminate Hj. }
    rewrite Happ, Hlen.
    destruct Hinv as [[-> ->] | (Hbd & best & Hb & Hdb & Hmin)].
    + change (-1 =? -1) with true. cbn [orb].
      apply IH; [exact Hrest | exact Hne' |].
      right. split; [exact Hd |]. exists mode.
      split; [reflexivity |]. split; [reflexivity |].
      intros j other Hj.
      destruct (Hsplit j other Hj) as [Hs | [-> ->]].
      * destruct j; discriminate Hs.
      * split; [lia |]. intros _. cbn. lia.
    + assert (Hcur : (cur < length seen)%nat)
        by (apply nth_error_Some; rewrite Hb; discriminate).
      destruct (Z.eqb_spec bd (-1)) as [E | _]; [lia |]. cbn [orb].
      destruct (Z.ltb_spec (dist mode) bd) as [Hlt | Hge].
      * apply IH; [exact Hrest | exact Hne' |].
        right. split; [exact Hd |]. exists mode.
        split; [exact Hnew |]. split; [reflexivity |].
        intros j other Hj.
        destruct (Hsplit j other Hj) as [Hs | [-> ->]].
        -- destruct (Hmin j other Hs) as [Hle _]. split; lia.
        -- split; [lia |]. intros _. lia.
      * apply IH; [exact Hrest | exact Hne' |].
        right. split; [exact Hbd |]. exists best.
        split; [rewrite nth_error_app1 by exact Hcur; exact Hb |].
        split; [exact Hdb |].
        intros j other Hj.
        destruct (Hsplit j other Hj) as [Hs | [-> ->]].
        -- exact (Hmin j other Hs).
        -- split; [lia |]. intros _. lia.
Qed.

End BestFitLoop.

Lemma supported_modes_in_range mode :
  In mode supported_modes ->
  0 <= width mode < 2 ^ 30 /\ 0 <= height mode < 2 ^ 30.
Proof.
  intros [<- | [<- | []]]; cbn [width height mode_1920_1080 mode_3280_2464];
    lia.
Qed.

(** For requests below [2 ^ 30] in both dimensions the driver's distance is
    the L1 distance on every catalog entry, and the loop returns the first
    minimum of the L1 distance over the catalog. *)
Lemma imx219_find_best_fit_in_range fmt :
  0 <= f_width (format fmt) < 2 ^ 30 ->
  0 <= f_height (format fmt) < 2 ^ 30 ->
  exists i, first_l1_minimum supported_modes (format fmt) i
              (imx219_find_best_fit fmt).
Proof.
  intros Hw Hh.
  assert (Hd : forall mode, In mode supported_modes ->
                 imx219_get_reso_dist mode (format fmt)
                 = l1_distance mode (format fmt)).
  { intros mode Hin. destruct (supported_modes_in_range mode Hin).
    apply imx219_get_reso_dist_in_range; assumption. }
  destruct (best_fit_loop_first_minimum (format fmt) supported_modes
              [] 0%nat (-1)) as (best & Hbest & Hmin).
  - intros mode Hin. rewrite (Hd mode Hin). unfold l1_distance. lia.
  - discriminate.
  - left. split; reflexivity.
  - cbn [app length] in Hbest, Hmin.
    unfold imx219_find_best_fit.
    exists (best_fit_loop supported_modes (format fmt) 0 0 (-1)).
    rewrite (nth_error_nth _ _ mode_1920_1080 Hbest).
    split; [exact Hbest |].
    intros j other Hj.
    rewrite <- (Hd best) by (eapply nth_error_In; exact Hbest).
    rewrite <- (Hd other) by (eapply nth_error_In; exact Hj).
    exact (Hmin j other Hj).
Qed.

(** The request of the specification's example: 2000x1500 is at distance
    80 + 420 = 500 from 1920x1080 and at distance 1280 + 964 = 2244 from
    3280x2464. *)
Example imx219_find_best_fit_2000_1500 :
  let fmt := request V4L2_SUBDEV_FORMAT_ACTIVE 2000 1500 in
  imx219_get_reso_dist mode_1920_1080 (format fmt) = 500 /\
  imx219_get_reso_dist mode_3280_2464 (format fmt) = 2244 /\
  imx219_find_best_fit fmt = mode_1920_1080.
Proof. repeat split; vm_compute; reflexivity. Qed.

(** The selected entry always belongs to the catalog. *)
Lemma imx219_find_best_fit_supported fmt :
  imx219_find_best_fit fmt = mode_1920_1080 \/
  imx219_find_best_fit fmt = mode_3280_2464.
Proof.
  unfold imx219_find_best_fit, supported_modes. cbn [best_fit_loop].
  change (-1 =? -1) with true. cbn [orb].
  destruct ((imx219_get_reso_dist mode_1920_1080 (format fmt) =? -1) ||
            (imx219_get_reso_dist mode_3280_2464 (format fmt) <?
             imx219_get_reso_dist mode_1920_1080 (format fmt)));
    [right | left]; reflexivity.
Qed.

(** C1. The claim asks for the L1 minimum at every requested width and
    height.  At the request 4294967295 x 1772 the differences of the widths
    wrap around in [u32] before [abs] sees them: the driver measures 2613
    and 3973 and returns the 1920x1080 entry, while over the integers the
    3280x2464 entry is strictly closer. *)
Theorem imx219_find_best_fit_wraps :
  let fmt := request V4L2_SUBDEV_FORMAT_ACTIVE 4294967295 1772 in
  imx219_get_reso_dist mode_1920_1080 (format fmt) = 2613 /\
  imx219_get_reso_dist mode_3280_2464 (format fmt) = 3973 /\
  imx219_find_best_fit fmt = mode_1920_1080 /\
  l1_distance mode_3280_2464 (format fmt) <
  l1_distance mode_1920_1080 (format fmt) /\
  ~ exists i, first_l1_minimum supported_modes (format fmt) i
                (imx219_find_best_fit fmt).
Proof.
  cbv zeta.
  assert (E : imx219_find_best_fit
                (request V4L2_SUBDEV_FORMAT_ACTIVE 4294967295 1772)
              = mode_1920_1080) by (vm_compute; reflexivity).
  assert (L : l1_distance mode_3280_2464
                (format (request V4L2_SUBDEV_FORMAT_ACTIVE 4294967295 1772))
              < l1_distance mode_1920_1080
                (format (request V4L2_SUBDEV_FORMAT_ACTIVE 4294967295 1772)))
    by (vm_compute; reflexivity).
  split; [vm_compute; reflexivity |].
  split; [vm_compute; reflexivity |].
  split; [exact E |].
  split; [exact L |].
  rewrite E. intros [i [_ Hmin]].
  destruct (Hmin 1%nat mode_3280_2464 eq_refl) as [Hle _].
  lia.
Qed.

(** ** Register transport: results *)

Lemma reg_write_run addr len data w :
  0 <= len <= 4 ->
  reg_write addr len data w =
  (status (ok w (length (trace w))), log [reg_msg addr len data] w).
Proof.
  intros Hlen. unfold reg_write.
  destruct (Z.ltb_spec 4 len) as [Hgt | _]; [lia |].
  unfold ok, transfer_ok, status, log, reg_msg.
  cbv beta iota zeta delta [bind i2c_master_send next_reply emit pure].
  destruct (bus w (length (trace w))) as [v |].
  - rewrite Z.eqb_refl. reflexivity.
  - destruct (Z.eqb_spec (- EREMOTEIO) (len + 2)) as [E | _].
    + unfold EREMOTEIO in E. lia.
    + reflexivity.
Qed.

Lemma reg_read_run addr len val w :
  0 <= len <= 4 ->
  reg_read addr len val w =
  (match bus w (length (trace w)) with
   | Some v => (0, v mod 2 ^ (8 * len))
   | None => (- EIO, val)
   end, log [reg_read_msg addr len] w).
Proof.
  intros Hlen. unfold reg_read.
  destruct (Z.ltb_spec 4 len) as [Hgt | _]; [lia |].
  unfold log, reg_read_msg.
  cbv beta iota zeta delta [bind i2c_transfer next_reply emit pure].
  destruct (bus w (length (trace w))) as [v |]; reflexivity.
Qed.

(** ** The bytes of a register write *)

Lemma land_255 x : Z.land x 255 = x mod 2 ^ 8.
Proof. change 255 with (Z.ones 8). apply Z.land_ones. lia. Qed.

(** An 8-bit write sends the address, high byte first, and the value. *)
Lemma reg_msg_08bit addr v :
  0 <= addr < 2 ^ 16 -> 0 <= v < 2 ^ 8 ->
  reg_msg addr REG_VALUE_08BIT v =
  I2cSend [addr / 2 ^ 8; addr mod 2 ^ 8; v].
Proof.
  intros Ha Hv. unfold reg_msg, put_unaligned_be16, put_unaligned_be32.
  change (Z.to_nat (REG_VALUE_08BIT + 2)) with 3%nat.
  change (8 * (4 - REG_VALUE_08BIT)) with 24.
  cbn [app firstn]. rewrite !land_255, !Z.shiftr_div_pow2 by lia.
  rewrite Z.shiftl_mul_pow2 by lia.
  rewrite (u32_small (v * 2 ^ 24)) by lia.
  rewrite Z.div_mul by lia.
  rewrite (Z.mod_small v) by lia.
  rewrite (Z.mod_small (addr / 2 ^ 8))
    by (split; [apply Z.div_pos; lia | apply Z.div_lt_upper_bound; lia]).
  reflexivity.
Qed.

(** A 16-bit write sends the address and the value, high bytes first. *)
Lemma reg_msg_16bit addr v :
  0 <= addr < 2 ^ 16 -> 0 <= v < 2 ^ 16 ->
  reg_msg addr REG_VALUE_16BIT v =
  I2cSend [addr / 2 ^ 8; addr mod 2 ^ 8; v / 2 ^ 8; v mod 2 ^ 8].
Proof.
  intros Ha Hv. unfold reg_msg, put_unaligned_be16, put_unaligned_be32.
  change (Z.to_nat (REG_VALUE_16BIT + 2)) with 4%nat.
  change (8 * (4 - REG_VALUE_16BIT)) with 16.
  cbn [app firstn]. rewrite !land_255, !Z.shiftr_div_pow2 by lia.
  rewrite Z.shiftl_mul_pow2 by lia.
  rewrite (u32_small (v * 2 ^ 16)) by lia.
  rewrite Z.div_mul by lia.
  change (2 ^ 24) with (2 ^ 8 * 2 ^ 16).
  rewrite Z.div_mul_cancel_r by lia.
  rewrite (Z.mod_small (v / 2 ^ 8))
    by (split; [apply Z.div_pos; lia | apply Z.div_lt_upper_bound; lia]).
  rewrite (Z.mod_small (addr / 2 ^ 8))
    by (split; [apply Z.div_pos; lia | apply Z.div_lt_upper_bound; lia]).
  reflexivity.
Qed.

(** ** Worlds and traces *)

Lemma log_log es1 es2 w : log es2 (log es1 w) = log (es1 ++ es2) w.
Proof. unfold log. cbn [priv trace bus]. rewrite <- app_assoc. reflexivity. Qed.

Lemma ok_log es w n : ok (log es w) n = ok w n.
Proof. reflexivity. Qed.

Lemma length_trace_log es w :
  length (trace (log es w)) = (length (trace w) + length es)%nat.
Proof. cbn [log trace]. apply length_app. Qed.

(** Simplification of a monadic computation applied to a world. *)
Ltac run_monad :=
  cbv beta iota zeta delta
    [bind pure when modify_priv get_priv emit
     __v4l2_ctrl_modify_range __v4l2_ctrl_s_ctrl_int64].

Ltac case_if :=
  match goal with
  | |- context [if ?b then _ else _] =>
      lazymatch b with
      | context [if _ then _ else _] => fail
      | _ => destruct b eqn:?
      end
  end.

(** Replaces the next register write by its result. *)
Ltac run_reg_write :=
  rewrite reg_write_run by (unfold REG_VALUE_08BIT, REG_VALUE_16BIT; lia);
  cbv beta iota.

(** Closes an equation between two results whose traces differ by the
    bracketing of the appended events. *)
Ltac same_world :=
  unfold ok, log, with_priv; cbn [priv trace bus];
  rewrite ?length_app; cbn [length];
  rewrite ?Nat.add_1_r, <- ?app_assoc; cbn [app];
  reflexivity.

(** ** The gain control: results *)

Lemma imx219_s_ctrl_gain_run id val w :
  gain_cid id ->
  imx219_s_ctrl {| ctrl_id := id; ctrl_val := val |} w =
  (Z.lor (status (ok w (length (trace w))))
         (status (ok w (S (length (trace w))))),
   {| ctrl_id := id; ctrl_val := val |},
   log [reg_msg IMX219_REG_ANA_GAIN_GLOBAL_A REG_VALUE_08BIT
          (fst (gain_case_codes val));
        reg_msg IMX219_REG_DIG_GAIN_GLOBAL_A REG_VALUE_16BIT
          (snd (gain_case_codes val))]
     (with_priv (set_digital_gain (snd (gain_case_codes val))
                  (set_analogue_gain (fst (gain_case_codes val)) (priv w)))
        w)).
Proof.
  intros [-> | ->]; unfold imx219_s_ctrl, gain_case_codes;
    cbn [ctrl_id ctrl_val];
    repeat (run_monad;
            cbn [priv trace bus analogue_gain digital_gain set_analogue_gain
                 set_digital_gain fst snd];
            case_if).
  all: run_monad;
    cbn [priv trace bus analogue_gain digital_gain set_analogue_gain
         set_digital_gain fst snd];
    do 2 run_reg_write; same_world.
Qed.

(** On values that fit the 16-bit local [gain], the codes the driver
    computes are those of the policy with the digital portion truncated. *)
Lemma gain_case_codes_floor val :
  0 <= val <= 65535 -> gain_case_codes val = apply_gain_floor val.
Proof.
  intros Hval. unfold gain_case_codes, apply_gain_floor, apply_gain_with.
  rewrite (u16_small val) by lia.
  assert (Hg : (if 43663 <? (if val <? 256 then 256 else val) then 43663
                else if val <? 256 then 256 else val)
               = clamp 256 43663 val).
  { unfold clamp.
    destruct (Z.ltb_spec val 256); destruct (Z.ltb_spec 43663 256);
      try destruct (Z.ltb_spec 43663 val); lia. }
  cbv zeta. rewrite Hg.
  assert (Hb : 256 <= clamp 256 43663 val <= 43663) by (unfold clamp; lia).
  set (gain := clamp 256 43663 val) in *.
  destruct (Z.leb_spec 256 gain) as [_ | ?]; [| lia]. cbn [andb].
  destruct (Z.leb_spec gain 2728) as [Hlo | Hhi].
  - assert (Hq : 24 <= 256 * 256 / gain <= 256).
    { split.
      - apply Z.div_le_lower_bound; lia.
      - apply Z.div_le_upper_bound; lia. }
    rewrite Z.quot_div_nonneg by lia.
    rewrite (u8_small (256 - 256 * 256 / gain)) by lia.
    rewrite (u16_small (1 * 256)) by lia.
    destruct (Z.ltb_spec gain 256); [lia |].
    destruct (Z.ltb_spec 232 (256 - 256 * 256 / gain)); [lia |].
    change (1 * 256 <? 256) with false. cbv iota.
    change (4095 <? 1 * 256) with false. cbv iota.
    unfold clamp. f_equal; lia.
  - assert (Hq : 256 <= gain * 256 / 2728 < 4098).
    { split.
      - apply Z.div_le_lower_bound; lia.
      - apply Z.div_lt_upper_bound; lia. }
    rewrite (Z.quot_div_nonneg (gain * 256) 2728) by lia.
    rewrite (u16_small (gain * 256 / 2728)) by lia.
    change (2728 <? 256) with false. cbv iota.
    change (u8 (256 - 256 * 256 ÷ 2728)) with 232.
    change (256 - 256 * 256 / 2728) with 232.
    change (232 <? 232) with false. cbv iota.
    destruct (Z.ltb_spec (gain * 256 / 2728) 256); [lia |].
    unfold clamp.
    destruct (Z.ltb_spec 4095 (gain * 256 / 2728)); f_equal; lia.
Qed.

(** Whatever the control value, its low 16 bits are what the policy is
    applied to. *)
Lemma gain_case_codes_low16 val :
  gain_case_codes val = apply_gain_floor (val mod 2 ^ 16).
Proof.
  rewrite <- gain_case_codes_floor
    by (pose proof (Z.mod_pos_bound val (2 ^ 16)); lia).
  unfold gain_case_codes, u16. rewrite Z.mod_mod by lia. reflexivity.
Qed.

(** The lowest gain: analog code 0, digital code 256. *)
Example stored_gain_codes_256 : stored_gain_codes 256 = (0, 256).
Proof. vm_compute. reflexivity. Qed.

(** C3. As the claim words it, the digital portion is rounded and every
    value is clamped.  The driver truncates the division (2734 gives the
    digital code 256 where rounding gives 257), and it holds the value in
    a 16-bit local before clamping it (65836 is taken for 300, -1 for
    65535). *)
Lemma apply_gain_spec_counterexample :
  stored_gain_codes 2734 = (232, 256) /\
  apply_gain_spec 2734 = (232, 257) /\
  stored_gain_codes 65836 = (38, 256) /\
  apply_gain_spec 65836 = (232, 4095) /\
  stored_gain_codes (-1) = (232, 4095) /\
  apply_gain_spec (-1) = (0, 256).
Proof. repeat split; vm_compute; reflexivity. Qed.

(** C3, amended.  For every unified gain value in 0..65535, whatever the
    state and the bus, the gain control stores the analog and digital
    register codes of the policy with the digital portion truncated:
    clamp to [256, 43663]; up to 2728 the analog portion is the gain and
    the digital portion 256, above it the analog portion is 2728 and the
    digital portion is gain * 256 / 2728 rounded down; the analog code is
    256 - 65536 / analog_portion clamped to [0, 232], the digital code is
    clamped to [256, 4095]. *)
Theorem apply_gain_truncates w id val :
  gain_cid id ->
  0 <= val <= 65535 ->
  let w' := snd (imx219_s_ctrl {| ctrl_id := id; ctrl_val := val |} w) in
  (analogue_gain (priv w'), digital_gain (priv w')) = apply_gain_floor val.
Proof.
  intros Hid Hval. cbv zeta.
  rewrite (imx219_s_ctrl_gain_run id val w Hid). cbn [snd].
  rewrite <- (gain_case_codes_floor val Hval).
  destruct (gain_case_codes val) as [a d]. reflexivity.
Qed.

(** The two examples of the claim: 43663 yields the digital code 4095, and
    2728 the analog code 232 with the digital code 256. *)
Lemma apply_gain_truncates_witness :
  gain_cid V4L2_CID_GAIN /\
  0 <= 43663 <= 65535 /\
  0 <= 2728 <= 65535 /\
  stored_gain_codes 43663 = (232, 4095) /\
  stored_gain_codes 2728 = (232, 256).
Proof.
  assert (Hid : gain_cid V4L2_CID_GAIN) by (right; reflexivity).
  assert (H1 : 0 <= 43663 <= 65535) by lia.
  assert (H2 : 0 <= 2728 <= 65535) by lia.
  split; [exact Hid |]. split; [exact H1 |]. split; [exact H2 |].
  split.
  - exact (apply_gain_truncates (world_initial (bus_reads 0)) V4L2_CID_GAIN
             43663 Hid H1).
  - exact (apply_gain_truncates (world_initial (bus_reads 0)) V4L2_CID_GAIN
             2728 Hid H2).
Defined.

(** C4. The claim has the digital write skipped once the analog write has
    failed.  On a bus whose first transfer fails the driver still sends the
    second message. *)
Lemma gain_second_write_counterexample :
  let w := world_initial (bus_fails_at 0) in
  let '(ret, _, w') := imx219_s_ctrl (gain_ctrl 512) w in
  ok w 0 = false /\
  ret = - EIO /\
  trace w' = [reg_msg IMX219_REG_ANA_GAIN_GLOBAL_A REG_VALUE_08BIT 128;
              reg_msg IMX219_REG_DIG_GAIN_GLOBAL_A REG_VALUE_16BIT 256] /\
  trace w' <> [reg_msg IMX219_REG_ANA_GAIN_GLOBAL_A REG_VALUE_08BIT 128].
Proof.
  vm_compute. repeat split; try reflexivity. discriminate.
Qed.

(** C4, amended.  A gain control always attempts exactly two register
    writes, the 8-bit analog-gain register first and the 16-bit
    digital-gain register second, whether or not the first one fails; it
    returns the bitwise OR of the two results, which is 0 when both
    succeed and the transport error [-EIO] when either fails. *)
Theorem gain_writes_both_registers w id val :
  gain_cid id ->
  let '(ret, _, w') :=
    imx219_s_ctrl {| ctrl_id := id; ctrl_val := val |} w in
  let n := length (trace w) in
  trace w' =
    trace w ++
    [reg_msg IMX219_REG_ANA_GAIN_GLOBAL_A REG_VALUE_08BIT
       (analogue_gain (priv w'));
     reg_msg IMX219_REG_DIG_GAIN_GLOBAL_A REG_VALUE_16BIT
       (digital_gain (priv w'))] /\
  ret = Z.lor (status (ok w n)) (status (ok w (S n))) /\
  (ok w n = true /\ ok w (S n) = true -> ret = 0) /\
  (ok w n = false \/ ok w (S n) = false -> ret = - EIO).
Proof.
  intros Hid.
  rewrite (imx219_s_ctrl_gain_run id val w Hid). cbv zeta.
  split; [reflexivity |]. split; [reflexivity |].
  destruct (ok w (length (trace w))), (ok w (S (length (trace w))));
    split; intros H; try reflexivity;
    solve [destruct H; discriminate].
Qed.

Lemma gain_writes_both_registers_witness :
  gain_cid V4L2_CID_GAIN /\
  let w := world_initial bus_down in
  let '(ret, _, w') := imx219_s_ctrl (gain_ctrl 512) w in
  length (trace w') = 2%nat /\ ret = - EIO.
Proof.
  assert (Hid : gain_cid V4L2_CID_GAIN) by (right; reflexivity).
  split; [exact Hid |].
  pose proof (gain_writes_both_registers (world_initial bus_down)
                V4L2_CID_GAIN 512 Hid) as H.
  unfold gain_ctrl.
  destruct (imx219_s_ctrl {| ctrl_id := V4L2_CID_GAIN; ctrl_val := 512 |}
              (world_initial bus_down)) as [[ret c] w'].
  cbv zeta in H. destruct H as [Ht [_ [_ Hf]]].
  split.
  - rewrite Ht. reflexivity.
  - apply Hf. left. reflexivity.
Defined.

(** ** The other register-writing controls: results *)

Lemma imx219_s_ctrl_vblank_run val w :
  imx219_s_ctrl {| ctrl_id := V4L2_CID_VBLANK; ctrl_val := val |} w =
  (status (ok w (length (trace w))),
   {| ctrl_id := V4L2_CID_VBLANK;
      ctrl_val := vblank_case_val (priv w) val |},
   log [reg_msg IMX219_REG_FRM_LENGTH_A REG_VALUE_16BIT
          (vblank_case_vts (priv w) val)]
     (with_priv (set_cur_vts (vblank_case_vts (priv w) val) (priv w)) w)).
Proof.
  unfold imx219_s_ctrl, vblank_case_vts, vblank_case_val.
  cbn [ctrl_id ctrl_val]. run_monad.
  destruct w as [[hf vf ag dg et tp cm cn cv] t b].
  cbn [priv trace bus cur_mode cur_vts].
  destruct (u32 val <? vts_def cm); cbn [ctrl_id ctrl_val];
    case_if; cbn [negb]; run_monad;
    cbn [priv trace bus cur_vts set_cur_vts];
    run_reg_write; same_world.
Qed.

Lemma imx219_s_ctrl_exposure_run val w :
  imx219_s_ctrl {| ctrl_id := V4L2_CID_EXPOSURE; ctrl_val := val |} w =
  (status (ok w (length (trace w))),
   {| ctrl_id := V4L2_CID_EXPOSURE; ctrl_val := val |},
   log [reg_msg IMX219_REG_EXPOSURE REG_VALUE_16BIT (u16 val)]
     (with_priv (set_exposure_time (u16 val) (priv w)) w)).
Proof.
  unfold imx219_s_ctrl. cbn [ctrl_id ctrl_val]. run_monad.
  cbn [priv trace bus exposure_time set_exposure_time].
  run_reg_write. same_world.
Qed.

Lemma imx219_s_ctrl_test_pattern_run val w :
  let pattern := u16 (nth (Z.to_nat val) test_pattern_val 0) in
  imx219_s_ctrl {| ctrl_id := V4L2_CID_TEST_PATTERN; ctrl_val := val |} w =
  (status (ok w (length (trace w))),
   {| ctrl_id := V4L2_CID_TEST_PATTERN; ctrl_val := val |},
   log [reg_msg IMX219_REG_TP REG_VALUE_16BIT pattern]
     (with_priv (set_test_pattern pattern (priv w)) w)).
Proof.
  unfold imx219_s_ctrl. cbn [ctrl_id ctrl_val]. run_monad.
  cbn [priv trace bus test_pattern set_test_pattern].
  run_reg_write. same_world.
Qed.

(** ** Vertical blanking *)

(** C5. The claim has the frame-length write emitted only when the computed
    vts differs from the recorded one.  After a stream start [cur_vts] is
    1759; a request of 0 is raised to 1763 and computes 1759 again, and the
    register is written all the same.  (A negative request compares as a
    large unsigned number and is not raised, and a request above 65539
    does not fit the 16-bit [cur_vts].) *)
Lemma vblank_write_counterexample :
  let w := world_streaming 0 in
  let '(ret, ctrl, w') := imx219_s_ctrl (vblank_ctrl 0) w in
  cur_vts (priv w) = 1759 /\
  ctrl_val ctrl = 1763 /\
  cur_vts (priv w') = 1759 /\
  trace w' =
    trace w ++ [reg_msg IMX219_REG_FRM_LENGTH_A REG_VALUE_16BIT 1759] /\
  trace w' <> trace w /\
  (let '(_, ctrl, w') := imx219_s_ctrl (vblank_ctrl (-1)) w in
   ctrl_val ctrl = -1 /\ cur_vts (priv w') = 65531) /\
  (let '(_, ctrl, w') := imx219_s_ctrl (vblank_ctrl 70000) w in
   ctrl_val ctrl = 70000 /\ cur_vts (priv w') = 4460).
Proof.
  vm_compute. repeat split; try reflexivity.
  intros H. apply (f_equal (@length event)) in H. discriminate H.
Qed.

(** C5, amended.  For a requested value in 0..65539 (the published
    vertical-blank range lies within), a value below the active mode's
    [vts_def] is raised to [vts_def], the new current vts is the (possibly
    raised) value minus the exposure-lines margin, and the frame-length
    register is written with it on every application, whether or not it
    differs from the vts recorded before; the status of that one write is
    returned. *)
Theorem vblank_always_writes w val :
  In (cur_mode (priv w)) supported_modes ->
  0 <= val <= 65539 ->
  let vts_min := vts_def (cur_mode (priv w)) in
  let '(ret, ctrl, w') := imx219_s_ctrl (vblank_ctrl val) w in
  ctrl_val ctrl = Z.max val vts_min /\
  cur_vts (priv w') = Z.max val vts_min - IMX219_EXP_LINES_MARGIN /\
  trace w' =
    trace w ++
    [reg_msg IMX219_REG_FRM_LENGTH_A REG_VALUE_16BIT
       (Z.max val vts_min - IMX219_EXP_LINES_MARGIN)] /\
  ret = status (ok w (length (trace w))).
Proof.
  intros Hmode Hval. unfold vblank_ctrl.
  rewrite imx219_s_ctrl_vblank_run. cbv zeta.
  cbn [ctrl_val log with_priv priv trace cur_vts set_cur_vts].
  assert (Hv : vts_def (cur_mode (priv w)) = 1763 \/
               vts_def (cur_mode (priv w)) = 2500).
  { destruct Hmode as [<- | [<- | []]]; [left | right]; reflexivity. }
  set (vts_min := vts_def (cur_mode (priv w))) in *.
  assert (Hval' : vblank_case_val (priv w) val = Z.max val vts_min).
  { unfold vblank_case_val. fold vts_min.
    rewrite (u32_small val) by lia.
    destruct (Z.ltb_spec val vts_min).
    - rewrite s32_small by lia. lia.
    - lia. }
  assert (Hvts : vblank_case_vts (priv w) val =
                 Z.max val vts_min - IMX219_EXP_LINES_MARGIN).
  { unfold vblank_case_vts. rewrite Hval'. unfold IMX219_EXP_LINES_MARGIN.
    rewrite (s32_small (Z.max val vts_min - 4)) by lia.
    destruct (Z.eqb_spec (Z.max val vts_min - 4) (cur_vts (priv w)));
      cbn [negb].
    - symmetry. assumption.
    - apply u16_small. lia. }
  rewrite Hval', Hvts. repeat split; reflexivity.
Qed.

Lemma vblank_always_writes_witness :
  In (cur_mode (priv (world_streaming 0))) supported_modes /\
  0 <= 0 <= 65539 /\
  let w := world_streaming 0 in
  let '(ret, ctrl, w') := imx219_s_ctrl (vblank_ctrl 0) w in
  ctrl_val ctrl = 1763 /\ cur_vts (priv w') = 1759 /\
  length (trace w') = S (length (trace w)).
Proof.
  assert (Hm : In (cur_mode (priv (world_streaming 0))) supported_modes)
    by (left; reflexivity).
  assert (Hv : 0 <= 0 <= 65539) by lia.
  split; [exact Hm |]. split; [exact Hv |].
  pose proof (vblank_always_writes (world_streaming 0) 0 Hm Hv) as H.
  cbv zeta in H |- *.
  destruct (imx219_s_ctrl (vblank_ctrl 0) (world_streaming 0))
    as [[ret ctrl] w'].
  destruct H as [Hc [Hs [Ht _]]].
  split; [exact Hc |]. split; [exact Hs |].
  rewrite Ht, length_app. cbn [length]. apply Nat.add_1_r.
Defined.

(** ** Which controls look at the mode-select register *)

Lemma s_ctrl_after_switch_run ctrl w :
  s_ctrl_after_switch ctrl w =
  match bus w (length (trace w)) with
  | None => (- EIO, ctrl, log [mode_select_read] w)
  | Some v =>
      if Z.land (v mod 2 ^ 8) 0x1f =? 0x01
      then (0, ctrl, snd (imx219_s_stream 1 (log [mode_select_read] w)))
      else (0, ctrl, log [mode_select_read] w)
  end.
Proof.
  unfold s_ctrl_after_switch. run_monad.
  rewrite reg_read_run by (unfold REG_VALUE_08BIT; lia).
  fold mode_select_read.
  destruct (bus w (length (trace w))) as [v |]; cbv beta iota.
  - change (nonzero 0) with false. cbv iota.
    change (8 * REG_VALUE_08BIT) with 8.
    destruct (Z.land (v mod 2 ^ 8) 31 =? 1); [| reflexivity].
    destruct (imx219_s_stream 1 (log [mode_select_read] w)); reflexivity.
  - reflexivity.
Qed.

Lemma imx219_s_ctrl_flip_run ctrl w :
  flip_cid (ctrl_id ctrl) ->
  imx219_s_ctrl ctrl w =
  s_ctrl_after_switch ctrl (with_priv (store_flip ctrl (priv w)) w).
Proof.
  destruct ctrl as [id val]. cbn [ctrl_id].
  intros [-> | ->]; reflexivity.
Qed.



(** Closes a case whose hypothesis names another control. *)
Ltac wrong_cid H :=
  solve [discriminate H | destruct H as [H | H]; discriminate H].



(** ** State updates and failing writes *)

(** C10.  For a gain control the two codes computed from the value, and for
    a vertical-blank control the computed vts, are in the state that the
    handler leaves, and they are the values its register writes carry,
    whatever the bus does: the state is the same when a write fails and
    [-EIO] is returned as when both succeed, it is not rolled back. *)
Theorem s_ctrl_state_kept_on_failure w ctrl :
  let '(ret, _, w') := imx219_s_ctrl ctrl w in
  (gain_cid (ctrl_id ctrl) ->
   let '(a, d) := gain_case_codes (ctrl_val ctrl) in
   priv w' = set_digital_gain d (set_analogue_gain a (priv w)) /\
   trace w' =
     trace w ++
     [reg_msg IMX219_REG_ANA_GAIN_GLOBAL_A REG_VALUE_08BIT a;
      reg_msg IMX219_REG_DIG_GAIN_GLOBAL_A REG_VALUE_16BIT d] /\
   (ret = 0 \/ ret = - EIO) /\
   (ok w (length (trace w)) = false \/
    ok w (S (length (trace w))) = false -> ret = - EIO)) /\
  (ctrl_id ctrl = V4L2_CID_VBLANK ->
   let vts := vblank_case_vts (priv w) (ctrl_val ctrl) in
   priv w' = set_cur_vts vts (priv w) /\
   trace w' =
     trace w ++ [reg_msg IMX219_REG_FRM_LENGTH_A REG_VALUE_16BIT vts] /\
   (ret = 0 \/ ret = - EIO) /\
   (ok w (length (trace w)) = false -> ret = - EIO)).
Proof.
  destruct ctrl as [id val]. cbn [ctrl_id ctrl_val].
  destruct id;
    try (destruct (imx219_s_ctrl _ w) as [[ret c] w'];
         split; intros H;
         solve [discriminate H | destruct H; discriminate]).
  - rewrite imx219_s_ctrl_gain_run by (left; reflexivity).
    split; [| intros H; discriminate H]. intros _.
    destruct (gain_case_codes val) as [a d]. cbn [fst snd].
    repeat split.
    + destruct (ok w (length (trace w))), (ok w (S (length (trace w))));
        [left | right | right | right]; reflexivity.
    + destruct (ok w (length (trace w))), (ok w (S (length (trace w))));
        intros [H | H]; solve [discriminate H | reflexivity].
  - rewrite imx219_s_ctrl_gain_run by (right; reflexivity).
    split; [| intros H; discriminate H]. intros _.
    destruct (gain_case_codes val) as [a d]. cbn [fst snd].
    repeat split.
    + destruct (ok w (length (trace w))), (ok w (S (length (trace w))));
        [left | right | right | right]; reflexivity.
    + destruct (ok w (length (trace w))), (ok w (S (length (trace w))));
        intros [H | H]; solve [discriminate H | reflexivity].
  - rewrite imx219_s_ctrl_vblank_run.
    split; [intros [H | H]; discriminate H |]. intros _. cbv zeta.
    repeat split.
    + destruct (ok w (length (trace w))); [left | right]; reflexivity.
    + intros ->. reflexivity.
Qed.

(** On a dead bus the gain control returns [-EIO] and the state holds the
    new codes; so does the vertical-blank control with the new vts. *)
Lemma s_ctrl_state_kept_on_failure_witness :
  gain_cid V4L2_CID_GAIN /\
  (let w := world_initial bus_down in
   let '(ret, _, w') := imx219_s_ctrl (gain_ctrl 43663) w in
   ret = - EIO /\
   analogue_gain (priv w) = 0 /\ digital_gain (priv w) = 0 /\
   analogue_gain (priv w') = 232 /\ digital_gain (priv w') = 4095) /\
  (let w := world_initial bus_down in
   let '(ret, _, w') := imx219_s_ctrl (vblank_ctrl 2000) w in
   ret = - EIO /\ cur_vts (priv w) = 0 /\ cur_vts (priv w') = 1996).
Proof.
  assert (Hg : gain_cid V4L2_CID_GAIN) by (right; reflexivity).
  split; [exact Hg |]. split.
  - pose proof (s_ctrl_state_kept_on_failure (world_initial bus_down)
                  (gain_ctrl 43663)) as H.
    cbv zeta in H |- *.
    destruct (imx219_s_ctrl (gain_ctrl 43663) (world_initial bus_down))
      as [[ret c] w'].
    destruct H as [H _]. specialize (H Hg).
    change (gain_case_codes (ctrl_val (gain_ctrl 43663)))
      with (232, 4095) in H.
    destruct H as [Hp [_ [_ Hr]]].
    split; [apply Hr; left; reflexivity |].
    rewrite Hp. repeat split; reflexivity.
  - pose proof (s_ctrl_state_kept_on_failure (world_initial bus_down)
                  (vblank_ctrl 2000)) as H.
    cbv zeta in H |- *.
    destruct (imx219_s_ctrl (vblank_ctrl 2000) (world_initial bus_down))
      as [[ret c] w'].
    destruct H as [_ H]. specialize (H eq_refl).
    destruct H as [Hp [_ [_ Hr]]].
    split; [apply Hr; reflexivity |].
    rewrite Hp. split; reflexivity.
Defined.

(** ** Stream start *)

(** A table replay sends the messages of the table in order and stops at
    the first transfer that fails. *)
Lemma reg_write_table_run table : forall w,
  exists k,
    (k <= length (table_msgs table))%nat /\
    snd (reg_write_table table w) = log (firstn k (table_msgs table)) w /\
    (forall j, (S j < k)%nat -> ok w (length (trace w) + j) = true) /\
    ((fst (reg_write_table table w) = 0 /\
      k = length (table_msgs table) /\
      forall j, (j < k)%nat -> ok w (length (trace w) + j) = true) \/
     (fst (reg_write_table table w) = - EIO /\
      exists j, k = S j /\ ok w (length (trace w) + j) = false)).
Proof.
  induction table as [| reg rest IH]; intros w.
  - exists 0%nat. cbn. unfold log. cbn. rewrite app_nil_r.
    destruct w; cbn. repeat split; try lia. left. repeat split. lia.
  - cbn [reg_write_table table_msgs].
    destruct (addr reg =? IMX219_TABLE_END).
    + exists 0%nat. cbn. unfold log. cbn. rewrite app_nil_r.
      destruct w; cbn. repeat split; try lia. left. repeat split. lia.
    + run_monad. run_reg_write.
      destruct (ok w (length (trace w))) eqn:Hok; cbn [status].
      * change (0 <? 0) with false. cbv iota.
        destruct (IH (log [reg_msg (addr reg) REG_VALUE_08BIT (val reg)] w))
          as (k & Hk & Hw & Hpre & Hres).
        rewrite length_trace_log in Hpre, Hres. cbn [length] in Hpre, Hres.
        exists (S k). cbn [length firstn].
        split; [lia |]. split.
        { rewrite Hw, log_log. reflexivity. }
        split.
        { intros [| j] Hj.
          - rewrite Nat.add_0_r. exact Hok.
          - rewrite <- (Hpre j) by lia. rewrite ok_log. f_equal. lia. }
        destruct Hres as [(Hr & -> & Hall) | (Hr & j & -> & Hf)].
        { left. split; [exact Hr |]. split; [reflexivity |].
          intros [| j] Hj.
          - rewrite Nat.add_0_r. exact Hok.
          - rewrite <- (Hall j) by lia. rewrite ok_log. f_equal. lia. }
        { right. split; [exact Hr |]. exists (S j). split; [reflexivity |].
          rewrite <- Hf. rewrite ok_log. f_equal. lia. }
      * change (- EIO <? 0) with true. cbv iota.
        exists 1%nat. cbn [length firstn fst snd].
        split; [lia |]. split; [reflexivity |]. split; [intros j; lia |].
        right. split; [reflexivity |]. exists 0%nat.
        split; [reflexivity |]. rewrite Nat.add_0_r. exact Hok.
Qed.

Lemma orientation_value p :
  (let reg := 0 in
   let reg := if nonzero (hflip p) then Z.lor reg 1 else reg in
   if nonzero (vflip p) then Z.lor reg 2 else reg) =
  Z.b2z (nonzero (hflip p)) + 2 * Z.b2z (nonzero (vflip p)).
Proof. destruct (nonzero (hflip p)), (nonzero (vflip p)); reflexivity. Qed.

Lemma nonzero_eqb x : nonzero x = negb (x =? 0).
Proof. reflexivity. Qed.

(** A transfer known to succeed cannot be one that fails. *)
Ltac ok_conflict :=
  match goal with
  | Ht : transfer_ok ?b ?i = true, Hf : transfer_ok ?b ?j = false |- _ =>
      replace j with i in Hf by lia; rewrite Ht in Hf; discriminate Hf
  | Ha : forall j, (j < _)%nat -> transfer_ok ?b (_ + j) = true,
    Hf : transfer_ok ?b (_ + _) = false |- _ =>
      rewrite Ha in Hf by lia; discriminate Hf
  end.

(** A known outcome, at a position written differently. *)
Ltac ok_at H :=
  match type of H with
  | transfer_ok ?b ?i = ?v =>
      match goal with
      | |- transfer_ok b ?j = v => replace j with i by lia; exact H
      end
  end.

(** The next register write, and the two ways it can end. *)
Ltac next_write H :=
  run_reg_write; unfold ok, log; cbn [priv trace bus];
  rewrite ?length_app; cbn [length];
  match goal with
  | |- context [status (transfer_ok ?b ?i)] =>
      destruct (transfer_ok b i) eqn:H
  end;
  cbn [status];
  change (nonzero 0) with false; change (nonzero (- EIO)) with true;
  change (Z.lor 0 0) with 0;
  cbv beta iota.

(** The comparisons of [step_end] at a known position. *)
Ltac step_end_cases :=
  repeat match goal with
  | |- context [(?a <? ?b)%nat] => destruct (Nat.ltb_spec a b); try lia
  | |- context [(?a =? ?b)%nat] => destruct (Nat.eqb_spec a b); try lia
  end.

(** The start stopped after [n] writes, the last of which failed. *)
Ltac stopped_after n :=
  exists n; rewrite ?length_app; cbn [length];
  split; [lia |];
  split; [rewrite <- ?app_assoc; cbn [app]; rewrite firstn_app_2;
          reflexivity |];
  split; [right; split; [reflexivity |] |].

(** C7.  A stream start sends a prefix of the start sequence, in its
    order: the replay of the active mode's register table, the orientation
    write, the test-pattern writes, the stream-enable write.  When every
    transfer succeeds the whole sequence is sent and 0 is returned.
    Otherwise [-EIO] is returned and the start stops at the end of the step
    in which a write failed ([step_end]); whenever the failing write comes
    before the stream-enable write, that last write is not sent. *)
Theorem s_stream_start_order w :
  let p := priv w in
  let base := length (trace w) in
  let seq := start_sequence p in
  let '(ret, w') := imx219_s_stream 1 w in
  exists n,
    (n <= length seq)%nat /\
    trace w' = trace w ++ firstn n seq /\
    ((ret = 0 /\ n = length seq /\
      forall j, (j < n)%nat -> ok w (base + j) = true) \/
     (ret = - EIO /\
      exists j, (j < n)%nat /\ ok w (base + j) = false)) /\
    (forall j, (j < n)%nat -> ok w (base + j) = false ->
       n = step_end p j /\
       ((j < length seq - 1)%nat -> (n < length seq)%nat)).
Proof.
  cbv zeta. unfold imx219_s_stream. run_monad.
  change (nonzero 1) with true. cbn [negb].
  destruct (reg_write_table_run (reg_list (cur_mode (priv w))) w)
    as (k1 & Hk1 & Hw1 & Hpre1 & Hres1).
  destruct (reg_write_table (reg_list (cur_mode (priv w))) w) as [ret1 w1].
  cbn [fst snd] in Hw1, Hres1. subst w1.
  unfold start_sequence, step_end.
  destruct w as [p t b]. unfold ok, log in *. cbn [priv trace bus] in *.
  set (tm := table_msgs (reg_list (cur_mode p))) in *.
  destruct Hres1 as [(-> & -> & Hall1) | (-> & j1 & -> & Hfail1)].
  2: { change (nonzero (- EIO)) with true. cbv iota. cbn [trace].
       exists (S j1). rewrite !length_app. cbn [length].
       split; [lia |]. split.
       { rewrite firstn_app.
         replace (S j1 - length tm)%nat with 0%nat by lia.
         cbn [firstn]. rewrite app_nil_r. reflexivity. }
       split.
       { right. split; [reflexivity |]. exists j1. split; [lia | exact Hfail1]. }
       intros j Hj Hf.
       assert (j = j1).
       { destruct (Nat.eq_dec j j1) as [E | NE]; [exact E |].
         rewrite Hpre1 in Hf by lia. discriminate Hf. }
       subst j. step_end_cases; split; lia. }
  clear Hpre1 Hk1.
  change (nonzero 0) with false. cbv beta iota.
  rewrite firstn_all.
  rewrite orientation_value.
  change (reg_msg IMX219_REG_IMG_ORIENTATION REG_VALUE_08BIT
            (Z.b2z (nonzero (hflip p)) + 2 * Z.b2z (nonzero (vflip p))))
    with (orientation_msg p).
  set (om := orientation_msg p).
  next_write Hor.
  2: { stopped_after (length tm + 1)%nat.
       - exists (length tm). split; [lia | ok_at Hor].
       - intros j Hj Hf.
         assert (Hc : (j < length tm \/ j = length tm)%nat) by lia.
         destruct Hc as [Hc | ->]; [ok_conflict |].
         step_end_cases; split; lia. }
  unfold test_pattern_msgs, TEST_PATTERN_DISABLED.
  rewrite (nonzero_eqb (test_pattern p)).
  destruct (test_pattern p =? 0) eqn:Htp; cbn [negb]; cbv beta iota.
  - (* pattern disabled: one write *)
    next_write Htp1.
    2: { stopped_after (length tm + 2)%nat.
         - exists (length tm + 1)%nat. split; [lia | ok_at Htp1].
         - intros j Hj Hf.
           assert (Hc : (j < length tm \/ j = length tm \/
                         j = length tm + 1)%nat) by lia.
           destruct Hc as [Hc | [-> | ->]]; try ok_conflict.
           step_end_cases; split; lia. }
    unfold start. cbn [reg_write_table addr val].
    change (256 =? IMX219_TABLE_END) with false.
    change (IMX219_TABLE_END =? IMX219_TABLE_END) with true.
    run_monad. cbn [priv trace bus].
    next_write Hse.
    + change (0 <? 0) with false. cbv beta iota. cbn [trace].
      exists (length tm + 3)%nat. rewrite ?length_app. cbn [length].
      split; [lia |].
      split; [rewrite <- ?app_assoc; cbn [app]; rewrite firstn_app_2;
              reflexivity |].
      split.
      * left. split; [reflexivity |]. split; [lia |].
        intros j Hj.
        assert (Hc : (j < length tm \/ j = length tm \/
                      j = length tm + 1 \/ j = length tm + 2)%nat) by lia.
        destruct Hc as [Hc | [-> | [-> | ->]]];
          [apply Hall1; exact Hc | ok_at Hor | ok_at Htp1 | ok_at Hse].
      * intros j Hj Hf.
        assert (Hc : (j < length tm \/ j = length tm \/
                      j = length tm + 1 \/ j = length tm + 2)%nat) by lia.
        destruct Hc as [Hc | [-> | [-> | ->]]]; ok_conflict.
    + change (- EIO <? 0) with true. cbv beta iota. cbn [trace].
      stopped_after (length tm + 3)%nat.
      * exists (length tm + 2)%nat. split; [lia | ok_at Hse].
      * intros j Hj Hf.
        assert (Hc : (j < length tm \/ j = length tm \/
                      j = length tm + 1 \/ j = length tm + 2)%nat) by lia.
        destruct Hc as [Hc | [-> | [-> | ->]]]; try ok_conflict.
        step_end_cases; split; lia.
  - (* pattern selected: three writes, all of them made *)
    next_write Htp1; next_write Htp2; next_write Htp3;
      match goal with
      | |- context [nonzero ?x] =>
          let v := eval vm_compute in (nonzero x) in
          change (nonzero x) with v
      end; cbv beta iota; cbn [trace].
    2-8: stopped_after (length tm + 4)%nat;
      [ first [ exists (length tm + 1)%nat; split; [lia | ok_at Htp1]
              | exists (length tm + 2)%nat; split; [lia | ok_at Htp2]
              | exists (length tm + 3)%nat; split; [lia | ok_at Htp3] ]
      | intros j Hj Hf;
        assert (Hc : (j < length tm \/ j = length tm \/
                      j = length tm + 1 \/ j = length tm + 2 \/
                      j = length tm + 3)%nat) by lia;
        destruct Hc as [Hc | [-> | [-> | [-> | ->]]]]; try ok_conflict;
        step_end_cases; split; lia ].
    unfold start. cbn [reg_write_table addr val].
    change (256 =? IMX219_TABLE_END) with false.
    change (IMX219_TABLE_END =? IMX219_TABLE_END) with true.
    run_monad. cbn [priv trace bus].
    next_write Hse.
    + change (0 <? 0) with false. cbv beta iota. cbn [trace].
      exists (length tm + 5)%nat. rewrite ?length_app. cbn [length].
      split; [lia |].
      split; [rewrite <- ?app_assoc; cbn [app]; rewrite firstn_app_2;
              reflexivity |].
      split.
      * left. split; [reflexivity |]. split; [lia |].
        intros j Hj.
        assert (Hc : (j < length tm \/ j = length tm \/
                      j = length tm + 1 \/ j = length tm + 2 \/
                      j = length tm + 3 \/ j = length tm + 4)%nat) by lia.
        destruct Hc as [Hc | [-> | [-> | [-> | [-> | ->]]]]];
          [apply Hall1; exact Hc | ok_at Hor | ok_at Htp1 | ok_at Htp2
          | ok_at Htp3 | ok_at Hse].
      * intros j Hj Hf.
        assert (Hc : (j < length tm \/ j = length tm \/
                      j = length tm + 1 \/ j = length tm + 2 \/
                      j = length tm + 3 \/ j = length tm + 4)%nat) by lia.
        destruct Hc as [Hc | [-> | [-> | [-> | [-> | ->]]]]]; ok_conflict.
    + change (- EIO <? 0) with true. cbv beta iota. cbn [trace].
      stopped_after (length tm + 5)%nat.
      * exists (length tm + 4)%nat. split; [lia | ok_at Hse].
      * intros j Hj Hf.
        assert (Hc : (j < length tm \/ j = length tm \/
                      j = length tm + 1 \/ j = length tm + 2 \/
                      j = length tm + 3 \/ j = length tm + 4)%nat) by lia.
        destruct Hc as [Hc | [-> | [-> | [-> | [-> | ->]]]]];
          try ok_conflict.
        step_end_cases; split; lia.
Qed.

(** On a bus whose transfer 48 fails, the orientation write that follows
    the 48 entries of the 1920x1080 table, the start stops there. *)
Lemma s_stream_start_order_witness :
  let w := world_initial (bus_fails_at 48) in
  let '(ret, w') := imx219_s_stream 1 w in
  ret = - EIO /\
  trace w' = firstn 49 (start_sequence priv_initial) /\
  length (start_sequence priv_initial) = 51%nat.
Proof.
  pose proof (s_stream_start_order (world_initial (bus_fails_at 48))) as H.
  cbv zeta in H |- *.
  destruct (imx219_s_stream 1 (world_initial (bus_fails_at 48)))
    as [ret w'].
  destruct H as (n & Hn & Ht & Hr & Hs).
  change (priv (world_initial (bus_fails_at 48))) with priv_initial in *.
  change (trace (world_initial (bus_fails_at 48))) with (@nil event) in *.
  cbn [app length Nat.add] in *.
  assert (Hlen : length (start_sequence priv_initial) = 51%nat)
    by (vm_compute; reflexivity).
  assert (Hfail : ok (world_initial (bus_fails_at 48)) 48 = false)
    by reflexivity.
  assert (Hn49 : n = 49%nat).
  { destruct Hr as [(_ & -> & Hall) | (_ & j & Hj & Hf)].
    - rewrite Hall in Hfail by (rewrite Hlen; lia). discriminate Hfail.
    - assert (j = 48%nat).
      { unfold ok, transfer_ok, world_initial, bus_fails_at in Hf.
        cbn [bus] in Hf.
        destruct (Nat.eqb_spec j 48) as [E | _]; [exact E | discriminate Hf]. }
      subst j. destruct (Hs 48%nat Hj Hfail) as [E _].
      rewrite E. vm_compute. reflexivity. }
  subst n.
  destruct Hr as [(_ & E & _) | (Hret & _)].
  - rewrite Hlen in E. discriminate E.
  - split; [exact Hret |]. split; [exact Ht | exact Hlen].
Defined.

(** ** Formats *)

(** A TRY request is answered with success and touches neither the request
    nor the state. *)
Lemma imx219_set_fmt_try fmt w :
  which fmt = V4L2_SUBDEV_FORMAT_TRY -> imx219_set_fmt fmt w = (0, fmt, w).
Proof.
  intros H. unfold imx219_set_fmt. rewrite H. reflexivity.
Qed.

Lemma imx219_set_fmt_active fmt w :
  which fmt = V4L2_SUBDEV_FORMAT_ACTIVE ->
  let mode := imx219_find_best_fit fmt in
  imx219_set_fmt fmt w =
  (0,
   {| which := which fmt;
      format := {| f_width := width mode; f_height := height mode;
                   f_code := bus_fmt mode; f_field := V4L2_FIELD_NONE;
                   f_colorspace := V4L2_COLORSPACE_RAW |} |},
   log [hblank_range mode; vblank_range mode; pixel_rate_range mode]
     (with_priv (set_cur_mode mode (priv w)) w)).
Proof.
  intros H. cbv zeta. unfold imx219_set_fmt. rewrite H.
  change (V4L2_SUBDEV_FORMAT_ACTIVE =? V4L2_SUBDEV_FORMAT_TRY) with false.
  cbv iota. run_monad. cbn [priv trace bus].
  destruct (imx219_find_best_fit_supported fmt) as [-> | ->];
    unfold log, with_priv; cbn [priv trace bus];
    rewrite <- !app_assoc; reflexivity.
Qed.

(** What setting the format does on every request: it returns 0; for the
    active format it makes the selected entry, which is one of the catalog,
    the current mode and overwrites the width, height and code of the
    request with those of that entry, and a get-format of the active format
    afterwards returns them and changes nothing. *)
Lemma imx219_set_fmt_get_fmt fmt w :
  let '(ret, fmt', w') := imx219_set_fmt fmt w in
  ret = 0 /\
  (which fmt = V4L2_SUBDEV_FORMAT_ACTIVE ->
   cur_mode (priv w') = imx219_find_best_fit fmt /\
   In (cur_mode (priv w')) supported_modes /\
   f_width (format fmt') = width (cur_mode (priv w')) /\
   f_height (format fmt') = height (cur_mode (priv w')) /\
   f_code (format fmt') = bus_fmt (cur_mode (priv w')) /\
   forall fmt2, which fmt2 = V4L2_SUBDEV_FORMAT_ACTIVE ->
     let '(ret2, fmt2', w'') := imx219_get_fmt fmt2 w' in
     ret2 = 0 /\
     f_width (format fmt2') = width (cur_mode (priv w')) /\
     f_height (format fmt2') = height (cur_mode (priv w')) /\
     f_code (format fmt2') = bus_fmt (cur_mode (priv w')) /\
     w'' = w').
Proof.
  destruct (Z.eqb_spec (which fmt) V4L2_SUBDEV_FORMAT_TRY) as [Htry | Hact].
  - rewrite imx219_set_fmt_try by exact Htry.
    split; [reflexivity |]. intros H. rewrite H in Htry. discriminate Htry.
  - unfold imx219_set_fmt.
    destruct (Z.eqb_spec (which fmt) V4L2_SUBDEV_FORMAT_TRY) as [E | _];
      [contradiction |].
    run_monad. cbn [priv trace bus format f_width f_height f_code cur_mode
                    set_cur_mode].
    split; [reflexivity |]. intros _.
    split; [reflexivity |].
    split.
    { destruct (imx219_find_best_fit_supported fmt) as [-> | ->];
        [left | right; left]; reflexivity. }
    split; [reflexivity |]. split; [reflexivity |]. split; [reflexivity |].
    intros fmt2 H2. unfold imx219_get_fmt. run_monad. rewrite H2.
    change (V4L2_SUBDEV_FORMAT_ACTIVE =? V4L2_SUBDEV_FORMAT_TRY) with false.
    cbv iota. cbn [priv trace bus format f_width f_height f_code cur_mode
                   set_cur_mode].
    repeat split.
Qed.

(** C2.  The claim has setting the active format perform the best-fit
    selection for any requested resolution.  Setting the format returns 0
    on every request, overwrites the width, height and code of a request
    for the active format with those of the catalog entry it selects and
    makes that entry the current mode, which a get-format then returns;
    and for a request below [2 ^ 30] in both dimensions the entry selected
    is the first minimum of the L1 distance over the catalog.  At the
    request 4294967295 x 1772 it is not: the differences of the widths
    wrap around in [u32], as in C1, the 1920x1080 entry is selected,
    written into the request and returned by get-format, while the first
    L1 minimum is the 3280x2464 entry. *)
Theorem set_fmt_best_fit_wraps :
  (forall fmt w,
     let '(ret, fmt', w') := imx219_set_fmt fmt w in
     ret = 0 /\
     (which fmt = V4L2_SUBDEV_FORMAT_ACTIVE ->
      In (cur_mode (priv w')) supported_modes /\
      f_width (format fmt') = width (cur_mode (priv w')) /\
      f_height (format fmt') = height (cur_mode (priv w')) /\
      f_code (format fmt') = bus_fmt (cur_mode (priv w')) /\
      forall fmt2, which fmt2 = V4L2_SUBDEV_FORMAT_ACTIVE ->
        let '(ret2, fmt2', w'') := imx219_get_fmt fmt2 w' in
        ret2 = 0 /\
        f_width (format fmt2') = width (cur_mode (priv w')) /\
        f_height (format fmt2') = height (cur_mode (priv w')) /\
        f_code (format fmt2') = bus_fmt (cur_mode (priv w')) /\
        w'' = w')) /\
  (forall fmt w,
     which fmt = V4L2_SUBDEV_FORMAT_ACTIVE ->
     0 <= f_width (format fmt) < 2 ^ 30 ->
     0 <= f_height (format fmt) < 2 ^ 30 ->
     exists i,
       first_l1_minimum supported_modes (format fmt) i
         (cur_mode (priv (snd (imx219_set_fmt fmt w))))) /\
  (forall w,
     let fmt := request V4L2_SUBDEV_FORMAT_ACTIVE 4294967295 1772 in
     let '(ret, fmt', w') := imx219_set_fmt fmt w in
     ret = 0 /\
     f_width (format fmt') = 1920 /\
     f_height (format fmt') = 1080 /\
     cur_mode (priv w') = mode_1920_1080 /\
     first_l1_minimum supported_modes (format fmt) 1 mode_3280_2464 /\
     l1_distance mode_3280_2464 (format fmt) <
     l1_distance mode_1920_1080 (format fmt) /\
     ~ exists i,
         first_l1_minimum supported_modes (format fmt) i
           (cur_mode (priv w'))).
Proof.
  split; [| split].
  - intros fmt w. pose proof (imx219_set_fmt_get_fmt fmt w) as H.
    destruct (imx219_set_fmt fmt w) as [[ret fmt'] w'].
    destruct H as [Hret H]. split; [exact Hret |].
    intros Hact. destruct (H Hact) as (_ & Hin & Hrest).
    split; [exact Hin | exact Hrest].
  - intros fmt w Hact Hw Hh.
    destruct (imx219_find_best_fit_in_range fmt Hw Hh) as [i Hi].
    exists i. rewrite (imx219_set_fmt_active fmt w Hact).
    exact Hi.
  - intros w. cbv zeta.
    rewrite imx219_set_fmt_active by reflexivity. cbv zeta.
    assert (E : imx219_find_best_fit
                  (request V4L2_SUBDEV_FORMAT_ACTIVE 4294967295 1772)
                = mode_1920_1080) by (vm_compute; reflexivity).
    rewrite E.
    cbn [format f_width f_height log with_priv priv cur_mode set_cur_mode
         request].
    assert (L : l1_distance mode_3280_2464
                  {| f_width := 4294967295; f_height := 1772; f_code := 0;
                     f_field := 0; f_colorspace := 0 |}
                < l1_distance mode_1920_1080
                  {| f_width := 4294967295; f_height := 1772; f_code := 0;
                     f_field := 0; f_colorspace := 0 |})
      by (vm_compute; reflexivity).
    split; [reflexivity |]. split; [reflexivity |]. split; [reflexivity |].
    split; [reflexivity |].
    split.
    { split; [reflexivity |].
      intros j other Hj.
      destruct j as [| [| j]].
      - injection Hj as <-. split; [lia |]. intros Heq. lia.
      - injection Hj as <-. split; [lia |]. intros _. lia.
      - destruct j; discriminate Hj. }
    split; [exact L |].
    intros [i [_ Hmin]].
    destruct (Hmin 1%nat mode_3280_2464 eq_refl) as [Hle _].
    lia.
Qed.

(** ** Derived control ranges *)

Lemma hdr_cfg_loop_supported want mode :
  hdr_cfg_loop supported_modes want = Some mode -> mode = mode_1920_1080.
Proof.
  unfold supported_modes. cbn [hdr_cfg_loop].
  change (hdr_mode mode_1920_1080) with NO_HDR.
  change (hdr_mode mode_3280_2464) with NO_HDR.
  destruct (NO_HDR =? want); intros H; [| discriminate H].
  injection H as <-. reflexivity.
Qed.

Lemma imx219_ioctl_set_hdr_cfg_run hdr w :
  imx219_ioctl (RKMODULE_SET_HDR_CFG hdr) w =
  if cfg_hdr_mode hdr =? NO_HDR then
    (0, RKMODULE_SET_HDR_CFG hdr,
     log [hblank_range mode_1920_1080; vblank_range mode_1920_1080;
          CtrlSetInt64 PIXEL_RATE (pixel_rate_of mode_1920_1080)]
       (with_priv (set_cur_vts (vts_def mode_1920_1080)
                     (set_cur_mode mode_1920_1080 (priv w))) w))
  else (- EINVAL, RKMODULE_SET_HDR_CFG hdr, w).
Proof.
  unfold imx219_ioctl, supported_modes. cbn [hdr_cfg_loop].
  change (hdr_mode mode_1920_1080) with NO_HDR.
  change (hdr_mode mode_3280_2464) with NO_HDR.
  rewrite (Z.eqb_sym NO_HDR).
  destruct (cfg_hdr_mode hdr =? NO_HDR); [| reflexivity].
  run_monad. unfold log, with_priv. cbn [priv trace bus].
  rewrite <- !app_assoc. reflexivity.
Qed.

(** C6.  The claim has every mode switch republish the pixel rate as a
    fixed single-value range.  With the 3280x2464 mode active, the HDR
    configuration command switches to the 1920x1080 mode and republishes
    the two blanking ranges, but it sets the value of the pixel-rate control
    and publishes no range for it: the last published pixel-rate range is
    still that of the mode left behind. *)
Lemma hdr_cfg_pixel_rate_counterexample :
  let w := world_3280_2464 in
  let '(ret, _, w') := imx219_ioctl (RKMODULE_SET_HDR_CFG (hdr_cfg NO_HDR)) w in
  ret = 0 /\
  cur_mode (priv w) = mode_3280_2464 /\
  cur_mode (priv w') = mode_1920_1080 /\
  trace w' =
    [CtrlModifyRange HBLANK 164 164 1 164;
     CtrlModifyRange VBLANK 36 63071 1 36;
     CtrlModifyRange PIXEL_RATE 180810000 180810000 1 180810000;
     CtrlModifyRange HBLANK 1524 1524 1 1524;
     CtrlModifyRange VBLANK 683 64455 1 683;
     CtrlSetInt64 PIXEL_RATE 182153160] /\
  pixel_rate_of mode_1920_1080 = 182153160 /\
  ~ In (pixel_rate_range mode_1920_1080) (trace w').
Proof.
  vm_compute. repeat split; try reflexivity.
  intros H; repeat (destruct H as [H | H]; [discriminate H |]); exact H.
Qed.

(** C6, amended.  Every mode switch republishes, from the newly active
    mode, the horizontal blank as the fixed single-value range
    [hts_def - width] and the vertical blank as the range from
    [vts_def - height] up to [0xffff - height] with default
    [vts_def - height].  Set-format also republishes the pixel rate as the
    fixed single-value range
    [vts_def * hts_def * round_to_nearest (fps_denominator / fps_numerator)];
    the HDR configuration command sets the value of the pixel-rate control
    to that product instead, and publishes no range for it. *)
Theorem mode_switch_republishes_ranges w :
  (forall fmt,
     which fmt = V4L2_SUBDEV_FORMAT_ACTIVE ->
     let '(_, _, w') := imx219_set_fmt fmt w in
     let mode := cur_mode (priv w') in
     mode = imx219_find_best_fit fmt /\
     trace w' =
       trace w ++
       [hblank_range mode; vblank_range mode; pixel_rate_range mode]) /\
  (forall hdr,
     let '(ret, _, w') := imx219_ioctl (RKMODULE_SET_HDR_CFG hdr) w in
     let mode := cur_mode (priv w') in
     ret = 0 ->
     hdr_cfg_loop supported_modes (cfg_hdr_mode hdr) = Some mode /\
     trace w' =
       trace w ++
       [hblank_range mode; vblank_range mode;
        CtrlSetInt64 PIXEL_RATE (pixel_rate_of mode)]).
Proof.
  split.
  - intros fmt Hact.
    pose proof (imx219_set_fmt_active fmt w Hact) as E. cbv zeta in E.
    rewrite E. cbv zeta. split; reflexivity.
  - intros hdr. rewrite imx219_ioctl_set_hdr_cfg_run.
    unfold supported_modes. cbn [hdr_cfg_loop].
    change (hdr_mode mode_1920_1080) with NO_HDR.
    rewrite (Z.eqb_sym NO_HDR).
    destruct (cfg_hdr_mode hdr =? NO_HDR); cbv zeta.
    + intros _. split; reflexivity.
    + intros H. discriminate H.
Qed.

Lemma mode_switch_republishes_ranges_witness :
  which (request V4L2_SUBDEV_FORMAT_ACTIVE 3280 2464)
    = V4L2_SUBDEV_FORMAT_ACTIVE /\
  trace world_3280_2464 =
    [CtrlModifyRange HBLANK 164 164 1 164;
     CtrlModifyRange VBLANK 36 63071 1 36;
     CtrlModifyRange PIXEL_RATE 180810000 180810000 1 180810000] /\
  (let '(ret, _, w') :=
     imx219_ioctl (RKMODULE_SET_HDR_CFG (hdr_cfg NO_HDR)) world_3280_2464 in
   ret = 0 /\
   skipn 3 (trace w') =
     [CtrlModifyRange HBLANK 1524 1524 1 1524;
      CtrlModifyRange VBLANK 683 64455 1 683;
      CtrlSetInt64 PIXEL_RATE 182153160]).
Proof.
  assert (Hact : which (request V4L2_SUBDEV_FORMAT_ACTIVE 3280 2464)
                 = V4L2_SUBDEV_FORMAT_ACTIVE) by reflexivity.
  split; [exact Hact |]. split.
  - destruct (mode_switch_republishes_ranges (world_initial (bus_reads 0)))
      as [H _].
    specialize (H (request V4L2_SUBDEV_FORMAT_ACTIVE 3280 2464) Hact).
    unfold world_3280_2464.
    destruct (imx219_set_fmt (request V4L2_SUBDEV_FORMAT_ACTIVE 3280 2464)
                (world_initial (bus_reads 0))) as [[ret fmt'] w'].
    cbv zeta in H. destruct H as [Hm Ht]. cbn [snd].
    rewrite Ht, Hm. vm_compute. reflexivity.
  - destruct (mode_switch_republishes_ranges world_3280_2464) as [_ H].
    specialize (H (hdr_cfg NO_HDR)).
    assert (Hret : fst (fst (imx219_ioctl
                               (RKMODULE_SET_HDR_CFG (hdr_cfg NO_HDR))
                               world_3280_2464)) = 0)
      by (vm_compute; reflexivity).
    destruct (imx219_ioctl (RKMODULE_SET_HDR_CFG (hdr_cfg NO_HDR))
                world_3280_2464) as [[ret c] w'].
    cbn [fst] in Hret. cbv zeta in H. destruct (H Hret) as [Hm Ht].
    split; [exact Hret |].
    apply hdr_cfg_loop_supported in Hm.
    rewrite Ht, Hm. vm_compute. reflexivity.
Defined.

(** ** Identity probe *)

(** The next register read, and the two ways it can end. *)
Ltac next_read v H :=
  rewrite reg_read_run by (unfold REG_VALUE_08BIT, REG_VALUE_16BIT; lia);
  unfold log; cbn [priv trace bus];
  rewrite ?length_app; cbn [length];
  match goal with
  | |- context [match ?b ?i with Some _ => _ | None => _ end] =>
      destruct (b i) as [v |] eqn:H
  end;
  cbv beta iota;
  change (nonzero 0) with false; change (nonzero (- EIO)) with true;
  cbv beta iota.

(** A read known to succeed cannot be one that fails. *)
Ltac bus_conflict :=
  match goal with
  | Hs : ?b ?i = Some _, Hn : ?b ?j = None |- _ =>
      replace j with i in Hn by lia; rewrite Hs in Hn; discriminate Hn
  end.

(** The probe stopped after [k] reads, the last of which, at position [i]
    of the sequence, failed. *)
Ltac probe_failed k i Hfail :=
  exists k; cbn [priv trace bus];
  split; [lia |];
  split; [rewrite <- ?app_assoc; reflexivity |];
  split; [reflexivity |];
  split;
  [ intros j Hj Hf; split; [reflexivity |];
    destruct (Nat.eq_dec j i) as [-> | Hne]; [reflexivity |];
    exfalso;
    assert (Hc : (j = 0 \/ j = 1 \/ j = 2 \/ j = 3 \/ j = 4)%nat) by lia;
    destruct Hc as [-> | [-> | [-> | [-> | ->]]]];
    solve [lia | bus_conflict]
  | split;
    [ right; exists i; split; [reflexivity |]
    | intros Hall; exfalso; apply (Hall i); [lia |] ];
    match type of Hfail with
    | ?b ?n = None =>
        match goal with
        | |- b ?m = None => replace m with n by lia; exact Hfail
        end
    end ].

(** C9.  The identity check enables the clock, reads the model identity,
    the three lot-identity bytes and the chip identity, each at most once
    and in this order, and disables the clock again whatever happens.  The
    reads end before the fifth only at a read that fails, which yields
    [-EIO]; when all five reads succeed, any model identity other than 0x0219 yields [-ENODEV],
    whatever the lot and chip identities read as. *)
Theorem video_probe_fails_closed w :
  let base := S (length (trace w)) in
  let '(ret, w') := imx219_video_probe w in
  exists k,
    (k <= 5)%nat /\
    trace w' =
      trace w ++
      [ClkPrepareEnable] ++ firstn k identity_reads ++
      [ClkDisableUnprepare] /\
    priv w' = priv w /\
    (forall j, (j < k)%nat -> bus w (base + j) = None ->
       ret = - EIO /\ k = S j) /\
    (k = 5%nat \/ exists j, k = S j /\ bus w (base + j) = None) /\
    ((forall j, (j < 5)%nat -> bus w (base + j) <> None) ->
     k = 5%nat /\
     forall model, bus w base = Some model ->
       (model mod 2 ^ 16 <> IMX219_MODEL_ID -> ret = - ENODEV) /\
       (model mod 2 ^ 16 = IMX219_MODEL_ID -> ret = 0)).
Proof.
  cbv zeta. unfold imx219_video_probe, video_probe_done, imx219_s_power.
  change (nonzero 1) with true. change (nonzero 0) with false.
  cbn [negb]. run_monad.
  destruct w as [p t b]. cbn [priv trace bus].
  change (0 <? 0) with false. cbv beta iota.
  next_read model Hmodel.
  2: { probe_failed 1%nat 0%nat Hmodel. }
  next_read lot_h Hlot_h.
  2: { probe_failed 2%nat 1%nat Hlot_h. }
  next_read lot_m Hlot_m.
  2: { probe_failed 3%nat 2%nat Hlot_m. }
  next_read lot_l Hlot_l.
  2: { probe_failed 4%nat 3%nat Hlot_l. }
  next_read chip Hchip.
  2: { probe_failed 5%nat 4%nat Hchip. }
  change (8 * REG_VALUE_16BIT) with 16.
  destruct (Z.eqb_spec (model mod 2 ^ 16) IMX219_MODEL_ID) as [Eid | Nid];
    cbn [negb]; cbv beta iota; cbn [priv trace bus];
    exists 5%nat; (split; [lia |]);
    (split; [rewrite <- ?app_assoc; reflexivity |]);
    (split; [reflexivity |]);
    (split; [intros j Hj Hf; exfalso;
             assert (Hc : (j = 0 \/ j = 1 \/ j = 2 \/ j = 3 \/ j = 4)%nat)
               by lia;
             destruct Hc as [-> | [-> | [-> | [-> | ->]]]]; bus_conflict |]);
    (split; [left; reflexivity |]);
    intros _; (split; [reflexivity |]);
    intros model0 Hm0;
    replace (S (length t)) with (length t + 1)%nat in Hm0 by lia;
    rewrite Hmodel in Hm0; injection Hm0 as <-;
    split; intros H; solve [reflexivity | contradiction].
Qed.

Lemma video_probe_fails_closed_witness :
  (let '(ret, w') := imx219_video_probe (world_initial (bus_model 0x0218)) in
   ret = - ENODEV /\ length (trace w') = 7%nat) /\
  (let '(ret, w') := imx219_video_probe (world_initial (bus_model 0x0219)) in
   ret = 0) /\
  (let '(ret, w') := imx219_video_probe (world_initial (bus_fails_at 3)) in
   ret = - EIO /\
   trace w' =
     [ClkPrepareEnable;
      reg_read_msg IMX219_REG_MODEL_ID REG_VALUE_16BIT;
      reg_read_msg IMX219_REG_LOT_ID_H REG_VALUE_08BIT;
      reg_read_msg IMX219_REG_LOT_ID_M REG_VALUE_08BIT;
      ClkDisableUnprepare]).
Proof.
  split; [| split].
  - pose proof (video_probe_fails_closed (world_initial (bus_model 0x0218)))
      as H.
    cbv zeta in H.
    destruct (imx219_video_probe (world_initial (bus_model 0x0218)))
      as [ret w'].
    destruct H as (k & _ & Ht & _ & _ & _ & Hall).
    destruct Hall as [-> Hm].
    { intros j _ H. cbn in H. unfold bus_model in H.
      destruct (Nat.eqb _ _) in H; discriminate H. }
    destruct (Hm 0x0218 eq_refl) as [Hne _].
    split; [apply Hne; discriminate |].
    rewrite Ht. reflexivity.
  - pose proof (video_probe_fails_closed (world_initial (bus_model 0x0219)))
      as H.
    cbv zeta in H.
    destruct (imx219_video_probe (world_initial (bus_model 0x0219)))
      as [ret w'].
    destruct H as (k & _ & _ & _ & _ & _ & Hall).
    destruct Hall as [_ Hm].
    { intros j _ H. cbn in H. unfold bus_model in H.
      destruct (Nat.eqb _ _) in H; discriminate H. }
    destruct (Hm 0x0219 eq_refl) as [_ He]. apply He. reflexivity.
  - pose proof (video_probe_fails_closed (world_initial (bus_fails_at 3)))
      as H.
    cbv zeta in H.
    destruct (imx219_video_probe (world_initial (bus_fails_at 3)))
      as [ret w'].
    destruct H as (k & Hk & Ht & _ & Hf & Hstop & _).
    assert (Hk3 : k = 3%nat).
    { destruct Hstop as [-> | (j & -> & Hj)].
      - destruct (Hf 2%nat) as [_ E]; [lia | reflexivity | discriminate E].
      - cbn in Hj. unfold bus_fails_at in Hj.
        destruct j as [| [| [| j]]]; try discriminate Hj. reflexivity. }
    subst k.
    destruct (Hf 2%nat) as [Hret _]; [lia | reflexivity |].
    split; [exact Hret | exact Ht].
Defined.

(** ** The current mode stays in the catalog *)

Lemma keeps_mode_pure {A} (a : A) : keeps_mode (pure a).
Proof. intros w. reflexivity. Qed.

Lemma keeps_mode_bind {A B} (m : M A) (k : A -> M B) :
  keeps_mode m -> (forall a, keeps_mode (k a)) -> keeps_mode (bind m k).
Proof.
  intros Hm Hk w. unfold bind. specialize (Hm w).
  destruct (m w) as [a w1]. cbn [snd] in Hm. rewrite Hk. exact Hm.
Qed.

Lemma keeps_mode_get_priv : keeps_mode get_priv.
Proof. intros w. reflexivity. Qed.

Lemma keeps_mode_next_reply : keeps_mode next_reply.
Proof. intros w. reflexivity. Qed.

Lemma keeps_mode_emit e : keeps_mode (emit e).
Proof. intros w. reflexivity. Qed.

Lemma keeps_mode_modify_priv f :
  (forall p, cur_mode (f p) = cur_mode p) -> keeps_mode (modify_priv f).
Proof. intros Hf w. cbn. apply Hf. Qed.

Lemma keeps_mode_when b m : keeps_mode m -> keeps_mode (when b m).
Proof. intros Hm. destruct b; [exact Hm | apply keeps_mode_pure]. Qed.

Create HintDb keeps_mode.

#[local] Hint Resolve keeps_mode_pure keeps_mode_get_priv
  keeps_mode_next_reply keeps_mode_emit keeps_mode_when : keeps_mode.

(** Walks through a computation built from the operations above. *)
Ltac keeps_mode_walk :=
  repeat first
    [ progress auto with keeps_mode
    | apply keeps_mode_bind; [| intros ?]
    | apply keeps_mode_modify_priv; intros ?; reflexivity
    | match goal with
      | |- keeps_mode (if ?b then _ else _) => destruct b
      | |- keeps_mode (match ?x with _ => _ end) => destruct x
      | |- keeps_mode (let '(_, _) := ?x in _) => destruct x
      end ].

Lemma keeps_mode_reg_write addr len data : keeps_mode (reg_write addr len data).
Proof. unfold reg_write, i2c_master_send. keeps_mode_walk. Qed.

Lemma keeps_mode_reg_read addr len val : keeps_mode (reg_read addr len val).
Proof. unfold reg_read, i2c_transfer. keeps_mode_walk. Qed.

#[local] Hint Resolve keeps_mode_reg_write keeps_mode_reg_read : keeps_mode.

Lemma keeps_mode_reg_write_table table : keeps_mode (reg_write_table table).
Proof.
  induction table as [| reg rest IH]; cbn [reg_write_table];
    keeps_mode_walk.
Qed.

#[local] Hint Resolve keeps_mode_reg_write_table : keeps_mode.

Lemma keeps_mode_s_stream enable : keeps_mode (imx219_s_stream enable).
Proof. unfold imx219_s_stream. keeps_mode_walk. Qed.

#[local] Hint Resolve keeps_mode_s_stream : keeps_mode.

Lemma keeps_mode_s_power on : keeps_mode (imx219_s_power on).
Proof. unfold imx219_s_power. keeps_mode_walk. Qed.

#[local] Hint Resolve keeps_mode_s_power : keeps_mode.

Lemma keeps_mode_s_ctrl ctrl : keeps_mode (imx219_s_ctrl ctrl).
Proof.
  unfold imx219_s_ctrl, s_ctrl_after_switch. keeps_mode_walk.
Qed.

Lemma keeps_mode_get_fmt fmt : keeps_mode (imx219_get_fmt fmt).
Proof. unfold imx219_get_fmt. keeps_mode_walk. Qed.

Lemma keeps_mode_video_probe : keeps_mode imx219_video_probe.
Proof.
  unfold imx219_video_probe, video_probe_done. keeps_mode_walk.
Qed.

(** The current mode is an entry of the catalog from the initial state on:
    the control handler, the streaming switch, the format getter and the
    probe leave it alone, and the two operations that assign it take the
    new mode from the catalog. *)
Lemma cur_mode_supported_initial b :
  In (cur_mode (priv (world_initial b))) supported_modes.
Proof. left. reflexivity. Qed.

Lemma cur_mode_supported_preserved w :
  In (cur_mode (priv w)) supported_modes ->
  (forall ctrl,
     In (cur_mode (priv (snd (imx219_s_ctrl ctrl w)))) supported_modes) /\
  (forall enable,
     In (cur_mode (priv (snd (imx219_s_stream enable w)))) supported_modes) /\
  (forall fmt,
     In (cur_mode (priv (snd (imx219_get_fmt fmt w)))) supported_modes) /\
  In (cur_mode (priv (snd (imx219_video_probe w)))) supported_modes /\
  (forall fmt,
     In (cur_mode (priv (snd (imx219_set_fmt fmt w)))) supported_modes) /\
  (forall cmd,
     In (cur_mode (priv (snd (imx219_ioctl cmd w)))) supported_modes).
Proof.
  intros Hw. repeat split.
  - intros ctrl. rewrite keeps_mode_s_ctrl. exact Hw.
  - intros enable. rewrite keeps_mode_s_stream. exact Hw.
  - intros fmt. rewrite keeps_mode_get_fmt. exact Hw.
  - rewrite keeps_mode_video_probe. exact Hw.
  - intros fmt. unfold imx219_set_fmt.
    destruct (which fmt =? V4L2_SUBDEV_FORMAT_TRY); [exact Hw |].
    run_monad. cbn [snd priv cur_mode set_cur_mode].
    destruct (imx219_find_best_fit_supported fmt) as [-> | ->];
      [left | right; left]; reflexivity.
  - intros [| hdr | hdr | stream | cmd]; cbn [imx219_ioctl].
    + exact Hw.
    + exact Hw.
    + destruct (hdr_cfg_loop supported_modes (cfg_hdr_mode hdr)) as [m |] eqn:E;
        [| exact Hw].
      apply hdr_cfg_loop_supported in E. subst m.
      left. reflexivity.
    + unfold bind. 
      assert (K : keeps_mode (if nonzero stream then reg_write_table start
                              else reg_write_table stop))
        by keeps_mode_walk.
      specialize (K w).
      destruct ((if nonzero stream then reg_write_table start
                 else reg_write_table stop) w) as [r w1].
      cbn [snd pure] in *. rewrite K. exact Hw.
    + exact Hw.
Qed.

(** ** Mode selection, enumeration and formats *)

(** X1.  For a request below [2 ^ 30] in both dimensions the 3280x2464
    entry is selected when it is strictly nearer to the request in L1
    distance than the 1920x1080 entry, and the 1920x1080 entry otherwise:
    a tie goes to the first entry of the catalog. *)
Theorem best_fit_nearest_entry fmt :
  0 <= f_width (format fmt) < 2 ^ 30 ->
  0 <= f_height (format fmt) < 2 ^ 30 ->
  imx219_find_best_fit fmt =
  if l1_distance mode_3280_2464 (format fmt)
     <? l1_distance mode_1920_1080 (format fmt)
  then mode_3280_2464 else mode_1920_1080.
Proof.
  intros Hw Hh. unfold imx219_find_best_fit, supported_modes.
  cbn [best_fit_loop].
  rewrite !imx219_get_reso_dist_in_range
    by (cbn [width height mode_1920_1080 mode_3280_2464]; lia).
  change (-1 =? -1) with true. cbn [orb].
  assert (H0 : 0 <= l1_distance mode_1920_1080 (format fmt))
    by (unfold l1_distance; lia).
  destruct (Z.eqb_spec (l1_distance mode_1920_1080 (format fmt)) (-1));
    [lia |].
  cbn [orb].
  destruct (l1_distance mode_3280_2464 (format fmt)
            <? l1_distance mode_1920_1080 (format fmt)); reflexivity.
Qed.

(** The request 2600x1772 is at distance 680 + 692 from both entries. *)
Lemma best_fit_nearest_entry_witness :
  let fmt := request V4L2_SUBDEV_FORMAT_ACTIVE 2600 1772 in
  0 <= f_width (format fmt) < 2 ^ 30 /\
  0 <= f_height (format fmt) < 2 ^ 30 /\
  l1_distance mode_3280_2464 (format fmt) = 1372 /\
  l1_distance mode_1920_1080 (format fmt) = 1372 /\
  imx219_find_best_fit fmt =
  if l1_distance mode_3280_2464 (format fmt)
     <? l1_distance mode_1920_1080 (format fmt)
  then mode_3280_2464 else mode_1920_1080.
Proof.
  cbv zeta.
  split; [cbn; lia |]. split; [cbn; lia |].
  split; [reflexivity |]. split; [reflexivity |].
  apply (best_fit_nearest_entry
           (request V4L2_SUBDEV_FORMAT_ACTIVE 2600 1772)); cbn; lia.
Defined.

Lemma supported_mode_at_cases index :
  0 <= index < supported_modes_size ->
  (index = 0 /\ supported_mode_at index = mode_1920_1080) \/
  (index = 1 /\ supported_mode_at index = mode_3280_2464).
Proof.
  unfold supported_modes_size, supported_modes. cbn [length]. intros H.
  assert (Hc : index = 0 \/ index = 1) by lia.
  destruct Hc as [-> | ->]; [left | right]; split; reflexivity.
Qed.

Lemma imx219_find_best_fit_exact mode fmt :
  In mode supported_modes ->
  f_width (format fmt) = width mode -> f_height (format fmt) = height mode ->
  imx219_find_best_fit fmt = mode.
Proof.
  intros Hin Hw Hh. unfold imx219_find_best_fit, supported_modes.
  cbn [best_fit_loop]. unfold imx219_get_reso_dist. rewrite Hw, Hh.
  destruct Hin as [<- | [<- | []]]; vm_compute; reflexivity.
Qed.

(** X2.  Setting the format is idempotent: when the format that a call has
    returned is handed to a second call, that call returns 0 and the same
    format, and it leaves the state of the driver as the first call left
    it.  For the active format this is because each catalog entry is its
    own best fit; a TRY format is returned as it came. *)
Theorem set_fmt_idempotent fmt w :
  let '(_, fmt1, w1) := imx219_set_fmt fmt w in
  let '(ret, fmt2, w2) := imx219_set_fmt fmt1 w1 in
  ret = 0 /\ fmt2 = fmt1 /\ priv w2 = priv w1.
Proof.
  unfold imx219_set_fmt.
  destruct (which fmt =? V4L2_SUBDEV_FORMAT_TRY) eqn:Hwhich.
  - unfold pure. rewrite Hwhich. repeat split.
  - run_monad. cbn [which]. rewrite Hwhich. cbn [priv trace bus].
    set (mode := imx219_find_best_fit fmt).
    assert (Hm : In mode supported_modes).
    { destruct (imx219_find_best_fit_supported fmt) as [E | E];
        unfold mode; rewrite E; [left | right; left]; reflexivity. }
    match goal with
    | |- context [imx219_find_best_fit ?f] =>
        rewrite (imx219_find_best_fit_exact mode f Hm) by reflexivity
    end.
    cbn [format imx219_reset_colorspace f_width f_height f_code f_field
         f_colorspace].
    repeat split.
Qed.

(** X3.  A frame size that the enumeration has answered is granted as it
    is: the enumeration reports one size per entry (minimum and maximum
    equal), and a request for the active format with that size and code
    selects the entry that was enumerated and returns its width, its height
    and the code. *)
Theorem enumerated_frame_size_is_granted fse w :
  0 <= fse_index fse ->
  fst (imx219_enum_frame_sizes fse) = 0 ->
  let out := snd (imx219_enum_frame_sizes fse) in
  let '(ret, fmt, w') := imx219_set_fmt (enumerated_request out) w in
  ret = 0 /\
  f_width (format fmt) = max_width out /\
  f_height (format fmt) = max_height out /\
  f_code (format fmt) = fse_code fse /\
  min_width out = max_width out /\
  min_height out = max_height out /\
  cur_mode (priv w') = supported_mode_at (fse_index fse).
Proof.
  intros Hidx. unfold imx219_enum_frame_sizes.
  destruct (Z.leb_spec supported_modes_size (fse_index fse)) as [| Hlt];
    [discriminate |].
  destruct (fse_code fse =? bus_fmt (supported_mode_at (fse_index fse)))
    eqn:Hcode; cbn [negb fst snd]; [intros _ | discriminate].
  apply Z.eqb_eq in Hcode.
  rewrite imx219_set_fmt_active by reflexivity.
  cbn [priv with_priv log set_cur_mode cur_mode format f_width f_height
       f_code].
  assert (Hin : In (supported_mode_at (fse_index fse)) supported_modes).
  { destruct (supported_mode_at_cases (fse_index fse)) as [[_ E] | [_ E]];
      [lia | |]; rewrite E; [left | right; left]; reflexivity. }
  match goal with
  | |- context [imx219_find_best_fit ?f] =>
      rewrite (imx219_find_best_fit_exact _ f Hin) by reflexivity
  end.
  rewrite Hcode. repeat split.
Qed.

Lemma enumerated_frame_size_is_granted_witness :
  let fse := frame_size_query 1 MEDIA_BUS_FMT_SRGGB10_1X10 in
  let w := world_initial (bus_reads 0) in
  0 <= fse_index fse /\
  fst (imx219_enum_frame_sizes fse) = 0 /\
  let out := snd (imx219_enum_frame_sizes fse) in
  let '(ret, fmt, w') := imx219_set_fmt (enumerated_request out) w in
  ret = 0 /\
  f_width (format fmt) = max_width out /\
  f_height (format fmt) = max_height out /\
  f_code (format fmt) = fse_code fse /\
  min_width out = max_width out /\
  min_height out = max_height out /\
  cur_mode (priv w') = supported_mode_at (fse_index fse).
Proof.
  cbv zeta.
  split; [cbn; lia |].
  split; [reflexivity |].
  apply (enumerated_frame_size_is_granted
           (frame_size_query 1 MEDIA_BUS_FMT_SRGGB10_1X10)
           (world_initial (bus_reads 0))).
  - cbn. lia.
  - reflexivity.
Defined.

(** X4.  With [cfg_num] the size of the catalog, the interval enumeration
    and the size enumeration accept the same indices and codes and report
    the same width and height; neither touches the device.  The interval
    the enumeration reports for an entry is the one the frame-interval query
    answers once the format of that entry has been set, and the HDR tag it
    reports is [NO_HDR]. *)
Theorem enum_frame_interval_matches_frame_sizes index code w :
  0 <= index ->
  cfg_num (priv w) = supported_modes_size ->
  let '(ret, fie, w') :=
    imx219_enum_frame_interval (frame_interval_query index code) w in
  let '(ret_sizes, fse) :=
    imx219_enum_frame_sizes (frame_size_query index code) in
  w' = w /\
  ret = ret_sizes /\
  (ret = 0 \/ ret = - EINVAL /\ fie = frame_interval_query index code) /\
  (ret = 0 ->
   fie_width fie = max_width fse /\
   fie_height fie = max_height fse /\
   fie_reserved0 fie = NO_HDR /\
   let w1 := snd (imx219_set_fmt (enumerated_request fse) w) in
   fi_interval (snd (fst (imx219_g_frame_interval frame_interval_0 w1)))
   = fie_interval fie).
Proof.
  intros Hidx Hcfg.
  unfold imx219_enum_frame_interval, imx219_enum_frame_sizes.
  run_monad. rewrite Hcfg.
  cbn [fie_index fie_code fse_index fse_code frame_interval_query
       frame_size_query].
  destruct (Z.leb_spec supported_modes_size index) as [| Hlt].
  { split; [reflexivity |]. split; [reflexivity |].
    split; [right; split; reflexivity |]. discriminate. }
  destruct (supported_mode_at_cases index) as [[-> E] | [-> E]];
    [lia | |]; rewrite E;
    change (bus_fmt mode_1920_1080) with MEDIA_BUS_FMT_SRGGB10_1X10;
    change (bus_fmt mode_3280_2464) with MEDIA_BUS_FMT_SRGGB10_1X10;
    (destruct (code =? MEDIA_BUS_FMT_SRGGB10_1X10); cbn [negb];
     [| split; [reflexivity |]; split; [reflexivity |];
        split; [right; split; reflexivity |]; discriminate]).
  all: split; [reflexivity |]; split; [reflexivity |];
    split; [left; reflexivity |]; intros _;
    repeat split.
Qed.

Lemma enum_frame_interval_matches_frame_sizes_witness :
  let index := 1 in
  let code := MEDIA_BUS_FMT_SRGGB10_1X10 in
  let w := world_initial (bus_reads 0) in
  0 <= index /\
  cfg_num (priv w) = supported_modes_size /\
  let '(ret, fie, w') :=
    imx219_enum_frame_interval (frame_interval_query index code) w in
  let '(ret_sizes, fse) :=
    imx219_enum_frame_sizes (frame_size_query index code) in
  w' = w /\
  ret = ret_sizes /\
  (ret = 0 \/ ret = - EINVAL /\ fie = frame_interval_query index code) /\
  (ret = 0 ->
   fie_width fie = max_width fse /\
   fie_height fie = max_height fse /\
   fie_reserved0 fie = NO_HDR /\
   let w1 := snd (imx219_set_fmt (enumerated_request fse) w) in
   fi_interval (snd (fst (imx219_g_frame_interval frame_interval_0 w1)))
   = fie_interval fie).
Proof.
  cbv zeta.
  split; [lia |].
  split; [reflexivity |].
  apply (enum_frame_interval_matches_frame_sizes 1
           MEDIA_BUS_FMT_SRGGB10_1X10 (world_initial (bus_reads 0)));
    [lia | reflexivity].
Defined.


Lemma bus_fmt_supported mode :
  In mode supported_modes -> bus_fmt mode = MEDIA_BUS_FMT_SRGGB10_1X10.
Proof. intros [<- | [<- | []]]; reflexivity. Qed.

(** X5.  With the current mode in the catalog, the code enumeration answers
    index 0 only (any other index is [-EINVAL] and leaves the query as it
    is), never touches the device, and the code it answers is the one code
    that the size enumeration and the interval enumeration accept, at every
    index of the catalog. *)
Theorem enum_mbus_code_is_the_accepted_code code w :
  In (cur_mode (priv w)) supported_modes ->
  cfg_num (priv w) = supported_modes_size ->
  let '(ret, out, w') := imx219_enum_mbus_code code w in
  w' = w /\
  (ret = 0 <-> mce_index code = 0) /\
  (ret <> 0 -> ret = - EINVAL /\ out = code) /\
  (ret = 0 ->
   forall index c, 0 <= index < supported_modes_size ->
     (fst (imx219_enum_frame_sizes (frame_size_query index c)) = 0 <->
      c = mce_code out) /\
     (fst (fst (imx219_enum_frame_interval (frame_interval_query index c) w))
      = 0 <-> c = mce_code out)).
Proof.
  intros Hin Hcfg. unfold imx219_enum_mbus_code. run_monad.
  destruct (Z.eqb_spec (mce_index code) 0) as [E | NE]; cbn [negb].
  - split; [reflexivity |]. split; [tauto |].
    split; [intros H; contradiction H; reflexivity |].
    intros _ index c Hidx. cbn [mce_code].
    rewrite (bus_fmt_supported _ Hin).
    unfold imx219_enum_frame_sizes, imx219_enum_frame_interval. run_monad.
    rewrite Hcfg.
    cbn [fie_index fie_code fse_index fse_code frame_interval_query
         frame_size_query].
    destruct (Z.leb_spec supported_modes_size index); [lia |].
    assert (Hb : bus_fmt (supported_mode_at index)
                 = MEDIA_BUS_FMT_SRGGB10_1X10).
    { destruct (supported_mode_at_cases index) as [[_ Em] | [_ Em]];
        [lia | |]; rewrite Em; reflexivity. }
    rewrite Hb.
    destruct (Z.eqb_spec c MEDIA_BUS_FMT_SRGGB10_1X10) as [Ec | NEc];
      cbn [negb fst]; unfold EINVAL; split; split; intros Hx;
      first [reflexivity | exact Ec | discriminate Hx | contradiction].
  - split; [reflexivity |].
    split; [unfold EINVAL; split; intros H; [discriminate H | contradiction] |].
    split; [intros _; split; reflexivity |].
    unfold EINVAL. intros H. discriminate H.
Qed.

Lemma enum_mbus_code_is_the_accepted_code_witness :
  let code := mbus_code_query 0 in
  let w := world_initial (bus_reads 0) in
  In (cur_mode (priv w)) supported_modes /\
  cfg_num (priv w) = supported_modes_size /\
  let '(ret, out, w') := imx219_enum_mbus_code code w in
  w' = w /\
  (ret = 0 <-> mce_index code = 0) /\
  (ret <> 0 -> ret = - EINVAL /\ out = code) /\
  (ret = 0 ->
   forall index c, 0 <= index < supported_modes_size ->
     (fst (imx219_enum_frame_sizes (frame_size_query index c)) = 0 <->
      c = mce_code out) /\
     (fst (fst (imx219_enum_frame_interval (frame_interval_query index c) w))
      = 0 <-> c = mce_code out)).
Proof.
  cbv zeta.
  split; [left; reflexivity |].
  split; [reflexivity |].
  apply (enum_mbus_code_is_the_accepted_code (mbus_code_query 0)
           (world_initial (bus_reads 0)));
    [left; reflexivity | reflexivity].
Defined.

(** ** Stream start: the first failing write *)

Lemma with_priv_priv w : with_priv (priv w) w = w.
Proof. destruct w; reflexivity. Qed.

(** The first failing transfer decides where a start stops. *)
Ltac all_ok_below tm Hall1 :=
  let i := fresh "i" in
  let Hi := fresh "Hi" in
  let Hc := fresh "Hc" in
  intros i Hi;
  assert (Hc : (i < length tm \/ i = length tm \/ i = length tm + 1 \/
                i = length tm + 2 \/ i = length tm + 3 \/
                i = length tm + 4)%nat) by lia;
  destruct Hc as [Hc | [-> | [-> | [-> | [-> | ->]]]]];
  [ apply Hall1; exact Hc | .. ];
  first [ lia
        | match goal with
          | H : transfer_ok _ _ = true |- _ => ok_at H
          end ].

Ltac stopped_world tm :=
  unfold step_end, log, with_priv, test_pattern_msgs, TEST_PATTERN_DISABLED;
  cbn [priv trace bus];
  let body := eval unfold tm in tm in change body with tm;
  repeat match goal with
  | H : (test_pattern _ =? 0) = _ |- _ => rewrite H
  end;
  cbn [length];
  step_end_cases;
  rewrite <- ?app_assoc; cbn [app length Nat.add];
  rewrite <- ?Nat.add_assoc; cbn [Nat.add];
  rewrite ?firstn_app_2; cbn [firstn];
  reflexivity.

Lemma imx219_s_stream_start_run enable w :
  nonzero enable = true ->
  let p := priv w in
  let base := length (trace w) in
  let seq := start_sequence p in
  (imx219_s_stream enable w = (0, log seq (with_priv (resync_vts p) w)) /\
   forall j, (j < length seq)%nat -> ok w (base + j) = true) \/
  (exists j, (j < length seq)%nat /\ ok w (base + j) = false /\
     (forall i, (i < j)%nat -> ok w (base + i) = true) /\
     imx219_s_stream enable w =
     (- EIO,
      log (firstn (step_end p j) seq)
        (with_priv
           (if (length (table_msgs (reg_list (cur_mode p))) <? j)%nat
            then resync_vts p else p) w))).
Proof.
  intros Hen. cbv zeta. unfold imx219_s_stream. run_monad.
  rewrite Hen. cbn [negb].
  destruct (reg_write_table_run (reg_list (cur_mode (priv w))) w)
    as (k1 & Hk1 & Hw1 & Hpre1 & Hres1).
  destruct (reg_write_table (reg_list (cur_mode (priv w))) w) as [ret1 w1].
  cbn [fst snd] in Hw1, Hres1. subst w1.
  unfold start_sequence, resync_vts.
  destruct w as [p t b]. unfold ok, log in *. cbn [priv trace bus] in *.
  set (tm := table_msgs (reg_list (cur_mode p))) in *.
  destruct Hres1 as [(-> & -> & Hall1) | (-> & j1 & -> & Hfail1)].
  2: { change (nonzero (- EIO)) with true. cbv iota.
       right. exists j1. rewrite ?length_app. cbn [length].
       split; [lia |]. split; [exact Hfail1 |].
       split; [intros i Hi; apply Hpre1; lia |].
       unfold step_end, with_priv. cbn [priv trace bus].
       fold tm.
       destruct (Nat.ltb_spec j1 (length tm)); [| lia].
       destruct (Nat.ltb_spec (length tm) j1); [lia |].
       rewrite firstn_app.
       replace (S j1 - length tm)%nat with 0%nat by lia.
       cbn [firstn]. rewrite app_nil_r. reflexivity. }
  clear Hpre1 Hk1.
  change (nonzero 0) with false. cbv beta iota.
  rewrite firstn_all.
  rewrite orientation_value.
  change (reg_msg IMX219_REG_IMG_ORIENTATION REG_VALUE_08BIT
            (Z.b2z (nonzero (hflip p)) + 2 * Z.b2z (nonzero (vflip p))))
    with (orientation_msg p).
  set (om := orientation_msg p).
  next_write Hor.
  2: { right. exists (length tm). rewrite ?length_app. cbn [length].
       split; [lia |]. split; [ok_at Hor |].
       split; [intros i Hi; apply Hall1; exact Hi |].
       stopped_world tm. }
  unfold test_pattern_msgs, TEST_PATTERN_DISABLED.
  rewrite (nonzero_eqb (test_pattern p)).
  destruct (test_pattern p =? 0) eqn:Htp; cbn [negb]; cbv beta iota.
  - next_write Htp1.
    2: { right. exists (length tm + 1)%nat. rewrite ?length_app.
         cbn [length].
         split; [lia |]. split; [ok_at Htp1 |].
         split; [all_ok_below tm Hall1 |].
         stopped_world tm. }
    unfold start. cbn [reg_write_table addr val].
    change (256 =? IMX219_TABLE_END) with false.
    change (IMX219_TABLE_END =? IMX219_TABLE_END) with true.
    run_monad. cbn [priv trace bus].
    next_write Hse.
    + change (0 <? 0) with false. cbv beta iota.
      left. split.
      * unfold with_priv. cbn [priv trace bus].
        rewrite <- ?app_assoc. reflexivity.
      * rewrite ?length_app. cbn [length]. all_ok_below tm Hall1.
    + change (- EIO <? 0) with true. cbv beta iota.
      right. exists (length tm + 2)%nat. rewrite ?length_app.
      cbn [length].
      split; [lia |]. split; [ok_at Hse |].
      split; [all_ok_below tm Hall1 |].
      stopped_world tm.
  - next_write Htp1; next_write Htp2; next_write Htp3;
      match goal with
      | |- context [nonzero ?x] =>
          let v := eval vm_compute in (nonzero x) in
          change (nonzero x) with v
      end; cbv beta iota.
    2-8: right;
      first [ solve [ exists (length tm + 1)%nat; rewrite ?length_app;
                      cbn [length];
                      split; [lia |]; split; [ok_at Htp1 |];
                      split; [all_ok_below tm Hall1 |];
                      stopped_world tm ]
            | solve [ exists (length tm + 2)%nat; rewrite ?length_app;
                      cbn [length];
                      split; [lia |]; split; [ok_at Htp2 |];
                      split; [all_ok_below tm Hall1 |];
                      stopped_world tm ]
            | solve [ exists (length tm + 3)%nat; rewrite ?length_app;
                      cbn [length];
                      split; [lia |]; split; [ok_at Htp3 |];
                      split; [all_ok_below tm Hall1 |];
                      stopped_world tm ] ].
    unfold start. cbn [reg_write_table addr val].
    change (256 =? IMX219_TABLE_END) with false.
    change (IMX219_TABLE_END =? IMX219_TABLE_END) with true.
    run_monad. cbn [priv trace bus].
    next_write Hse.
    + change (0 <? 0) with false. cbv beta iota.
      left. split.
      * unfold with_priv. cbn [priv trace bus].
        rewrite <- ?app_assoc. reflexivity.
      * rewrite ?length_app. cbn [length]. all_ok_below tm Hall1.
    + change (- EIO <? 0) with true. cbv beta iota.
      right. exists (length tm + 4)%nat. rewrite ?length_app.
      cbn [length].
      split; [lia |]. split; [ok_at Hse |].
      split; [all_ok_below tm Hall1 |].
      stopped_world tm.
Qed.

(** ** Stream stop and quick stream *)

Lemma reg_write_table_start w :
  reg_write_table start w =
  (status (ok w (length (trace w))), log [stream_enable_msg] w).
Proof.
  unfold start. cbn [reg_write_table addr val].
  change (256 =? IMX219_TABLE_END) with false.
  change (IMX219_TABLE_END =? IMX219_TABLE_END) with true.
  run_monad. run_reg_write.
  destruct (ok w (length (trace w))); reflexivity.
Qed.

Lemma reg_write_table_stop w :
  reg_write_table stop w =
  (status (ok w (length (trace w))), log [stream_disable_msg] w).
Proof.
  unfold stop. cbn [reg_write_table addr val].
  change (256 =? IMX219_TABLE_END) with false.
  change (IMX219_TABLE_END =? IMX219_TABLE_END) with true.
  run_monad. run_reg_write.
  destruct (ok w (length (trace w))); reflexivity.
Qed.

Lemma imx219_ioctl_quick_stream_run stream w :
  imx219_ioctl (RKMODULE_SET_QUICK_STREAM stream) w =
  (status (ok w (length (trace w))), RKMODULE_SET_QUICK_STREAM stream,
   log [if nonzero stream then stream_enable_msg else stream_disable_msg] w).
Proof.
  cbn [imx219_ioctl]. unfold bind.
  destruct (nonzero stream);
    [rewrite reg_write_table_start | rewrite reg_write_table_stop];
    reflexivity.
Qed.

(** X6.  The quick-stream command makes one register write, returns the
    status of that write and leaves the state alone.  With the value 0 it
    does what stopping the stream does; with any other value it sends the
    stream-enable write only, which is the last message of a start
    sequence: the table replay, the orientation write and the test-pattern
    writes that come before it in a start are not made. *)
Theorem quick_stream_is_one_write stream w :
  let '(ret, _, w') := imx219_ioctl (RKMODULE_SET_QUICK_STREAM stream) w in
  ret = status (ok w (length (trace w))) /\
  priv w' = priv w /\
  (stream = 0 ->
   trace w' = trace w ++ [stream_disable_msg] /\
   imx219_s_stream 0 w = (ret, w')) /\
  (stream <> 0 ->
   trace w' = trace w ++ [stream_enable_msg] /\
   stream_enable_msg = last (start_sequence (priv w)) stream_enable_msg /\
   (1 < length (start_sequence (priv w)))%nat).
Proof.
  cbn [imx219_ioctl]. unfold bind, nonzero.
  destruct (Z.eqb_spec stream 0) as [-> | NE]; cbn [negb].
  - rewrite reg_write_table_stop. unfold pure.
    split; [reflexivity |]. split; [reflexivity |].
    split; [| intros H; contradiction H; reflexivity].
    intros _. split; [reflexivity |].
    unfold imx219_s_stream. run_monad. change (nonzero 0) with false.
    cbn [negb]. apply reg_write_table_stop.
  - rewrite reg_write_table_start. unfold pure.
    split; [reflexivity |]. split; [reflexivity |].
    split; [intros H; contradiction |].
    intros _. split; [reflexivity |].
    unfold start_sequence. rewrite !app_assoc.
    rewrite last_last. split; [reflexivity |].
    rewrite !length_app. cbn [length]. lia.
Qed.

(** ** Stream start: state and restarts *)

Lemma length_start_sequence p :
  (length (table_msgs (reg_list (cur_mode p))) + 2 < length (start_sequence p))%nat.
Proof.
  unfold start_sequence, test_pattern_msgs. rewrite !length_app.
  destruct (test_pattern p =? TEST_PATTERN_DISABLED); cbn [length]; lia.
Qed.

(** X7.  A stream start sets the recorded frame length back to that of the
    current mode, less the exposure margin, exactly when the table replay
    and the orientation write have succeeded: a failure among them leaves
    the state as it was, and a failure after them (a test-pattern write or
    the stream-enable write) returns the error with the frame length
    already set back.  Nothing else of the state changes. *)
Theorem s_stream_start_resyncs_vts enable w :
  nonzero enable = true ->
  let p := priv w in
  let base := length (trace w) in
  let replay := length (table_msgs (reg_list (cur_mode p))) in
  let w' := snd (imx219_s_stream enable w) in
  ((forall j, (j <= replay)%nat -> ok w (base + j) = true) ->
   priv w' = resync_vts p) /\
  ((exists j, (j <= replay)%nat /\ ok w (base + j) = false) ->
   priv w' = p).
Proof.
  intros Hen. cbv zeta.
  pose proof (length_start_sequence (priv w)) as Hlen.
  destruct (imx219_s_stream_start_run enable w Hen)
    as [[E Hall] | (j & Hj & Hf & Hpre & E)]; rewrite E; cbn [snd].
  - split; [intros _; reflexivity |].
    intros (i & Hi & Hfi). rewrite Hall in Hfi by lia. discriminate Hfi.
  - cbn [log with_priv priv].
    destruct (Nat.ltb_spec
                (length (table_msgs (reg_list (cur_mode (priv w))))) j)
      as [Hlt | Hge].
    + split; [intros _; reflexivity |].
      intros (i & Hi & Hfi). rewrite Hpre in Hfi by lia. discriminate Hfi.
    + split; [| intros _; reflexivity].
      intros Hok. rewrite Hok in Hf by lia. discriminate Hf.
Qed.

Lemma s_stream_start_resyncs_vts_witness :
  let enable := 1 in
  let w := world_initial (bus_fails_at 49) in
  nonzero enable = true /\
  let p := priv w in
  let base := length (trace w) in
  let replay := length (table_msgs (reg_list (cur_mode p))) in
  let w' := snd (imx219_s_stream enable w) in
  fst (imx219_s_stream enable w) = - EIO /\
  cur_vts (priv w') = 1759 /\
  ((forall j, (j <= replay)%nat -> ok w (base + j) = true) ->
   priv w' = resync_vts p) /\
  ((exists j, (j <= replay)%nat /\ ok w (base + j) = false) ->
   priv w' = p).
Proof.
  cbv zeta.
  split; [reflexivity |].
  split; [vm_compute; reflexivity |].
  split; [vm_compute; reflexivity |].
  apply (s_stream_start_resyncs_vts 1 (world_initial (bus_fails_at 49))).
  reflexivity.
Defined.

Lemma start_sequence_resync_vts p :
  start_sequence (resync_vts p) = start_sequence p.
Proof. reflexivity. Qed.

(** When every transfer of a start succeeds. *)
Lemma imx219_s_stream_start_ok enable w :
  nonzero enable = true ->
  (forall j, (j < length (start_sequence (priv w)))%nat ->
     ok w (length (trace w) + j) = true) ->
  imx219_s_stream enable w =
  (0, log (start_sequence (priv w)) (with_priv (resync_vts (priv w)) w)).
Proof.
  intros Hen Hall.
  destruct (imx219_s_stream_start_run enable w Hen)
    as [[E _] | (j & Hj & Hf & _)]; [exact E |].
  rewrite Hall in Hf by exact Hj. discriminate Hf.
Qed.

(** X8.  On a bus that works, start, stop and start again all return 0; the
    second start sends the very sequence of the first, after the one
    stream-disable write of the stop, and it leaves the state as the first
    start left it. *)
Theorem s_stream_restart_repeats w :
  let p := priv w in
  let seq := start_sequence p in
  let base := length (trace w) in
  (forall j, (j < 2 * length seq + 1)%nat -> ok w (base + j) = true) ->
  let '(ret1, w1) := imx219_s_stream 1 w in
  let '(ret2, w2) := imx219_s_stream 0 w1 in
  let '(ret3, w3) := imx219_s_stream 1 w2 in
  ret1 = 0 /\ ret2 = 0 /\ ret3 = 0 /\
  trace w1 = trace w ++ seq /\
  trace w3 = trace w1 ++ [stream_disable_msg] ++ seq /\
  priv w3 = priv w1.
Proof.
  cbv zeta. intros Hall.
  rewrite (imx219_s_stream_start_ok 1 w) by
    (reflexivity || (intros j Hj; apply Hall; lia)).
  set (seq := start_sequence (priv w)) in *.
  set (w1 := log seq (with_priv (resync_vts (priv w)) w)).
  assert (E2 : imx219_s_stream 0 w1 =
               (status (ok w1 (length (trace w1))),
                log [stream_disable_msg] w1)).
  { unfold imx219_s_stream. run_monad. apply reg_write_table_stop. }
  rewrite E2.
  assert (Hok2 : ok w1 (length (trace w1)) = true).
  { unfold w1. rewrite ok_log, length_trace_log.
    apply Hall. lia. }
  rewrite Hok2. cbn [status].
  set (w2 := log [stream_disable_msg] w1).
  rewrite (imx219_s_stream_start_ok 1 w2).
  - split; [reflexivity |]. split; [reflexivity |].
    split; [reflexivity |]. split; [reflexivity |].
    split; [| reflexivity].
    unfold w2, w1, log, with_priv. cbn [priv trace bus].
    fold seq. rewrite <- !app_assoc. reflexivity.
  - reflexivity.
  - intros j Hj.
    change (start_sequence (priv w2)) with seq in Hj.
    unfold w2, w1.
    rewrite !ok_log, !length_trace_log. cbn [length].
    unfold ok, with_priv. cbn [priv trace bus].
    replace (length (trace w) + length seq + 1 + j)%nat
      with (length (trace w) + (length seq + 1 + j))%nat by lia.
    apply Hall. lia.
Qed.

Lemma s_stream_restart_repeats_witness :
  let w := world_initial (bus_reads 0) in
  let p := priv w in
  let seq := start_sequence p in
  let base := length (trace w) in
  (forall j, (j < 2 * length seq + 1)%nat -> ok w (base + j) = true) /\
  let '(ret1, w1) := imx219_s_stream 1 w in
  let '(ret2, w2) := imx219_s_stream 0 w1 in
  let '(ret3, w3) := imx219_s_stream 1 w2 in
  ret1 = 0 /\ ret2 = 0 /\ ret3 = 0 /\
  trace w1 = trace w ++ seq /\
  trace w3 = trace w1 ++ [stream_disable_msg] ++ seq /\
  priv w3 = priv w1.
Proof.
  cbv zeta.
  split; [intros j _; reflexivity |].
  apply (s_stream_restart_repeats (world_initial (bus_reads 0))).
  intros j _. reflexivity.
Defined.

(** ** Flips and the start sequence *)

Lemma start_sequence_with_exposure_state p a d e v :
  start_sequence
    (set_analogue_gain a
       (set_digital_gain d (set_exposure_time e (set_cur_vts v p))))
  = start_sequence p.
Proof. reflexivity. Qed.

(** X9.  On a bus that works a flip control returns 0, and the flip
    reaches the orientation register with the next start sequence:
    at once when the sensor is streaming, and with the next stream start
    when it is not, in which case the control sends nothing but the read.
    The orientation write carries the new flag in its bit (bit 0 for the
    horizontal flip, bit 1 for the vertical one) next to the other flag as
    stored. *)
Theorem flip_reaches_orientation_register ctrl w v :
  flip_cid (ctrl_id ctrl) ->
  let base := length (trace w) in
  let p1 := store_flip ctrl (priv w) in
  bus w base = Some v ->
  (forall j, (j < length (start_sequence p1))%nat ->
     ok w (base + 1 + j) = true) ->
  let streaming := Z.land (v mod 2 ^ 8) 0x1f =? 0x01 in
  let '(ret, _, w1) := imx219_s_ctrl ctrl w in
  let w2 := if streaming then w1 else snd (imx219_s_stream 1 w1) in
  ret = 0 /\
  (streaming = false -> trace w1 = trace w ++ [mode_select_read]) /\
  trace w2 = trace w ++ mode_select_read :: start_sequence p1 /\
  In (orientation_msg p1) (start_sequence p1) /\
  (ctrl_id ctrl = V4L2_CID_HFLIP ->
   orientation_msg p1 =
   reg_msg IMX219_REG_IMG_ORIENTATION REG_VALUE_08BIT
     (Z.b2z (nonzero (ctrl_val ctrl)) +
      2 * Z.b2z (nonzero (vflip (priv w))))) /\
  (ctrl_id ctrl = V4L2_CID_VFLIP ->
   orientation_msg p1 =
   reg_msg IMX219_REG_IMG_ORIENTATION REG_VALUE_08BIT
     (Z.b2z (nonzero (hflip (priv w))) +
      2 * Z.b2z (nonzero (ctrl_val ctrl)))).
Proof.
  intros Hflip. cbv zeta. intros Hread Hall.
  rewrite (imx219_s_ctrl_flip_run ctrl w Hflip).
  rewrite s_ctrl_after_switch_run.
  set (p1 := store_flip ctrl (priv w)) in *.
  set (w0 := log [mode_select_read] (with_priv p1 w)).
  assert (Estart : imx219_s_stream 1 w0 =
                   (0, log (start_sequence p1)
                         (with_priv (resync_vts p1) w0))).
  { apply (imx219_s_stream_start_ok 1 w0); [reflexivity |].
    intros j Hj. change (priv w0) with p1 in Hj.
    unfold w0. rewrite ok_log, length_trace_log. cbn [length].
    exact (Hall j Hj). }
  change (bus (with_priv p1 w)) with (bus w).
  change (trace (with_priv p1 w)) with (trace w).
  rewrite Hread. fold w0.
  assert (Hseq : trace (snd (imx219_s_stream 1 w0))
                 = trace w ++ mode_select_read :: start_sequence p1).
  { rewrite Estart. cbn [snd log with_priv trace w0 priv bus].
    rewrite <- app_assoc. reflexivity. }
  assert (Hor : In (orientation_msg p1) (start_sequence p1)).
  { unfold start_sequence. apply in_or_app. right. left. reflexivity. }
  destruct (Z.land (v mod 2 ^ 8) 31 =? 1).
  - split; [reflexivity |]. split; [discriminate |].
    split; [exact Hseq |]. split; [exact Hor |].
    unfold p1, store_flip.
    split; intros ->; reflexivity.
  - split; [reflexivity |]. split; [intros _; reflexivity |].
    split; [exact Hseq |]. split; [exact Hor |].
    unfold p1, store_flip.
    split; intros ->; reflexivity.
Qed.

Lemma flip_reaches_orientation_register_witness :
  let ctrl := {| ctrl_id := V4L2_CID_HFLIP; ctrl_val := 1 |} in
  let w := world_initial (bus_reads 0) in
  let v := 0 in
  flip_cid (ctrl_id ctrl) /\
  let base := length (trace w) in
  let p1 := store_flip ctrl (priv w) in
  bus w base = Some v /\
  (forall j, (j < length (start_sequence p1))%nat ->
     ok w (base + 1 + j) = true) /\
  let streaming := Z.land (v mod 2 ^ 8) 0x1f =? 0x01 in
  let '(ret, _, w1) := imx219_s_ctrl ctrl w in
  let w2 := if streaming then w1 else snd (imx219_s_stream 1 w1) in
  ret = 0 /\
  (streaming = false -> trace w1 = trace w ++ [mode_select_read]) /\
  trace w2 = trace w ++ mode_select_read :: start_sequence p1 /\
  In (orientation_msg p1) (start_sequence p1) /\
  (ctrl_id ctrl = V4L2_CID_HFLIP ->
   orientation_msg p1 =
   reg_msg IMX219_REG_IMG_ORIENTATION REG_VALUE_08BIT
     (Z.b2z (nonzero (ctrl_val ctrl)) +
      2 * Z.b2z (nonzero (vflip (priv w))))) /\
  (ctrl_id ctrl = V4L2_CID_VFLIP ->
   orientation_msg p1 =
   reg_msg IMX219_REG_IMG_ORIENTATION REG_VALUE_08BIT
     (Z.b2z (nonzero (hflip (priv w))) +
      2 * Z.b2z (nonzero (ctrl_val ctrl)))).
Proof.
  cbv zeta.
  split; [left; reflexivity |].
  split; [reflexivity |].
  split; [intros j _; reflexivity |].
  apply (flip_reaches_orientation_register
           {| ctrl_id := V4L2_CID_HFLIP; ctrl_val := 1 |}
           (world_initial (bus_reads 0)) 0).
  - left. reflexivity.
  - reflexivity.
  - intros j _. reflexivity.
Defined.

(** X10.  A flip control on a streaming sensor returns 0 even when the
    restart it triggers fails: the start stops at the end of the step of
    its first failing write, as a start does, the start itself returns
    [-EIO], and the control discards that result. *)
Theorem flip_restart_failure_is_not_reported ctrl w v j :
  flip_cid (ctrl_id ctrl) ->
  let base := length (trace w) in
  let p1 := store_flip ctrl (priv w) in
  bus w base = Some v ->
  Z.land (v mod 2 ^ 8) 0x1f = 0x01 ->
  (j < length (start_sequence p1))%nat ->
  ok w (base + 1 + j) = false ->
  (forall i, (i < j)%nat -> ok w (base + 1 + i) = true) ->
  let '(ret, _, w') := imx219_s_ctrl ctrl w in
  ret = 0 /\
  fst (imx219_s_stream 1 (log [mode_select_read] (with_priv p1 w))) = - EIO /\
  trace w' =
    trace w ++ mode_select_read :: firstn (step_end p1 j) (start_sequence p1).
Proof.
  intros Hflip. cbv zeta. intros Hread Hstreaming Hj Hf Hpre.
  rewrite (imx219_s_ctrl_flip_run ctrl w Hflip).
  rewrite s_ctrl_after_switch_run.
  set (p1 := store_flip ctrl (priv w)) in *.
  change (bus (with_priv p1 w)) with (bus w).
  change (trace (with_priv p1 w)) with (trace w).
  rewrite Hread, Hstreaming. cbn [Z.eqb Pos.eqb].
  set (w0 := log [mode_select_read] (with_priv p1 w)).
  destruct (imx219_s_stream_start_run 1 w0 eq_refl)
    as [[_ Hall] | (j' & Hj' & Hf' & Hpre' & E)].
  - exfalso. change (priv w0) with p1 in Hall.
    specialize (Hall j Hj). unfold w0 in Hall.
    rewrite ok_log, length_trace_log in Hall. cbn [length] in Hall.
    change (ok (with_priv p1 w)) with (ok w) in Hall.
    change (trace (with_priv p1 w)) with (trace w) in Hall.
    rewrite Hall in Hf. discriminate Hf.
  - change (priv w0) with p1 in Hj', E.
    unfold w0 in Hf', Hpre'.
    rewrite ok_log, length_trace_log in Hf'. cbn [length] in Hf'.
    assert (Hf2 : ok w (length (trace w) + 1 + j') = false) by exact Hf'.
    assert (Hpre2 : forall i, (i < j')%nat ->
                      ok w (length (trace w) + 1 + i) = true).
    { intros i Hi. specialize (Hpre' i Hi).
      rewrite ok_log, length_trace_log in Hpre'. exact Hpre'. }
    assert (j' = j).
    { destruct (Nat.lt_trichotomy j' j) as [Hlt | [Heq | Hgt]];
        [| exact Heq |].
      - rewrite (Hpre j' Hlt) in Hf2. discriminate Hf2.
      - rewrite (Hpre2 j Hgt) in Hf. discriminate Hf. }
    subst j'. rewrite E. cbn [fst snd].
    split; [reflexivity |]. split; [reflexivity |].
    cbn [log with_priv trace w0 priv bus].
    rewrite <- app_assoc. reflexivity.
Qed.

Lemma flip_restart_failure_is_not_reported_witness :
  let ctrl := {| ctrl_id := V4L2_CID_VFLIP; ctrl_val := 1 |} in
  let w := world_initial (fun n => if Nat.eqb n 3 then None else Some 1) in
  let v := 1 in
  let j := 2%nat in
  flip_cid (ctrl_id ctrl) /\
  let base := length (trace w) in
  let p1 := store_flip ctrl (priv w) in
  bus w base = Some v /\
  Z.land (v mod 2 ^ 8) 0x1f = 0x01 /\
  (j < length (start_sequence p1))%nat /\
  ok w (base + 1 + j) = false /\
  (forall i, (i < j)%nat -> ok w (base + 1 + i) = true) /\
  let '(ret, _, w') := imx219_s_ctrl ctrl w in
  ret = 0 /\
  fst (imx219_s_stream 1 (log [mode_select_read] (with_priv p1 w))) = - EIO /\
  trace w' =
    trace w ++ mode_select_read :: firstn (step_end p1 j) (start_sequence p1).
Proof.
  cbv zeta.
  assert (Hpre : forall i, (i < 2)%nat ->
            ok (world_initial (fun n => if Nat.eqb n 3 then None else Some 1))
               (0 + 1 + i) = true).
  { intros [| [| i]] Hi; [reflexivity | reflexivity | lia]. }
  split; [right; reflexivity |].
  split; [reflexivity |].
  split; [reflexivity |].
  split; [vm_compute; lia |].
  split; [reflexivity |].
  split; [exact Hpre |].
  apply (flip_restart_failure_is_not_reported
           {| ctrl_id := V4L2_CID_VFLIP; ctrl_val := 1 |}
           (world_initial (fun n => if Nat.eqb n 3 then None else Some 1))
           1 2%nat).
  - right. reflexivity.
  - reflexivity.
  - reflexivity.
  - vm_compute. lia.
  - reflexivity.
  - exact Hpre.
Defined.

(** X11.  What a stream switch sends and returns does not depend on the
    gain codes, the exposure time or the frame length held in the state:
    a start replays the mode table, the flips and the test pattern, and
    never the gain or exposure that controls have stored. *)
Theorem s_stream_ignores_gain_exposure_state enable w a d e v :
  let w0 :=
    with_priv
      (set_analogue_gain a
         (set_digital_gain d
            (set_exposure_time e (set_cur_vts v (priv w))))) w in
  fst (imx219_s_stream enable w0) = fst (imx219_s_stream enable w) /\
  trace (snd (imx219_s_stream enable w0))
  = trace (snd (imx219_s_stream enable w)).
Proof.
  cbv zeta.
  set (p0 := set_analogue_gain a
               (set_digital_gain d
                  (set_exposure_time e (set_cur_vts v (priv w))))).
  destruct (nonzero enable) eqn:Hen.
  - destruct (imx219_s_stream_start_run enable w Hen)
      as [[E Hall] | (j & Hj & Hf & Hpre & E)];
    destruct (imx219_s_stream_start_run enable (with_priv p0 w) Hen)
      as [[E0 Hall0] | (j0 & Hj0 & Hf0 & Hpre0 & E0)];
    change (priv (with_priv p0 w)) with p0 in *;
    change (start_sequence p0) with (start_sequence (priv w)) in *;
    change (trace (with_priv p0 w)) with (trace w) in *;
    change (ok (with_priv p0 w)) with (ok w) in *.
    + rewrite E, E0. split; reflexivity.
    + rewrite (Hall j0 Hj0) in Hf0. discriminate Hf0.
    + rewrite (Hall0 j Hj) in Hf. discriminate Hf.
    + assert (j0 = j).
      { destruct (Nat.lt_trichotomy j0 j) as [Hlt | [Heq | Hgt]];
          [| exact Heq |].
        - rewrite (Hpre j0 Hlt) in Hf0. discriminate Hf0.
        - rewrite (Hpre0 j Hgt) in Hf. discriminate Hf. }
      subst j0. rewrite E, E0. split; reflexivity.
  - unfold imx219_s_stream. run_monad. rewrite Hen. cbn [negb].
    rewrite !reg_write_table_stop. split; reflexivity.
Qed.

(** ** The gain codes *)

Lemma apply_gain_floor_bounds g :
  let '(a, d) := apply_gain_floor g in
  0 <= a <= 232 /\ 256 <= d <= 4095 /\ (256 < d -> a = 232).
Proof.
  unfold apply_gain_floor, apply_gain_with. cbv zeta.
  set (gain := clamp 256 43663 g).
  assert (Hg : 256 <= gain <= 43663) by (unfold gain, clamp; lia).
  destruct (Z.leb_spec gain 2728) as [Hlo | Hhi].
  - destruct (Z.ltb_spec gain 256); [lia |].
    unfold clamp. repeat split; lia.
  - change (2728 <? 256) with false. cbv iota.
    change (256 - 256 * 256 / 2728) with 232.
    unfold clamp. repeat split; lia.
Qed.

(** X12.  Whatever value a gain control is given, the analogue code it
    stores is within 0..232 and the digital code within 256..4095; the
    digital code leaves 256 only once the analogue code is at its maximum
    of 232; and the two writes carry the codes whole, one byte for the
    analogue code and two bytes, high byte first, for the digital one. *)
Theorem gain_codes_fit_registers id val w :
  gain_cid id ->
  let w' := snd (imx219_s_ctrl {| ctrl_id := id; ctrl_val := val |} w) in
  let a := analogue_gain (priv w') in
  let d := digital_gain (priv w') in
  0 <= a <= 232 /\
  256 <= d <= 4095 /\
  (256 < d -> a = 232) /\
  trace w' =
    trace w ++
    [I2cSend [0x01; 0x57; a]; I2cSend [0x01; 0x58; d / 2 ^ 8; d mod 2 ^ 8]].
Proof.
  intros Hid. cbv zeta.
  rewrite (imx219_s_ctrl_gain_run id val w Hid).
  cbn [snd log with_priv priv trace bus set_digital_gain set_analogue_gain
       analogue_gain digital_gain].
  rewrite gain_case_codes_low16.
  pose proof (apply_gain_floor_bounds (val mod 2 ^ 16)) as Hb.
  destruct (apply_gain_floor (val mod 2 ^ 16)) as [a d].
  cbn [fst snd]. destruct Hb as (Ha & Hd & Had).
  split; [exact Ha |]. split; [exact Hd |]. split; [exact Had |].
  rewrite reg_msg_08bit by (unfold IMX219_REG_ANA_GAIN_GLOBAL_A; lia).
  rewrite reg_msg_16bit by (unfold IMX219_REG_DIG_GAIN_GLOBAL_A; lia).
  reflexivity.
Qed.

Lemma gain_codes_fit_registers_witness :
  let id := V4L2_CID_ANALOGUE_GAIN in
  let val := 70000 in
  let w := world_initial bus_down in
  gain_cid id /\
  let w' := snd (imx219_s_ctrl {| ctrl_id := id; ctrl_val := val |} w) in
  let a := analogue_gain (priv w') in
  let d := digital_gain (priv w') in
  0 <= a <= 232 /\
  256 <= d <= 4095 /\
  (256 < d -> a = 232) /\
  trace w' =
    trace w ++
    [I2cSend [0x01; 0x57; a]; I2cSend [0x01; 0x58; d / 2 ^ 8; d mod 2 ^ 8]].
Proof.
  cbv zeta.
  split; [left; reflexivity |].
  apply (gain_codes_fit_registers V4L2_CID_ANALOGUE_GAIN 70000
           (world_initial bus_down)).
  left. reflexivity.
Defined.

Lemma apply_gain_floor_monotone g1 g2 :
  g1 <= g2 ->
  fst (apply_gain_floor g1) <= fst (apply_gain_floor g2) /\
  snd (apply_gain_floor g1) <= snd (apply_gain_floor g2).
Proof.
  intros Hle. unfold apply_gain_floor, apply_gain_with. cbv zeta.
  cbn [fst snd].
  set (x1 := clamp 256 43663 g1). set (x2 := clamp 256 43663 g2).
  assert (H1 : 256 <= x1 <= 43663) by (unfold x1, clamp; lia).
  assert (H2 : 256 <= x2 <= 43663) by (unfold x2, clamp; lia).
  assert (H12 : x1 <= x2) by (unfold x1, x2, clamp; lia).
  clearbody x1 x2.
  destruct (Z.leb_spec x1 2728) as [L1 | G1];
    destruct (Z.leb_spec x2 2728) as [L2 | G2]; try lia; cbv iota;
    try change (2728 <? 256) with false; cbv iota;
    try change (256 - 256 * 256 / 2728) with 232.
  - destruct (Z.ltb_spec x1 256); [lia |].
    destruct (Z.ltb_spec x2 256); [lia |].
    assert (Hq : 256 * 256 / x2 <= 256 * 256 / x1)
      by (apply Z.div_le_compat_l; lia).
    unfold clamp. split; lia.
  - destruct (Z.ltb_spec x1 256); [lia |].
    assert (Hq : 256 <= x2 * 256 / 2728)
      by (apply Z.div_le_lower_bound; lia).
    unfold clamp. split; lia.
  - assert (Hq : x1 * 256 / 2728 <= x2 * 256 / 2728)
      by (apply Z.div_le_mono; lia).
    unfold clamp. split; lia.
Qed.

(** X13.  On the values that fit the 16-bit local, a larger gain never
    gives a smaller analogue code or a smaller digital code, whichever of
    the two gain controls is used and whatever the state was. *)
Theorem gain_codes_monotone id1 id2 v1 v2 w1 w2 :
  gain_cid id1 -> gain_cid id2 ->
  0 <= v1 -> v1 <= v2 -> v2 <= 65535 ->
  let p1 := priv (snd (imx219_s_ctrl {| ctrl_id := id1; ctrl_val := v1 |} w1)) in
  let p2 := priv (snd (imx219_s_ctrl {| ctrl_id := id2; ctrl_val := v2 |} w2)) in
  analogue_gain p1 <= analogue_gain p2 /\
  digital_gain p1 <= digital_gain p2.
Proof.
  intros Hid1 Hid2 H0 H12 Hmax. cbv zeta.
  rewrite (imx219_s_ctrl_gain_run id1 v1 w1 Hid1).
  rewrite (imx219_s_ctrl_gain_run id2 v2 w2 Hid2).
  cbn [snd log with_priv priv set_digital_gain set_analogue_gain
       analogue_gain digital_gain].
  rewrite !gain_case_codes_floor by lia.
  apply apply_gain_floor_monotone. exact H12.
Qed.

Lemma gain_codes_monotone_witness :
  let id1 := V4L2_CID_GAIN in
  let id2 := V4L2_CID_ANALOGUE_GAIN in
  let v1 := 2728 in
  let v2 := 2750 in
  let w1 := world_initial (bus_reads 0) in
  let w2 := world_initial bus_down in
  gain_cid id1 /\ gain_cid id2 /\ 0 <= v1 /\ v1 <= v2 /\ v2 <= 65535 /\
  let p1 := priv (snd (imx219_s_ctrl {| ctrl_id := id1; ctrl_val := v1 |} w1)) in
  let p2 := priv (snd (imx219_s_ctrl {| ctrl_id := id2; ctrl_val := v2 |} w2)) in
  analogue_gain p1 <= analogue_gain p2 /\
  digital_gain p1 <= digital_gain p2.
Proof.
  cbv zeta.
  split; [right; reflexivity |].
  split; [left; reflexivity |].
  split; [lia |]. split; [lia |]. split; [lia |].
  apply (gain_codes_monotone V4L2_CID_GAIN V4L2_CID_ANALOGUE_GAIN 2728 2750
           (world_initial (bus_reads 0)) (world_initial bus_down));
    [right; reflexivity | left; reflexivity | lia | lia | lia].
Defined.

(** ** The wire format of a register write *)

Lemma put_unaligned_be16_value v :
  be_value (put_unaligned_be16 v) = v mod 2 ^ 16 /\
  Forall is_byte (put_unaligned_be16 v).
Proof.
  unfold put_unaligned_be16, be_value, is_byte. cbn [fold_left].
  rewrite !land_255, Z.shiftr_div_pow2 by lia.
  split.
  - change (2 ^ 16) with (2 ^ 8 * 2 ^ 8).
    rewrite Z.rem_mul_r by lia. lia.
  - repeat constructor; apply Z.mod_pos_bound; lia.
Qed.

Lemma shifted_data_bytes data len :
  1 <= len <= 4 ->
  let bytes :=
    firstn (Z.to_nat len)
      (put_unaligned_be32 (u32 (Z.shiftl data (8 * (4 - len))))) in
  be_value bytes = data mod 2 ^ (8 * len) /\
  Forall is_byte bytes /\
  length bytes = Z.to_nat len.
Proof.
  intros Hlen. cbv zeta.
  assert (Hc : len = 1 \/ len = 2 \/ len = 3 \/ len = 4) by lia.
  unfold put_unaligned_be32, be_value, is_byte, u32.
  rewrite !land_255, !Z.shiftr_div_pow2, Z.shiftl_mul_pow2 by lia.
  destruct Hc as [-> | [-> | [-> | ->]]];
    match goal with
    | |- context [firstn (Z.to_nat ?n)] =>
        let k := eval vm_compute in (Z.to_nat n) in
        change (Z.to_nat n) with k
    end;
    match goal with
    | |- context [2 ^ (8 * (4 - ?n))] =>
        let k := eval vm_compute in (8 * (4 - n)) in
        change (8 * (4 - n)) with k
    end;
    match goal with
    | |- context [2 ^ (8 * ?n)] =>
        let k := eval vm_compute in (8 * n) in
        change (8 * n) with k
    end;
    cbn [firstn fold_left length];
    (split; [| split; [repeat constructor; apply Z.mod_pos_bound; lia
                      | reflexivity]]).
  - change (2 ^ 32) with (2 ^ 8 * 2 ^ 24).
    rewrite Z.mul_mod_distr_r by lia.
    rewrite Z.div_mul by lia. rewrite Z.mod_mod by lia.
    change (2 ^ 8) with 256. lia.
  - change (2 ^ 32) with (2 ^ 16 * 2 ^ 16).
    rewrite Z.mul_mod_distr_r by lia.
    set (m := data mod 2 ^ 16).
    assert (Hm : 0 <= m < 2 ^ 16) by (apply Z.mod_pos_bound; lia).
    change (2 ^ 24) with (2 ^ 8 * 2 ^ 16).
    rewrite Z.div_mul_cancel_r by lia.
    rewrite Z.div_mul by lia.
    change (2 ^ 16) with 65536 in *. change (2 ^ 8) with 256.
    clearbody m. Z.div_mod_to_equations. lia.
  - change (2 ^ 32) with (2 ^ 24 * 2 ^ 8).
    rewrite Z.mul_mod_distr_r by lia.
    set (m := data mod 2 ^ 24).
    assert (Hm : 0 <= m < 2 ^ 24) by (apply Z.mod_pos_bound; lia).
    change (2 ^ 24) with (2 ^ 16 * 2 ^ 8).
    rewrite Z.div_mul_cancel_r by lia.
    change (2 ^ 16 * 2 ^ 8) with (2 ^ 16 * 2 ^ 8); change (2 ^ 16) with (2 ^ 8 * 2 ^ 8) at 2.
    rewrite Z.div_mul_cancel_r by lia.
    rewrite Z.div_mul by lia.
    change (2 ^ 24) with 16777216 in *. change (2 ^ 16) with 65536.
    change (2 ^ 8) with 256.
    clearbody m. Z.div_mod_to_equations. lia.
  - change (2 ^ 0) with 1. rewrite Z.mul_1_r.
    set (m := data mod 2 ^ 32).
    assert (Hm : 0 <= m < 2 ^ 32) by (apply Z.mod_pos_bound; lia).
    change (2 ^ 32) with 4294967296 in *.
    change (2 ^ 24) with 16777216. change (2 ^ 16) with 65536.
    change (2 ^ 8) with 256.
    clearbody m. Z.div_mod_to_equations. lia.
Qed.

(** X14.  A register write of 1 to 4 bytes sends one message: the two bytes
    of the register address, high byte first, then [len] bytes that are the
    low [len] bytes of the value, high byte first, so a value wider than
    the register is cut down to it; the status of the transfer is returned
    and the state is not touched.  A length above 4 is refused with
    [-EINVAL] before anything is sent. *)
Theorem reg_write_wire_format addr len data w :
  1 <= len ->
  let '(ret, w') := reg_write addr len data w in
  if 4 <? len then ret = - EINVAL /\ w' = w
  else
    ret = status (ok w (length (trace w))) /\
    priv w' = priv w /\
    exists address value,
      trace w' = trace w ++ [I2cSend (address ++ value)] /\
      length address = 2%nat /\
      length value = Z.to_nat len /\
      Forall is_byte (address ++ value) /\
      be_value address = addr mod 2 ^ 16 /\
      be_value value = data mod 2 ^ (8 * len).
Proof.
  intros Hlen.
  destruct (Z.ltb_spec 4 len) as [Hgt | Hle].
  - unfold reg_write. destruct (Z.ltb_spec 4 len); [| lia].
    split; reflexivity.
  - rewrite reg_write_run by lia.
    split; [reflexivity |]. split; [reflexivity |].
    destruct (put_unaligned_be16_value addr) as [Ha Hab].
    destruct (shifted_data_bytes data len) as (Hv & Hvb & Hvl); [lia |].
    exists (put_unaligned_be16 addr).
    exists (firstn (Z.to_nat len)
              (put_unaligned_be32 (u32 (Z.shiftl data (8 * (4 - len)))))).
    split.
    { cbn [log trace]. unfold reg_msg.
      replace (Z.to_nat (len + 2))
        with (length (put_unaligned_be16 addr) + Z.to_nat len)%nat
        by (cbn [put_unaligned_be16 length]; lia).
      rewrite firstn_app_2. reflexivity. }
    split; [reflexivity |].
    split; [exact Hvl |].
    split; [apply Forall_app; split; assumption |].
    split; assumption.
Qed.

Lemma reg_write_wire_format_witness :
  let addr := IMX219_REG_DIG_GAIN_GLOBAL_A in
  let len := REG_VALUE_16BIT in
  let data := 0x12345 in
  let w := world_initial (bus_reads 0) in
  1 <= len /\
  let '(ret, w') := reg_write addr len data w in
  if 4 <? len then ret = - EINVAL /\ w' = w
  else
    ret = status (ok w (length (trace w))) /\
    priv w' = priv w /\
    exists address value,
      trace w' = trace w ++ [I2cSend (address ++ value)] /\
      length address = 2%nat /\
      length value = Z.to_nat len /\
      Forall is_byte (address ++ value) /\
      be_value address = addr mod 2 ^ 16 /\
      be_value value = data mod 2 ^ (8 * len).
Proof.
  cbv zeta.
  split; [unfold REG_VALUE_16BIT; lia |].
  apply (reg_write_wire_format IMX219_REG_DIG_GAIN_GLOBAL_A REG_VALUE_16BIT
           0x12345 (world_initial (bus_reads 0))).
  unfold REG_VALUE_16BIT. lia.
Defined.

(** ** What the control handler returns *)

Lemma imx219_s_ctrl_colour_run id val reg w :
  colour_reg id = Some reg ->
  imx219_s_ctrl {| ctrl_id := id; ctrl_val := val |} w =
  (status (ok w (length (trace w))),
   {| ctrl_id := id; ctrl_val := val |},
   log [reg_msg reg REG_VALUE_16BIT (u16 (Z.land val 0xffff))] w).
Proof.
  destruct id; intros H; try discriminate H; injection H as <-;
    unfold imx219_s_ctrl; cbn [ctrl_id ctrl_val]; run_monad;
    run_reg_write; reflexivity.
Qed.

Lemma transfers_ok_one w w' m :
  trace w' = trace w ++ [m] ->
  transfers_ok w w' <-> ok w (length (trace w)) = true.
Proof.
  intros E. unfold transfers_ok. rewrite E, length_app. cbn [length].
  split.
  - intros H. apply H. lia.
  - intros H j Hj. replace j with (length (trace w)) by lia. exact H.
Qed.

Lemma transfers_ok_two w w' m1 m2 :
  trace w' = trace w ++ [m1; m2] ->
  transfers_ok w w' <->
  ok w (length (trace w)) = true /\ ok w (S (length (trace w))) = true.
Proof.
  intros E. unfold transfers_ok. rewrite E, length_app. cbn [length].
  split.
  - intros H. split; apply H; lia.
  - intros [H1 H2] j Hj.
    assert (Hc : j = length (trace w) \/ j = S (length (trace w))) by lia.
    destruct Hc as [-> | ->]; assumption.
Qed.

Lemma transfers_ok_log_one w m :
  transfers_ok w (log [m] w) <-> ok w (length (trace w)) = true.
Proof. apply (transfers_ok_one w _ m). reflexivity. Qed.

Lemma transfers_ok_log_one_priv w p m :
  transfers_ok w (log [m] (with_priv p w)) <->
  ok w (length (trace w)) = true.
Proof. apply (transfers_ok_one w _ m). reflexivity. Qed.

Lemma transfers_ok_log_two_priv w p m1 m2 :
  transfers_ok w (log [m1; m2] (with_priv p w)) <->
  ok w (length (trace w)) = true /\ ok w (S (length (trace w))) = true.
Proof. apply (transfers_ok_two w _ m1 m2). reflexivity. Qed.

Lemma status_cases b :
  (status b = 0 \/ status b = - EIO \/ status b = - EINVAL) /\
  status b <> - EINVAL /\
  (status b = 0 <-> b = true).
Proof.
  destruct b; cbn [status]; unfold EIO, EINVAL;
    (split; [auto |]); (split; [discriminate |]);
    split; intros H; try reflexivity; discriminate H.
Qed.

(** The part of the status theorem shared by the controls that make one
    register write. *)
Ltac one_write_status w :=
  destruct (status_cases (ok w (length (trace w)))) as (Hc & Hne & Hz);
  split; [exact Hc |];
  split; [split; [intros Hx; contradiction | intros [? Hx]; discriminate Hx] |];
  split; [intros Hx; contradiction |];
  split; [intros _ _; rewrite Hz; symmetry;
          first [apply transfers_ok_log_one_priv
                | apply transfers_ok_log_one] |];
  intros Hx; wrong_cid Hx.

(** X15.  On a control whose handling the C code defines (a test-pattern
    control carries an index of the pattern table, 0 to 4; any value of
    any other control), the control handler returns 0, [-EIO] or
    [-EINVAL].  It returns [-EINVAL] exactly for the identifiers it has no
    case for, and then it has touched neither the device nor the state nor
    the control.  For the controls that write registers, it returns 0
    exactly when every transfer it made succeeded; for the two flips,
    exactly when the mode-select read succeeded. *)
Theorem s_ctrl_status ctrl w :
  s_ctrl_defined ctrl = true ->
  let '(ret, c, w') := imx219_s_ctrl ctrl w in
  (ret = 0 \/ ret = - EIO \/ ret = - EINVAL) /\
  (ret = - EINVAL <-> exists id, ctrl_id ctrl = V4L2_CID_OTHER id) /\
  (ret = - EINVAL -> w' = w /\ c = ctrl) /\
  (~ flip_cid (ctrl_id ctrl) -> ret <> - EINVAL ->
   (ret = 0 <-> transfers_ok w w')) /\
  (flip_cid (ctrl_id ctrl) ->
   (ret = 0 <-> ok w (length (trace w)) = true)).
Proof.
  intros _. destruct ctrl as [id val]. cbn [ctrl_id].
  destruct id.
  1-2: rewrite imx219_s_ctrl_flip_run by (first [left; reflexivity
                                                | right; reflexivity]);
    rewrite s_ctrl_after_switch_run;
    unfold ok, transfer_ok; cbn [with_priv bus trace];
    destruct (bus w (length (trace w))) as [v |];
    [destruct (Z.land (v mod 2 ^ 8) 31 =? 1) |];
    unfold EIO, EINVAL;
    (split; [auto |]);
    (split; [split; [intros Hx; discriminate Hx
                    | intros [? Hx]; discriminate Hx] |]);
    (split; [intros Hx; discriminate Hx |]);
    (split; [intros Hx; contradiction Hx;
             first [left; reflexivity | right; reflexivity] |]);
    intros _; split; intros Hx; first [reflexivity | discriminate Hx].
  1-2: rewrite imx219_s_ctrl_gain_run by (first [left; reflexivity
                                                | right; reflexivity]);
    (split;
     [destruct (ok w (length (trace w))), (ok w (S (length (trace w))));
      cbn; auto |]);
    (split;
     [split;
      [destruct (ok w (length (trace w))), (ok w (S (length (trace w))));
       intros Hx; discriminate Hx
      | intros [? Hx]; discriminate Hx] |]);
    (split;
     [destruct (ok w (length (trace w))), (ok w (S (length (trace w))));
      intros Hx; discriminate Hx |]);
    (split; [| intros Hx; wrong_cid Hx]);
    intros _ _;
    rewrite transfers_ok_log_two_priv;
    destruct (ok w (length (trace w))), (ok w (S (length (trace w))));
    cbn; split; intros Hx; try reflexivity; try discriminate Hx;
    try (split; reflexivity); destruct Hx as [Hx1 Hx2];
    discriminate.
  - rewrite imx219_s_ctrl_exposure_run. one_write_status w.
  - rewrite imx219_s_ctrl_test_pattern_run. one_write_status w.
  - rewrite (imx219_s_ctrl_colour_run V4L2_CID_TEST_PATTERN_RED val _ w eq_refl).
    one_write_status w.
  - rewrite (imx219_s_ctrl_colour_run V4L2_CID_TEST_PATTERN_GREENR val _ w eq_refl).
    one_write_status w.
  - rewrite (imx219_s_ctrl_colour_run V4L2_CID_TEST_PATTERN_BLUE val _ w eq_refl).
    one_write_status w.
  - rewrite (imx219_s_ctrl_colour_run V4L2_CID_TEST_PATTERN_GREENB val _ w eq_refl).
    one_write_status w.
  - rewrite imx219_s_ctrl_vblank_run. one_write_status w.
  - cbn. split; [auto |].
    split; [split; [intros _; exists id; reflexivity | reflexivity] |].
    split; [intros _; split; reflexivity |].
    split; [intros _ Hx; contradiction Hx; reflexivity |].
    intros Hx; wrong_cid Hx.
Qed.

(** The last pattern of the menu on a dead bus: the one write fails. *)
Lemma s_ctrl_status_witness :
  let ctrl := {| ctrl_id := V4L2_CID_TEST_PATTERN; ctrl_val := 4 |} in
  let w := world_initial bus_down in
  s_ctrl_defined ctrl = true /\
  fst (fst (imx219_s_ctrl ctrl w)) = - EIO /\
  let '(ret, c, w') := imx219_s_ctrl ctrl w in
  (ret = 0 \/ ret = - EIO \/ ret = - EINVAL) /\
  (ret = - EINVAL <-> exists id, ctrl_id ctrl = V4L2_CID_OTHER id) /\
  (ret = - EINVAL -> w' = w /\ c = ctrl) /\
  (~ flip_cid (ctrl_id ctrl) -> ret <> - EINVAL ->
   (ret = 0 <-> transfers_ok w w')) /\
  (flip_cid (ctrl_id ctrl) ->
   (ret = 0 <-> ok w (length (trace w)) = true)).
Proof.
  cbv zeta.
  split; [reflexivity |].
  split; [reflexivity |].
  apply (s_ctrl_status {| ctrl_id := V4L2_CID_TEST_PATTERN; ctrl_val := 4 |}
           (world_initial bus_down)).
  reflexivity.
Defined.

(** ** The HDR configuration *)

Lemma imx219_ioctl_get_hdr_cfg_run hdr w :
  imx219_ioctl (RKMODULE_GET_HDR_CFG hdr) w =
  (0,
   RKMODULE_GET_HDR_CFG
     {| cfg_hdr_mode := hdr_mode (cur_mode (priv w));
        esp_mode := if hdr_mode (cur_mode (priv w)) =? NO_HDR
                    then HDR_NORMAL_VC else HDR_ID_CODE |},
   w).
Proof. reflexivity. Qed.

(** X16.  Setting the HDR configuration succeeds exactly for the tag
    [NO_HDR]; any other tag is refused with [-EINVAL] and nothing is
    changed.  After a successful set, getting the configuration returns
    the tag that was set, with the normal virtual-channel mode. *)
Theorem hdr_cfg_set_then_get hdr hdr0 w :
  let '(ret, _, w1) := imx219_ioctl (RKMODULE_SET_HDR_CFG hdr) w in
  (ret = 0 <-> cfg_hdr_mode hdr = NO_HDR) /\
  (ret <> 0 -> ret = - EINVAL /\ w1 = w) /\
  (ret = 0 ->
   imx219_ioctl (RKMODULE_GET_HDR_CFG hdr0) w1 =
   (0, RKMODULE_GET_HDR_CFG
         {| cfg_hdr_mode := cfg_hdr_mode hdr; esp_mode := HDR_NORMAL_VC |},
    w1)).
Proof.
  rewrite imx219_ioctl_set_hdr_cfg_run.
  destruct (Z.eqb_spec (cfg_hdr_mode hdr) NO_HDR) as [E | NE].
  - split; [tauto |].
    split; [intros H; contradiction H; reflexivity |].
    intros _. rewrite E. reflexivity.
  - unfold EINVAL.
    split; [split; intros H; [discriminate H | contradiction] |].
    split; [intros _; split; reflexivity |].
    intros H. discriminate H.
Qed.

(** X17.  Writing back the HDR configuration that has just been read is
    accepted, and it selects the first catalog entry whatever the current
    mode was: afterwards the active format is 1920x1080 and the recorded
    frame length is that entry's, without the exposure margin.  With the
    3280x2464 mode selected, reading and writing back the configuration
    changes the frame size. *)
Theorem hdr_cfg_write_back_resets_mode hdr0 w :
  In (cur_mode (priv w)) supported_modes ->
  let '(ret_get, arg, w1) := imx219_ioctl (RKMODULE_GET_HDR_CFG hdr0) w in
  ret_get = 0 /\ w1 = w /\
  exists hdr, arg = RKMODULE_GET_HDR_CFG hdr /\
    let '(ret_set, _, w2) := imx219_ioctl (RKMODULE_SET_HDR_CFG hdr) w1 in
    ret_set = 0 /\
    cur_mode (priv w2) = mode_1920_1080 /\
    cur_vts (priv w2) = vts_def mode_1920_1080 /\
    let '(_, fmt, _) := imx219_get_fmt active_format_query w2 in
    f_width (format fmt) = 1920 /\ f_height (format fmt) = 1080.
Proof.
  intros Hin. rewrite imx219_ioctl_get_hdr_cfg_run.
  split; [reflexivity |]. split; [reflexivity |].
  eexists. split; [reflexivity |].
  rewrite imx219_ioctl_set_hdr_cfg_run. cbn [cfg_hdr_mode].
  assert (E : hdr_mode (cur_mode (priv w)) = NO_HDR)
    by (destruct Hin as [<- | [<- | []]]; reflexivity).
  rewrite E. change (NO_HDR =? NO_HDR) with true. cbv iota.
  repeat split.
Qed.

Lemma hdr_cfg_write_back_resets_mode_witness :
  let hdr0 := hdr_cfg 7 in
  let w := world_3280_2464 in
  In (cur_mode (priv w)) supported_modes /\
  cur_mode (priv w) = mode_3280_2464 /\
  let '(ret_get, arg, w1) := imx219_ioctl (RKMODULE_GET_HDR_CFG hdr0) w in
  ret_get = 0 /\ w1 = w /\
  exists hdr, arg = RKMODULE_GET_HDR_CFG hdr /\
    let '(ret_set, _, w2) := imx219_ioctl (RKMODULE_SET_HDR_CFG hdr) w1 in
    ret_set = 0 /\
    cur_mode (priv w2) = mode_1920_1080 /\
    cur_vts (priv w2) = vts_def mode_1920_1080 /\
    let '(_, fmt, _) := imx219_get_fmt active_format_query w2 in
    f_width (format fmt) = 1920 /\ f_height (format fmt) = 1080.
Proof.
  cbv zeta.
  split; [right; left; reflexivity |].
  split; [reflexivity |].
  apply (hdr_cfg_write_back_resets_mode (hdr_cfg 7) world_3280_2464).
  right. left. reflexivity.
Defined.

(** ** The 32-bit compatibility entry point *)

(** X18.  The 32-bit entry point runs no command when it cannot set up its
    argument: a failed allocation returns [-ENOMEM], a copy from user
    memory that leaves bytes behind returns their number, and a command it
    does not know returns [-ENOIOCTLCMD]; in all three cases the device and
    the state are untouched and nothing is copied out.  The two reading
    commands return what the copy to user memory returns. *)
Theorem compat_ioctl32_fails_before_the_command env cmd w :
  let '(ret, out, w') := imx219_compat_ioctl32 env cmd w in
  (allocates cmd = true -> kzalloc_ok env = false ->
   ret = - ENOMEM /\ out = OutNothing /\ w' = w) /\
  (copies_in cmd = true ->
   (allocates cmd = true -> kzalloc_ok env = true) ->
   copy_from_user_left env <> 0 ->
   ret = copy_from_user_left env /\ out = OutNothing /\ w' = w) /\
  (allocates cmd = false -> copies_in cmd = false ->
   ret = - ENOIOCTLCMD /\ out = OutNothing /\ w' = w) /\
  (allocates cmd = true -> copies_in cmd = false ->
   kzalloc_ok env = true ->
   ret = copy_to_user_left env /\ out <> OutNothing /\ w' = w).
Proof.
  destruct cmd as [| | up | up | c]; cbn [imx219_compat_ioctl32 allocates copies_in].
  - destruct (kzalloc_ok env); cbn [negb]; run_monad; cbn [imx219_ioctl];
      unfold pure; change (nonzero 0) with false; cbn [negb];
      repeat split; try discriminate; intros; try discriminate.
  - destruct (kzalloc_ok env); cbn [negb]; run_monad; cbn [imx219_ioctl];
      run_monad; change (nonzero 0) with false; cbn [negb];
      repeat split; try discriminate; intros; try discriminate.
  - destruct (kzalloc_ok env); cbn [negb]; cbv zeta; unfold nonzero.
    + destruct (Z.eqb_spec (copy_from_user_left env) 0) as [E | NE];
        cbn [negb].
      * destruct (bind _ _ w) as [[ret out] w'].
        split; [intros _ H; discriminate H |].
        split; [intros _ _ H; contradiction |].
        split; [intros H; discriminate H | intros _ H; discriminate H].
      * unfold pure.
        split; [intros _ H; discriminate H |].
        split; [intros _ _ _; repeat split |].
        split; [intros H; discriminate H | intros _ H; discriminate H].
    + unfold pure.
      split; [intros _ _; repeat split |].
      split; [intros _ H; specialize (H eq_refl); discriminate H |].
      split; [intros H; discriminate H | intros _ H; discriminate H].
  - cbv zeta. unfold nonzero.
    destruct (Z.eqb_spec (copy_from_user_left env) 0) as [E | NE];
      cbn [negb].
    + destruct (bind _ _ w) as [[ret out] w'].
      split; [intros H; discriminate H |].
      split; [intros _ _ H; contradiction |].
      split; [intros _ H; discriminate H |].
      intros H; discriminate H.
    + unfold pure.
      split; [intros H; discriminate H |].
      split; [intros _ _ _; repeat split |].
      split; [intros _ H; discriminate H |].
      intros H; discriminate H.
  - unfold pure.
    split; [intros H; discriminate H |].
    split; [intros H; discriminate H |].
    split; [intros _ _; repeat split |].
    intros H; discriminate H.
Qed.

Lemma le_value_low_byte b0 rest :
  is_byte b0 -> le_value (b0 :: rest) mod 256 = b0.
Proof.
  unfold is_byte, le_value. cbn [fold_right]. intros H.
  rewrite (Z.mul_comm 256), Z.mod_add by lia.
  apply Z.mod_small. exact H.
Qed.

(** X19.  Through the 32-bit entry point the quick-stream command sees one
    byte of the user's value, the lowest one on a little-endian machine:
    it does what the native command does with that byte.  For a value that
    is not 0 but whose low byte is 0, such as 256, the 32-bit entry point
    stops the stream where the native command starts it. *)
Theorem compat_quick_stream_reads_one_byte env b0 rest w :
  copy_from_user_left env = 0 ->
  is_byte b0 ->
  let stream := le_value (b0 :: rest) in
  let '(ret, _, w') :=
    imx219_compat_ioctl32 env (COMPAT_SET_QUICK_STREAM (b0 :: rest)) w in
  let '(ret_low, _, w_low) :=
    imx219_ioctl (RKMODULE_SET_QUICK_STREAM (stream mod 256)) w in
  let '(_, _, w_native) :=
    imx219_ioctl (RKMODULE_SET_QUICK_STREAM stream) w in
  ret = ret_low /\ w' = w_low /\
  (b0 = 0 -> stream <> 0 ->
   trace w' = trace w ++ [stream_disable_msg] /\
   trace w_native = trace w ++ [stream_enable_msg]).
Proof.
  intros Hcopy Hb0. cbv zeta.
  rewrite (le_value_low_byte b0 rest Hb0).
  cbn [imx219_compat_ioctl32]. cbv zeta. rewrite Hcopy.
  change (nonzero 0) with false. cbn [negb nth].
  unfold bind at 1. rewrite !imx219_ioctl_quick_stream_run.
  unfold pure.
  split; [reflexivity |]. split; [reflexivity |].
  intros -> Hs. change (nonzero 0) with false. cbv iota.
  unfold nonzero.
  destruct (Z.eqb_spec (le_value (0 :: rest)) 0) as [E0 | _];
    [contradiction |].
  split; reflexivity.
Qed.

Lemma compat_quick_stream_reads_one_byte_witness :
  let env := {| kzalloc_ok := true; copy_from_user_left := 0;
                copy_to_user_left := 0 |} in
  let b0 := 0 in
  let rest := [1; 0; 0] in
  let w := world_initial (bus_reads 0) in
  copy_from_user_left env = 0 /\
  is_byte b0 /\
  let stream := le_value (b0 :: rest) in
  stream = 256 /\
  let '(ret, _, w') :=
    imx219_compat_ioctl32 env (COMPAT_SET_QUICK_STREAM (b0 :: rest)) w in
  let '(ret_low, _, w_low) :=
    imx219_ioctl (RKMODULE_SET_QUICK_STREAM (stream mod 256)) w in
  let '(_, _, w_native) :=
    imx219_ioctl (RKMODULE_SET_QUICK_STREAM stream) w in
  ret = ret_low /\ w' = w_low /\
  (b0 = 0 -> stream <> 0 ->
   trace w' = trace w ++ [stream_disable_msg] /\
   trace w_native = trace w ++ [stream_enable_msg]).
Proof.
  cbv zeta.
  split; [reflexivity |].
  split; [unfold is_byte; lia |].
  split; [reflexivity |].
  apply (compat_quick_stream_reads_one_byte
           {| kzalloc_ok := true; copy_from_user_left := 0;
              copy_to_user_left := 0 |} 0 [1; 0; 0]
           (world_initial (bus_reads 0)));
    [reflexivity | unfold is_byte; lia].
Defined.

(** ** Control registration *)

Lemma imx219_s_ctrl_handled ctrl w :
  handled_cid (ctrl_id ctrl) ->
  fst (fst (imx219_s_ctrl ctrl w)) <> - EINVAL.
Proof.
  destruct ctrl as [id val]. cbn [ctrl_id]. intros Hid.
  destruct id.
  1-2: rewrite imx219_s_ctrl_flip_run by (first [left; reflexivity
                                                | right; reflexivity]);
    rewrite s_ctrl_after_switch_run;
    destruct (bus _ _) as [v |];
    [destruct (Z.land (v mod 2 ^ 8) 31 =? 1) |]; cbn [fst];
    unfold EIO, EINVAL; discriminate.
  1-2: rewrite imx219_s_ctrl_gain_run by (first [left; reflexivity
                                                | right; reflexivity]);
    cbn [fst];
    destruct (ok w (length (trace w))), (ok w (S (length (trace w))));
    discriminate.
  - rewrite imx219_s_ctrl_exposure_run. apply status_cases.
  - rewrite imx219_s_ctrl_test_pattern_run. apply status_cases.
  - rewrite (imx219_s_ctrl_colour_run V4L2_CID_TEST_PATTERN_RED val _ w
               eq_refl). apply status_cases.
  - rewrite (imx219_s_ctrl_colour_run V4L2_CID_TEST_PATTERN_GREENR val _ w
               eq_refl). apply status_cases.
  - rewrite (imx219_s_ctrl_colour_run V4L2_CID_TEST_PATTERN_BLUE val _ w
               eq_refl). apply status_cases.
  - rewrite (imx219_s_ctrl_colour_run V4L2_CID_TEST_PATTERN_GREENB val _ w
               eq_refl). apply status_cases.
  - rewrite imx219_s_ctrl_vblank_run. apply status_cases.
  - contradiction (Hid id). reflexivity.
Qed.

(** Finds an element of a list given by its elements. *)
Ltac in_search := (left; reflexivity) + (right; in_search).

(** X20.  The controls created with the driver's operations are handled
    ones: for each of them the handler has a case and never returns
    [-EINVAL], the default lies within the range, every value of the range
    fits 16 bits, so that the handler does not cut it down, and every
    value of the test-pattern menu is an index of the pattern table.
    Conversely every identifier the handler has a case for is created, 14
    controls in all, with the driver's operations except for the vertical
    blank, which is created without them.  The call returns 0 exactly when
    no creation failed and the setup did not return a negative value;
    otherwise it returns the error and has freed the handler. *)
Theorem ctrls_init_registers_the_handled_controls handler_error setup_ret w :
  let '(ret, decls, freed, w') :=
    imx219_ctrls_init handler_error setup_ret w in
  w' = w /\
  length decls = 14%nat /\
  (forall d, In d decls -> decl_ops d = true ->
     handled_cid (decl_id d) /\
     decl_min d <= decl_def d <= decl_max d /\
     forall val, decl_min d <= val <= decl_max d ->
       0 <= val < 2 ^ 16 /\
       (decl_id d = V4L2_CID_TEST_PATTERN ->
        (Z.to_nat val < length test_pattern_val)%nat) /\
       forall w1,
         fst (fst (imx219_s_ctrl
                     {| ctrl_id := decl_id d; ctrl_val := val |} w1))
         <> - EINVAL) /\
  (forall id, handled_cid id ->
     exists d, In d decls /\ decl_id d = id /\
       (decl_ops d = true <-> id <> V4L2_CID_VBLANK)) /\
  (ret = 0 <-> handler_error = 0 /\ 0 <= setup_ret) /\
  (ret <> 0 -> freed = true) /\
  (ret = 0 -> freed = false).
Proof.
  unfold imx219_ctrls_init. run_monad.
  set (decls := ctrl_decls (cur_mode (priv w))).
  assert (Hdecls :
    length decls = 14%nat /\
    (forall d, In d decls -> decl_ops d = true ->
       handled_cid (decl_id d) /\
       decl_min d <= decl_def d <= decl_max d /\
       forall val, decl_min d <= val <= decl_max d ->
         0 <= val < 2 ^ 16 /\
         (decl_id d = V4L2_CID_TEST_PATTERN ->
          (Z.to_nat val < length test_pattern_val)%nat) /\
         forall w1,
           fst (fst (imx219_s_ctrl
                       {| ctrl_id := decl_id d; ctrl_val := val |} w1))
           <> - EINVAL) /\
    (forall id, handled_cid id ->
       exists d, In d decls /\ decl_id d = id /\
         (decl_ops d = true <-> id <> V4L2_CID_VBLANK))).
  { split; [reflexivity |]. split.
    - intros d Hin Hops. unfold decls, ctrl_decls in Hin.
      cbn [app colour_decls In] in Hin.
      repeat (destruct Hin as [<- | Hin]; [| try contradiction]);
        try discriminate Hops;
        cbn [decl_id decl_min decl_max decl_def test_pattern_colour_cid nth];
        (split; [intros n Hn; discriminate Hn |]);
        (split; [vm_compute; split; discriminate |]);
        intros val Hval;
        (split; [revert Hval;
                 unfold IMX219_ANALOGUE_GAIN_MIN, IMX219_ANALOGUE_GAIN_MAX,
                   IMX219_ANALOGUE_GAIN_MULTIPLIER, IMX219_DIGITAL_GAIN_MIN,
                   IMX219_DIGITAL_GAIN_MAX, IMX219_DIGITAL_EXPOSURE_MIN,
                   IMX219_DIGITAL_EXPOSURE_MAX, IMX219_TESTP_COLOUR_MIN,
                   IMX219_TESTP_COLOUR_MAX;
                 cbn [length test_pattern_menu]; lia |]);
        (split; [| intros w1; apply imx219_s_ctrl_handled;
                   intros n Hn; discriminate Hn]);
        intros Hid; try discriminate Hid.
      revert Hval. cbn [length test_pattern_menu test_pattern_val]. lia.
    - intros id Hid.
      destruct id;
        try (eexists;
             (split;
              [unfold decls, ctrl_decls; cbn [app colour_decls In];
               cbn [test_pattern_colour_cid nth]; in_search |]);
             (split; [reflexivity |]);
             cbn [decl_ops];
             split; intros Hx;
             first [reflexivity | discriminate Hx
                   | contradiction Hx; reflexivity | discriminate]).
      contradiction (Hid id). reflexivity. }
  destruct Hdecls as (Hlen & Hops & Hall).
  unfold nonzero.
  destruct (Z.eqb_spec handler_error 0) as [E | NE]; cbn [negb].
  - destruct (Z.ltb_spec setup_ret 0) as [Hneg | Hpos].
    + split; [reflexivity |].
      split; [exact Hlen |]. split; [exact Hops |]. split; [exact Hall |].
      split; [split; [intros Hr; lia | intros [_ Hr]; lia] |].
      split; [intros _; reflexivity | intros Hr; lia].
    + split; [reflexivity |].
      split; [exact Hlen |]. split; [exact Hops |]. split; [exact Hall |].
      split; [split; [intros _; split; assumption | reflexivity] |].
      split; [intros Hr; contradiction Hr; reflexivity | reflexivity].
  - split; [reflexivity |].
      split; [exact Hlen |]. split; [exact Hops |]. split; [exact Hall |].
    split; [split; [intros Hr; contradiction | intros [Hr _]; contradiction] |].
    split; [intros _; reflexivity | intros Hr; contradiction].
Qed.

(** X21.  The ranges created for the derived controls differ from those
    a format change publishes for the same mode.  The horizontal blank is
    the same single value.  The vertical blank is created as a single
    value, while a format change publishes it up to [IMX219_VTS_MAX] less
    the height, which is more; the pixel rate is created with the minimum
    0, while a format change publishes it as a single value.  Setting the
    format of the current mode keeps the mode and publishes the three
    ranges anew. *)
Theorem ctrls_init_ranges_versus_set_fmt handler_error setup_ret w :
  In (cur_mode (priv w)) supported_modes ->
  let mode := cur_mode (priv w) in
  let h := h_blank_of mode in
  let v := v_blank_of mode in
  let r := pixel_rate_of mode in
  let '(_, decls, _, _) := imx219_ctrls_init handler_error setup_ret w in
  let '(_, _, w') :=
    imx219_set_fmt
      (request V4L2_SUBDEV_FORMAT_ACTIVE (width mode) (height mode)) w in
  In (ctrl_decl_of false V4L2_CID_HBLANK h h 1 h) decls /\
  In (ctrl_decl_of false V4L2_CID_VBLANK v v 1 v) decls /\
  In (ctrl_decl_of false V4L2_CID_PIXEL_RATE 0 r 1 r) decls /\
  cur_mode (priv w') = mode /\
  trace w' =
    trace w ++
    [CtrlModifyRange HBLANK h h 1 h;
     CtrlModifyRange VBLANK v (IMX219_VTS_MAX - height mode) 1 v;
     CtrlModifyRange PIXEL_RATE r r 1 r] /\
  v < IMX219_VTS_MAX - height mode /\
  0 < r.
Proof.
  intros Hin. cbv zeta.
  rewrite imx219_set_fmt_active by reflexivity.
  rewrite (imx219_find_best_fit_exact (cur_mode (priv w)) _ Hin)
    by reflexivity.
  assert (Hdecls :
    imx219_ctrls_init handler_error setup_ret w =
    (fst (fst (fst (imx219_ctrls_init handler_error setup_ret w))),
     ctrl_decls (cur_mode (priv w)),
     snd (fst (imx219_ctrls_init handler_error setup_ret w)), w)).
  { unfold imx219_ctrls_init. run_monad.
    destruct (nonzero handler_error); [reflexivity |].
    destruct (setup_ret <? 0); reflexivity. }
  rewrite Hdecls. clear Hdecls.
  cbn [log with_priv priv trace set_cur_mode cur_mode].
  unfold hblank_range, vblank_range, pixel_rate_range.
  generalize (trace w). intros t.
  destruct Hin as [<- | [<- | []]].
  - split; [unfold ctrl_decls; cbn [app colour_decls In]; in_search |].
    split; [unfold ctrl_decls; cbn [app colour_decls In]; in_search |].
    split; [unfold ctrl_decls; cbn [app colour_decls In]; in_search |].
    split; [reflexivity |]. split; [reflexivity |].
    split; vm_compute; reflexivity.
  - split; [unfold ctrl_decls; cbn [app colour_decls In]; in_search |].
    split; [unfold ctrl_decls; cbn [app colour_decls In]; in_search |].
    split; [unfold ctrl_decls; cbn [app colour_decls In]; in_search |].
    split; [reflexivity |]. split; [reflexivity |].
    split; vm_compute; reflexivity.
Qed.

Lemma ctrls_init_ranges_versus_set_fmt_witness :
  let handler_error := 0 in
  let setup_ret := 0 in
  let w := world_initial (bus_reads 0) in
  In (cur_mode (priv w)) supported_modes /\
  let mode := cur_mode (priv w) in
  let h := h_blank_of mode in
  let v := v_blank_of mode in
  let r := pixel_rate_of mode in
  let '(_, decls, _, _) := imx219_ctrls_init handler_error setup_ret w in
  let '(_, _, w') :=
    imx219_set_fmt
      (request V4L2_SUBDEV_FORMAT_ACTIVE (width mode) (height mode)) w in
  In (ctrl_decl_of false V4L2_CID_HBLANK h h 1 h) decls /\
  In (ctrl_decl_of false V4L2_CID_VBLANK v v 1 v) decls /\
  In (ctrl_decl_of false V4L2_CID_PIXEL_RATE 0 r 1 r) decls /\
  cur_mode (priv w') = mode /\
  trace w' =
    trace w ++
    [CtrlModifyRange HBLANK h h 1 h;
     CtrlModifyRange VBLANK v (IMX219_VTS_MAX - height mode) 1 v;
     CtrlModifyRange PIXEL_RATE r r 1 r] /\
  v < IMX219_VTS_MAX - height mode /\
  0 < r.
Proof.
  cbv zeta.
  split; [left; reflexivity |].
  apply (ctrls_init_ranges_versus_set_fmt 0 0 (world_initial (bus_reads 0))).
  left. reflexivity.
Defined.

(** ** The state between calls *)

Lemma keeps_priv_pure {A} (a : A) : keeps_priv (pure a).
Proof. intros w. reflexivity. Qed.

Lemma keeps_priv_bind {A B} (m : M A) (k : A -> M B) :
  keeps_priv m -> (forall a, keeps_priv (k a)) -> keeps_priv (bind m k).
Proof.
  intros Hm Hk w. unfold bind. specialize (Hm w).
  destruct (m w) as [a w1]. cbn [snd] in Hm. rewrite Hk. exact Hm.
Qed.

Lemma keeps_priv_get_priv : keeps_priv get_priv.
Proof. intros w. reflexivity. Qed.

Lemma keeps_priv_next_reply : keeps_priv next_reply.
Proof. intros w. reflexivity. Qed.

Lemma keeps_priv_emit e : keeps_priv (emit e).
Proof. intros w. reflexivity. Qed.

Create HintDb keeps_priv.

#[local] Hint Resolve keeps_priv_pure keeps_priv_get_priv
  keeps_priv_next_reply keeps_priv_emit : keeps_priv.

Ltac keeps_priv_walk :=
  repeat first
    [ progress auto with keeps_priv
    | apply keeps_priv_bind; [| intros ?]
    | match goal with
      | |- keeps_priv (if ?b then _ else _) => destruct b
      | |- keeps_priv (match ?x with _ => _ end) => destruct x
      | |- keeps_priv (let '(_, _) := ?x in _) => destruct x
      end ].

Lemma keeps_priv_reg_write addr len data : keeps_priv (reg_write addr len data).
Proof. unfold reg_write, i2c_master_send. keeps_priv_walk. Qed.

Lemma keeps_priv_reg_read addr len val : keeps_priv (reg_read addr len val).
Proof. unfold reg_read, i2c_transfer. keeps_priv_walk. Qed.

#[local] Hint Resolve keeps_priv_reg_write keeps_priv_reg_read : keeps_priv.

Lemma keeps_priv_reg_write_table table : keeps_priv (reg_write_table table).
Proof.
  induction table as [| reg rest IH]; cbn [reg_write_table];
    keeps_priv_walk.
Qed.

#[local] Hint Resolve keeps_priv_reg_write_table : keeps_priv.

Lemma keeps_priv_s_power on : keeps_priv (imx219_s_power on).
Proof. unfold imx219_s_power. keeps_priv_walk. Qed.

#[local] Hint Resolve keeps_priv_s_power : keeps_priv.

Lemma keeps_priv_video_probe : keeps_priv imx219_video_probe.
Proof. unfold imx219_video_probe, video_probe_done. keeps_priv_walk. Qed.

Lemma keeps_priv_get_fmt fmt : keeps_priv (imx219_get_fmt fmt).
Proof. unfold imx219_get_fmt. keeps_priv_walk. Qed.

Lemma keeps_priv_enum_mbus_code code : keeps_priv (imx219_enum_mbus_code code).
Proof. unfold imx219_enum_mbus_code. keeps_priv_walk. Qed.

Lemma keeps_priv_enum_frame_interval fie :
  keeps_priv (imx219_enum_frame_interval fie).
Proof. unfold imx219_enum_frame_interval. keeps_priv_walk. Qed.

Lemma keeps_priv_g_frame_interval fi :
  keeps_priv (imx219_g_frame_interval fi).
Proof. unfold imx219_g_frame_interval. keeps_priv_walk. Qed.

Lemma keeps_priv_ctrls_init handler_error setup_ret :
  keeps_priv (imx219_ctrls_init handler_error setup_ret).
Proof. unfold imx219_ctrls_init. keeps_priv_walk. Qed.

(** Within the pattern table the value stored is the index itself. *)
Lemma test_pattern_val_nth val :
  0 <= val <= 4 -> u16 (nth (Z.to_nat val) test_pattern_val 0) = val.
Proof.
  intros H.
  assert (Hc : val = 0 \/ val = 1 \/ val = 2 \/ val = 3 \/ val = 4) by lia.
  destruct Hc as [-> | [-> | [-> | [-> | ->]]]]; reflexivity.
Qed.

Lemma s_ctrl_defined_test_pattern val :
  s_ctrl_defined {| ctrl_id := V4L2_CID_TEST_PATTERN; ctrl_val := val |}
  = true ->
  0 <= val <= 4.
Proof.
  unfold s_ctrl_defined. cbn [ctrl_id ctrl_val length test_pattern_val].
  intros H. apply andb_true_iff in H. destruct H as [H1 H2].
  apply Z.leb_le in H1. apply Z.ltb_lt in H2. lia.
Qed.

Lemma state_ok_initial : state_ok priv_initial.
Proof.
  unfold state_ok, priv_initial.
  cbn [cur_mode cfg_num analogue_gain digital_gain exposure_time
       test_pattern cur_vts].
  split; [left; reflexivity |]. split; [reflexivity |].
  repeat split; lia.
Qed.

Lemma state_ok_resync_vts p : state_ok p -> state_ok (resync_vts p).
Proof.
  unfold state_ok, resync_vts.
  cbn [set_cur_vts cur_mode cfg_num analogue_gain digital_gain
       exposure_time test_pattern cur_vts].
  intros (Hm & Hc & Ha & Hd & He & Ht & Hv).
  repeat (split; [assumption |]).
  apply Z.mod_pos_bound. lia.
Qed.

Lemma state_ok_store_flip ctrl p : state_ok p -> state_ok (store_flip ctrl p).
Proof. intros H. unfold store_flip. destruct (ctrl_id ctrl); exact H. Qed.

Lemma state_ok_s_stream enable w :
  state_ok (priv w) -> state_ok (priv (snd (imx219_s_stream enable w))).
Proof.
  intros Hok. destruct (nonzero enable) eqn:Hen.
  - destruct (imx219_s_stream_start_run enable w Hen)
      as [[E _] | (j & _ & _ & _ & E)]; rewrite E;
      cbn [snd log with_priv priv].
    + apply state_ok_resync_vts. exact Hok.
    + destruct (_ <? _)%nat; [apply state_ok_resync_vts |]; exact Hok.
  - unfold imx219_s_stream. run_monad. rewrite Hen. cbn [negb].
    rewrite keeps_priv_reg_write_table. exact Hok.
Qed.

Lemma state_ok_s_ctrl ctrl w :
  s_ctrl_defined ctrl = true ->
  state_ok (priv w) -> state_ok (priv (snd (imx219_s_ctrl ctrl w))).
Proof.
  intros Hdef Hok. destruct ctrl as [id val].
  destruct id.
  1-2: rewrite imx219_s_ctrl_flip_run by (first [left; reflexivity
                                                | right; reflexivity]);
    rewrite s_ctrl_after_switch_run;
    destruct (bus _ _) as [v |];
    [destruct (Z.land (v mod 2 ^ 8) 31 =? 1) |]; cbn [snd];
    try apply state_ok_s_stream;
    cbn [log with_priv priv]; apply state_ok_store_flip; exact Hok.
  1-2: rewrite imx219_s_ctrl_gain_run by (first [left; reflexivity
                                                | right; reflexivity]);
    cbn [snd log with_priv priv]; rewrite gain_case_codes_low16;
    pose proof (apply_gain_floor_bounds (val mod 2 ^ 16)) as Hb;
    destruct (apply_gain_floor (val mod 2 ^ 16)) as [a d];
    cbn [fst snd]; destruct Hb as (Ha & Hd & _);
    destruct Hok as (Hm & Hc & _ & _ & He & Ht & Hv);
    unfold state_ok;
    cbn [set_digital_gain set_analogue_gain cur_mode cfg_num analogue_gain
         digital_gain exposure_time test_pattern cur_vts];
    repeat (split; [assumption |]);
    (split; [right; exact Hd |]);
    repeat (split; [assumption |]); assumption.
  - rewrite imx219_s_ctrl_exposure_run. cbn [snd log with_priv priv].
    destruct Hok as (Hm & Hc & Ha & Hd & He & Ht & Hv).
    unfold state_ok.
    cbn [set_exposure_time cur_mode cfg_num analogue_gain digital_gain
         exposure_time test_pattern cur_vts].
    repeat (split; [assumption |]).
    split; [apply Z.mod_pos_bound; lia |].
    split; assumption.
  - rewrite imx219_s_ctrl_test_pattern_run. cbn [snd log with_priv priv].
    apply s_ctrl_defined_test_pattern in Hdef.
    rewrite (test_pattern_val_nth val Hdef).
    destruct Hok as (Hm & Hc & Ha & Hd & He & Ht & Hv).
    unfold state_ok.
    cbn [set_test_pattern cur_mode cfg_num analogue_gain digital_gain
         exposure_time test_pattern cur_vts].
    repeat (split; [assumption |]).
    exact Hv.
  - rewrite (imx219_s_ctrl_colour_run V4L2_CID_TEST_PATTERN_RED val _ w
               eq_refl). exact Hok.
  - rewrite (imx219_s_ctrl_colour_run V4L2_CID_TEST_PATTERN_GREENR val _ w
               eq_refl). exact Hok.
  - rewrite (imx219_s_ctrl_colour_run V4L2_CID_TEST_PATTERN_BLUE val _ w
               eq_refl). exact Hok.
  - rewrite (imx219_s_ctrl_colour_run V4L2_CID_TEST_PATTERN_GREENB val _ w
               eq_refl). exact Hok.
  - rewrite imx219_s_ctrl_vblank_run. cbn [snd log with_priv priv].
    destruct Hok as (Hm & Hc & Ha & Hd & He & Ht & Hv).
    unfold state_ok.
    cbn [set_cur_vts cur_mode cfg_num analogue_gain digital_gain
         exposure_time test_pattern cur_vts].
    repeat (split; [assumption |]).
    unfold vblank_case_vts. cbv zeta.
    destruct (negb _); [apply Z.mod_pos_bound; lia | exact Hv].
  - exact Hok.
Qed.

Lemma state_ok_set_fmt fmt w :
  state_ok (priv w) -> state_ok (priv (snd (imx219_set_fmt fmt w))).
Proof.
  intros Hok. unfold imx219_set_fmt.
  destruct (which fmt =? V4L2_SUBDEV_FORMAT_TRY); [exact Hok |].
  run_monad. cbn [snd priv].
  destruct Hok as (Hm & Hrest).
  split; [| exact Hrest].
  cbn [set_cur_mode cur_mode].
  destruct (imx219_find_best_fit_supported fmt) as [-> | ->];
    [left | right; left]; reflexivity.
Qed.

Lemma state_ok_ioctl cmd w :
  state_ok (priv w) -> state_ok (priv (snd (imx219_ioctl cmd w))).
Proof.
  intros Hok. destruct cmd as [| hdr | hdr | stream | c].
  - exact Hok.
  - exact Hok.
  - rewrite imx219_ioctl_set_hdr_cfg_run.
    destruct (cfg_hdr_mode hdr =? NO_HDR); [| exact Hok].
    cbn [snd log with_priv priv].
    destruct Hok as (Hm & Hc & Ha & Hd & He & Ht & Hv).
    unfold state_ok.
    cbn [set_cur_vts set_cur_mode cur_mode cfg_num analogue_gain
         digital_gain exposure_time test_pattern cur_vts].
    split; [left; reflexivity |].
    repeat (split; [assumption |]).
    vm_compute. split; [discriminate | reflexivity].
  - rewrite imx219_ioctl_quick_stream_run. exact Hok.
  - exact Hok.
Qed.

Lemma state_ok_compat_ioctl32 env cmd w :
  state_ok (priv w) ->
  state_ok (priv (snd (imx219_compat_ioctl32 env cmd w))).
Proof.
  intros Hok. destruct cmd as [| | up | up | c];
    cbn [imx219_compat_ioctl32]; cbv zeta.
  - destruct (kzalloc_ok env); exact Hok.
  - destruct (kzalloc_ok env); exact Hok.
  - destruct (kzalloc_ok env); cbn [negb]; [| exact Hok].
    destruct (nonzero (copy_from_user_left env)); cbn [negb];
      [exact Hok |].
    unfold bind.
    pose proof (state_ok_ioctl (RKMODULE_SET_HDR_CFG up) w Hok) as H.
    destruct (imx219_ioctl (RKMODULE_SET_HDR_CFG up) w) as [[r c] w1].
    exact H.
  - destruct (nonzero (copy_from_user_left env)); cbn [negb];
      [exact Hok |].
    unfold bind.
    pose proof (state_ok_ioctl (RKMODULE_SET_QUICK_STREAM (nth 0 up 0)) w
                  Hok) as H.
    destruct (imx219_ioctl (RKMODULE_SET_QUICK_STREAM (nth 0 up 0)) w)
      as [[r c] w1].
    exact H.
  - exact Hok.
Qed.

Lemma state_ok_call op w :
  call_defined op = true ->
  state_ok (priv w) -> state_ok (priv (call op w)).
Proof.
  intros Hdef Hok. destruct op; cbn [call].
  - apply state_ok_s_stream; exact Hok.
  - rewrite keeps_priv_s_power. exact Hok.
  - apply state_ok_s_ctrl; [exact Hdef | exact Hok].
  - apply state_ok_set_fmt; exact Hok.
  - rewrite keeps_priv_get_fmt. exact Hok.
  - apply state_ok_ioctl; exact Hok.
  - apply state_ok_compat_ioctl32; exact Hok.
  - rewrite keeps_priv_enum_mbus_code. exact Hok.
  - rewrite keeps_priv_enum_frame_interval. exact Hok.
  - rewrite keeps_priv_g_frame_interval. exact Hok.
  - rewrite keeps_priv_video_probe. exact Hok.
  - rewrite keeps_priv_ctrls_init. exact Hok.
Qed.

Lemma state_ok_calls ops : forall w,
  forallb call_defined ops = true ->
  state_ok (priv w) -> state_ok (priv (calls ops w)).
Proof.
  induction ops as [| op ops IH]; intros w Hdef Hok; [exact Hok |].
  cbn [forallb] in Hdef. apply andb_true_iff in Hdef.
  destruct Hdef as [Hop Hops].
  cbn [calls fold_left]. apply IH; [exact Hops |].
  apply state_ok_call; [exact Hop | exact Hok].
Qed.

(** X22.  From the state the probe sets up, after any calls of the entry
    points on any bus, with any arguments the C code defines them on (a
    test-pattern control carries an index of the pattern table, 0 to 4),
    the current mode is an entry of the catalog, [cfg_num] is the size of
    the catalog, the gain codes are within their registers' ranges, the
    test pattern is one of the pattern table and the 16-bit fields hold
    16-bit values.  Hence an index the interval enumeration accepts is one
    of the catalog, and the size reported is that entry's. *)
Theorem driver_state_invariant b ops :
  forallb call_defined ops = true ->
  let w := calls ops (world_initial b) in
  state_ok (priv w) /\
  forall fie,
    0 <= fie_index fie ->
    fst (fst (imx219_enum_frame_interval fie w)) = 0 ->
    exists mode,
      nth_error supported_modes (Z.to_nat (fie_index fie)) = Some mode /\
      fie_width (snd (fst (imx219_enum_frame_interval fie w))) = width mode /\
      fie_height (snd (fst (imx219_enum_frame_interval fie w)))
      = height mode.
Proof.
  intros Hdef. cbv zeta.
  assert (Hok : state_ok (priv (calls ops (world_initial b))))
    by (apply state_ok_calls; [exact Hdef | exact state_ok_initial]).
  split; [exact Hok |].
  intros fie Hidx. unfold imx219_enum_frame_interval. run_monad.
  destruct Hok as (_ & Hc & _). rewrite Hc.
  destruct (Z.leb_spec supported_modes_size (fie_index fie)) as [| Hlt];
    [unfold EINVAL; discriminate |].
  destruct (negb _); [unfold EINVAL; discriminate |].
  intros _. cbn [fst snd fie_width fie_height].
  destruct (supported_mode_at_cases (fie_index fie)) as [[E Em] | [E Em]];
    [lia | |]; rewrite Em, E; eexists; split; reflexivity || (split; reflexivity).
Qed.

(** A format change, a test pattern, a start on a bus whose transfer 60
    fails, a gain beyond the 16-bit local and an HDR configuration. *)
Lemma driver_state_invariant_witness :
  let b := bus_fails_at 60 in
  let ops :=
    [SET_FMT (request V4L2_SUBDEV_FORMAT_ACTIVE 3000 2000);
     S_CTRL {| ctrl_id := V4L2_CID_TEST_PATTERN; ctrl_val := 2 |};
     S_STREAM 1;
     S_CTRL (gain_ctrl 70000);
     IOCTL (RKMODULE_SET_HDR_CFG (hdr_cfg NO_HDR))] in
  forallb call_defined ops = true /\
  let w := calls ops (world_initial b) in
  state_ok (priv w) /\
  forall fie,
    0 <= fie_index fie ->
    fst (fst (imx219_enum_frame_interval fie w)) = 0 ->
    exists mode,
      nth_error supported_modes (Z.to_nat (fie_index fie)) = Some mode /\
      fie_width (snd (fst (imx219_enum_frame_interval fie w))) = width mode /\
      fie_height (snd (fst (imx219_enum_frame_interval fie w)))
      = height mode.
Proof.
  cbv zeta.
  split; [reflexivity |].
  apply (driver_state_invariant (bus_fails_at 60)
           [SET_FMT (request V4L2_SUBDEV_FORMAT_ACTIVE 3000 2000);
            S_CTRL {| ctrl_id := V4L2_CID_TEST_PATTERN; ctrl_val := 2 |};
            S_STREAM 1;
            S_CTRL (gain_ctrl 70000);
            IOCTL (RKMODULE_SET_HDR_CFG (hdr_cfg NO_HDR))]).
  reflexivity.
Defined.

(** ** The test pattern and the start sequence *)

(** X23.  The test-pattern control writes the pattern register and nothing
    else; the window of the pattern is written by a stream start.  After
    a pattern of the menu has been selected, a start on a bus that works
    sends the table of the current mode, the orientation, then the pattern
    again with the width and the height of the current mode as its window
    (for pattern 0 the disabling write alone), and the stream-enable
    write. *)
Theorem test_pattern_window_written_at_start val w :
  0 <= val <= 4 ->
  let p1 := set_test_pattern val (priv w) in
  let base := length (trace w) in
  (forall j, (j <= length (start_sequence p1))%nat ->
     ok w (base + j) = true) ->
  let '(ret1, _, w1) :=
    imx219_s_ctrl {| ctrl_id := V4L2_CID_TEST_PATTERN; ctrl_val := val |} w in
  let '(ret2, w2) := imx219_s_stream 1 w1 in
  ret1 = 0 /\ ret2 = 0 /\
  trace w1 = trace w ++ [reg_msg IMX219_REG_TP REG_VALUE_16BIT val] /\
  trace w2 =
    trace w1 ++
    table_msgs (reg_list (cur_mode (priv w))) ++
    [orientation_msg (priv w)] ++
    (if val =? 0 then [reg_msg IMX219_REG_TP REG_VALUE_16BIT 0]
     else [reg_msg IMX219_REG_TP REG_VALUE_16BIT val;
           reg_msg IMX219_REG_TP_WINDOW_WIDTH REG_VALUE_16BIT
             (width (cur_mode (priv w)));
           reg_msg IMX219_REG_TP_WINDOW_HEIGHT REG_VALUE_16BIT
             (height (cur_mode (priv w)))]) ++
    [stream_enable_msg].
Proof.
  intros Hval. cbv zeta. intros Hall.
  rewrite imx219_s_ctrl_test_pattern_run. cbv zeta.
  rewrite (test_pattern_val_nth val Hval).
  set (p1 := set_test_pattern val (priv w)) in *.
  set (w1 := log [reg_msg IMX219_REG_TP REG_VALUE_16BIT val]
               (with_priv p1 w)).
  pose proof (Hall 0%nat ltac:(lia)) as H0. rewrite Nat.add_0_r in H0.
  rewrite H0. cbn [status].
  rewrite (imx219_s_stream_start_ok 1 w1).
  - split; [reflexivity |]. split; [reflexivity |].
    split; [reflexivity |].
    cbn [log with_priv priv trace w1]. reflexivity.
  - reflexivity.
  - intros j Hj. change (priv w1) with p1 in Hj.
    unfold w1. rewrite ok_log, length_trace_log. cbn [length].
    change (ok (with_priv p1 w)) with (ok w).
    change (trace (with_priv p1 w)) with (trace w).
    replace (length (trace w) + 1 + j)%nat
      with (length (trace w) + (1 + j))%nat by lia.
    apply Hall. lia.
Qed.

Lemma test_pattern_window_written_at_start_witness :
  let val := 2 in
  let w := world_initial (bus_reads 0) in
  0 <= val <= 4 /\
  let p1 := set_test_pattern val (priv w) in
  let base := length (trace w) in
  (forall j, (j <= length (start_sequence p1))%nat ->
     ok w (base + j) = true) /\
  let '(ret1, _, w1) :=
    imx219_s_ctrl {| ctrl_id := V4L2_CID_TEST_PATTERN; ctrl_val := val |} w in
  let '(ret2, w2) := imx219_s_stream 1 w1 in
  ret1 = 0 /\ ret2 = 0 /\
  trace w1 = trace w ++ [reg_msg IMX219_REG_TP REG_VALUE_16BIT val] /\
  trace w2 =
    trace w1 ++
    table_msgs (reg_list (cur_mode (priv w))) ++
    [orientation_msg (priv w)] ++
    (if val =? 0 then [reg_msg IMX219_REG_TP REG_VALUE_16BIT 0]
     else [reg_msg IMX219_REG_TP REG_VALUE_16BIT val;
           reg_msg IMX219_REG_TP_WINDOW_WIDTH REG_VALUE_16BIT
             (width (cur_mode (priv w)));
           reg_msg IMX219_REG_TP_WINDOW_HEIGHT REG_VALUE_16BIT
             (height (cur_mode (priv w)))]) ++
    [stream_enable_msg].
Proof.
  cbv zeta.
  split; [lia |].
  split; [intros j _; reflexivity |].
  apply (test_pattern_window_written_at_start 2
           (world_initial (bus_reads 0))).
  - lia.
  - intros j _. reflexivity.
Defined.

(** ** A format change and the next start *)

Lemma vts_def_supported mode :
  In mode supported_modes ->
  u16 (u32 (vts_def mode - IMX219_EXP_LINES_MARGIN))
  = vts_def mode - IMX219_EXP_LINES_MARGIN.
Proof. intros [<- | [<- | []]]; reflexivity. Qed.

(** X24.  Setting the active format makes no bus transfer: it records the
    selected mode and publishes the three ranges, and the sensor is
    programmed for the mode by the next stream start.  On a bus that works
    that start returns 0 and sends the register table of the selected mode,
    the orientation, the test-pattern writes (with the size of the
    selected mode as window) and the stream-enable write, and it sets the
    recorded frame length to that of the selected mode less the exposure
    margin. *)
Theorem set_fmt_applied_by_next_start fmt w :
  which fmt = V4L2_SUBDEV_FORMAT_ACTIVE ->
  let mode := imx219_find_best_fit fmt in
  let p1 := set_cur_mode mode (priv w) in
  let base := length (trace w) in
  (forall j, (j < length (start_sequence p1))%nat ->
     ok w (base + 3 + j) = true) ->
  let '(_, _, w1) := imx219_set_fmt fmt w in
  let '(ret, w2) := imx219_s_stream 1 w1 in
  trace w1 =
    trace w ++ [hblank_range mode; vblank_range mode; pixel_rate_range mode] /\
  ret = 0 /\
  trace w2 =
    trace w1 ++
    table_msgs (reg_list mode) ++
    [orientation_msg (priv w)] ++
    test_pattern_msgs p1 ++
    [stream_enable_msg] /\
  cur_mode (priv w2) = mode /\
  cur_vts (priv w2) = vts_def mode - IMX219_EXP_LINES_MARGIN.
Proof.
  intros Hwhich. cbv zeta. intros Hall.
  rewrite (imx219_set_fmt_active fmt w Hwhich). cbv zeta.
  set (mode := imx219_find_best_fit fmt) in *.
  set (p1 := set_cur_mode mode (priv w)) in *.
  set (w1 := log [hblank_range mode; vblank_range mode;
                  pixel_rate_range mode] (with_priv p1 w)).
  rewrite (imx219_s_stream_start_ok 1 w1).
  - split; [reflexivity |]. split; [reflexivity |].
    split; [reflexivity |]. split; [reflexivity |].
    cbn [log with_priv priv w1 resync_vts set_cur_vts cur_vts cur_mode p1
         set_cur_mode].
    apply vts_def_supported.
    destruct (imx219_find_best_fit_supported fmt) as [E | E];
      unfold mode; rewrite E; [left | right; left]; reflexivity.
  - reflexivity.
  - intros j Hj. change (priv w1) with p1 in Hj.
    unfold w1. rewrite ok_log, length_trace_log. cbn [length].
    exact (Hall j Hj).
Qed.

Lemma set_fmt_applied_by_next_start_witness :
  let fmt := request V4L2_SUBDEV_FORMAT_ACTIVE 3000 2000 in
  let w := world_initial (bus_reads 0) in
  which fmt = V4L2_SUBDEV_FORMAT_ACTIVE /\
  let mode := imx219_find_best_fit fmt in
  let p1 := set_cur_mode mode (priv w) in
  let base := length (trace w) in
  (forall j, (j < length (start_sequence p1))%nat ->
     ok w (base + 3 + j) = true) /\
  mode = mode_3280_2464 /\
  let '(_, _, w1) := imx219_set_fmt fmt w in
  let '(ret, w2) := imx219_s_stream 1 w1 in
  trace w1 =
    trace w ++ [hblank_range mode; vblank_range mode; pixel_rate_range mode] /\
  ret = 0 /\
  trace w2 =
    trace w1 ++
    table_msgs (reg_list mode) ++
    [orientation_msg (priv w)] ++
    test_pattern_msgs p1 ++
    [stream_enable_msg] /\
  cur_mode (priv w2) = mode /\
  cur_vts (priv w2) = vts_def mode - IMX219_EXP_LINES_MARGIN.
Proof.
  cbv zeta.
  split; [reflexivity |].
  split; [intros j _; reflexivity |].
  split; [vm_compute; reflexivity |].
  apply (set_fmt_applied_by_next_start
           (request V4L2_SUBDEV_FORMAT_ACTIVE 3000 2000)
           (world_initial (bus_reads 0))).
  - reflexivity.
  - intros j _. reflexivity.
Defined.
